(** * The news application: editorial workflow, subscriptions, notifications

    A shallow embedding of the Django application [news_app]: the models of
    [models.py], the signal handlers of [signals.py], the permission classes
    of [permissions.py] and the views of [views.py] that implement the
    article approval workflow, the publisher join requests and the reader
    subscriptions.

    The relational store is a record of finite maps (one table per model,
    keyed by primary key) and of finite sets of pairs (one join table per
    many-to-many field).  Code that reads the wall clock, flashes a message,
    sends mail or posts a tweet runs in a small state monad over the store,
    the clock and an outbox of emitted events. *)

From stdpp Require Import gmap strings list sorting.

Open Scope string_scope.

Abbreviation pk := positive.

(** Time stamps are microseconds since the epoch ([timedelta] resolution). *)
Abbreviation datetime := Z.

(** ** models.py *)

Module Role.

(** [CustomUser.ROLE_CHOICES]. *)
Inductive t := reader | editor | journalist | publisher.

#[global] Instance eq_dec : EqDecision t.
Proof. solve_decision. Defined.

(** [get_role_display]: the human-readable half of each choice. *)
Definition display (r : t) : string :=
  match r with
  | reader => "Reader"
  | editor => "Editor"
  | journalist => "Journalist"
  | publisher => "Publisher"
  end.

End Role.

Module CustomUser.

(** The scalar columns of [CustomUser]; the three [subscribed_*] relations
    and [groups] are join tables of the store. *)
Record t := {
  username : string;
  email : string;
  first_name : string;
  last_name : string;
  role : Role.t;
}.

#[global] Instance eq_dec : EqDecision t.
Proof. solve_decision. Defined.

(** [AbstractUser.get_full_name]: first and last name joined by a space and
    stripped; the names themselves are taken to carry no surrounding blanks. *)
Definition get_full_name (u : t) : string :=
  if decide (first_name u = "") then last_name u
  else if decide (last_name u = "") then first_name u
  else first_name u +:+ " " +:+ last_name u.

End CustomUser.

Module Publisher.

(** The columns of [Publisher] the embedded code reads; [editors] and
    [journalists] are join tables of the store. *)
Record t := {
  name : string;
  description : string;
  website : string;
  owner : option pk;
  created_by : option pk;
}.

#[global] Instance eq_dec : EqDecision t.
Proof. solve_decision. Defined.

End Publisher.

Module Article.

Record t := {
  title : string;
  content : string;
  summary : string;
  author : pk;
  publisher : option pk;
  independently_published : bool;
  is_approved : bool;
  approved_by : option pk;
  is_rejected : bool;
  rejected_reason : option string;
  rejected_by : option pk;
  approval_date : option datetime;
  rejected_date : option datetime;
  created_at : datetime;
  updated_at : datetime;
  published_date : option datetime;
  image : option string;
}.

#[global] Instance eq_dec : EqDecision t.
Proof. solve_decision. Defined.

(** Attribute assignment, [article.f = v]. *)
Definition set_title (v : string) (a : t) : t :=
  {| title := v; content := content a; summary := summary a;
     author := author a; publisher := publisher a;
     independently_published := independently_published a;
     is_approved := is_approved a; approved_by := approved_by a;
     is_rejected := is_rejected a; rejected_reason := rejected_reason a;
     rejected_by := rejected_by a; approval_date := approval_date a;
     rejected_date := rejected_date a; created_at := created_at a;
     updated_at := updated_at a; published_date := published_date a;
     image := image a |}.
Definition set_content (v : string) (a : t) : t :=
  {| title := title a; content := v; summary := summary a; author := author a;
     publisher := publisher a;
     independently_published := independently_published a;
     is_approved := is_approved a; approved_by := approved_by a;
     is_rejected := is_rejected a; rejected_reason := rejected_reason a;
     rejected_by := rejected_by a; approval_date := approval_date a;
     rejected_date := rejected_date a; created_at := created_at a;
     updated_at := updated_at a; published_date := published_date a;
     image := image a |}.
Definition set_summary (v : string) (a : t) : t :=
  {| title := title a; content := content a; summary := v; author := author a;
     publisher := publisher a;
     independently_published := independently_published a;
     is_approved := is_approved a; approved_by := approved_by a;
     is_rejected := is_rejected a; rejected_reason := rejected_reason a;
     rejected_by := rejected_by a; approval_date := approval_date a;
     rejected_date := rejected_date a; created_at := created_at a;
     updated_at := updated_at a; published_date := published_date a;
     image := image a |}.
Definition set_publisher (v : option pk) (a : t) : t :=
  {| title := title a; content := content a; summary := summary a;
     author := author a; publisher := v;
     independently_published := independently_published a;
     is_approved := is_approved a; approved_by := approved_by a;
     is_rejected := is_rejected a; rejected_reason := rejected_reason a;
     rejected_by := rejected_by a; approval_date := approval_date a;
     rejected_date := rejected_date a; created_at := created_at a;
     updated_at := updated_at a; published_date := published_date a;
     image := image a |}.
Definition set_image (v : option string) (a : t) : t :=
  {| title := title a; content := content a; summary := summary a;
     author := author a; publisher := publisher a;
     independently_published := independently_published a;
     is_approved := is_approved a; approved_by := approved_by a;
     is_rejected := is_rejected a; rejected_reason := rejected_reason a;
     rejected_by := rejected_by a; approval_date := approval_date a;
     rejected_date := rejected_date a; created_at := created_at a;
     updated_at := updated_at a; published_date := published_date a;
     image := v |}.
Definition set_independently_published (v : bool) (a : t) : t :=
  {| title := title a; content := content a; summary := summary a;
     author := author a; publisher := publisher a;
     independently_published := v; is_approved := is_approved a;
     approved_by := approved_by a; is_rejected := is_rejected a;
     rejected_reason := rejected_reason a; rejected_by := rejected_by a;
     approval_date := approval_date a; rejected_date := rejected_date a;
     created_at := created_at a; updated_at := updated_at a;
     published_date := published_date a; image := image a |}.
Definition set_is_approved (v : bool) (a : t) : t :=
  {| title := title a; content := content a; summary := summary a;
     author := author a; publisher := publisher a;
     independently_published := independently_published a; is_approved := v;
     approved_by := approved_by a; is_rejected := is_rejected a;
     rejected_reason := rejected_reason a; rejected_by := rejected_by a;
     approval_date := approval_date a; rejected_date := rejected_date a;
     created_at := created_at a; updated_at := updated_at a;
     published_date := published_date a; image := image a |}.
Definition set_approved_by (v : option pk) (a : t) : t :=
  {| title := title a; content := content a; summary := summary a;
     author := author a; publisher := publisher a;
     independently_published := independently_published a;
     is_approved := is_approved a; approved_by := v;
     is_rejected := is_rejected a; rejected_reason := rejected_reason a;
     rejected_by := rejected_by a; approval_date := approval_date a;
     rejected_date := rejected_date a; created_at := created_at a;
     updated_at := updated_at a; published_date := published_date a;
     image := image a |}.
Definition set_is_rejected (v : bool) (a : t) : t :=
  {| title := title a; content := content a; summary := summary a;
     author := author a; publisher := publisher a;
     independently_published := independently_published a;
     is_approved := is_approved a; approved_by := approved_by a;
     is_rejected := v; rejected_reason := rejected_reason a;
     rejected_by := rejected_by a; approval_date := approval_date a;
     rejected_date := rejected_date a; created_at := created_at a;
     updated_at := updated_at a; published_date := published_date a;
     image := image a |}.
Definition set_rejected_reason (v : option string) (a : t) : t :=
  {| title := title a; content := content a; summary := summary a;
     author := author a; publisher := publisher a;
     independently_published := independently_published a;
     is_approved := is_approved a; approved_by := approved_by a;
     is_rejected := is_rejected a; rejected_reason := v;
     rejected_by := rejected_by a; approval_date := approval_date a;
     rejected_date := rejected_date a; created_at := created_at a;
     updated_at := updated_at a; published_date := published_date a;
     image := image a |}.
Definition set_rejected_by (v : option pk) (a : t) : t :=
  {| title := title a; content := content a; summary := summary a;
     author := author a; publisher := publisher a;
     independently_published := independently_published a;
     is_approved := is_approved a; approved_by := approved_by a;
     is_rejected := is_rejected a; rejected_reason := rejected_reason a;
     rejected_by := v; approval_date := approval_date a;
     rejected_date := rejected_date a; created_at := created_at a;
     updated_at := updated_at a; published_date := published_date a;
     image := image a |}.
Definition set_approval_date (v : option datetime) (a : t) : t :=
  {| title := title a; content := content a; summary := summary a;
     author := author a; publisher := publisher a;
     independently_published := independently_published a;
     is_approved := is_approved a; approved_by := approved_by a;
     is_rejected := is_rejected a; rejected_reason := rejected_reason a;
     rejected_by := rejected_by a; approval_date := v;
     rejected_date := rejected_date a; created_at := created_at a;
     updated_at := updated_at a; published_date := published_date a;
     image := image a |}.
Definition set_rejected_date (v : option datetime) (a : t) : t :=
  {| title := title a; content := content a; summary := summary a;
     author := author a; publisher := publisher a;
     independently_published := independently_published a;
     is_approved := is_approved a; approved_by := approved_by a;
     is_rejected := is_rejected a; rejected_reason := rejected_reason a;
     rejected_by := rejected_by a; approval_date := approval_date a;
     rejected_date := v; created_at := created_at a;
     updated_at := updated_at a; published_date := published_date a;
     image := image a |}.
Definition set_created_at (v : datetime) (a : t) : t :=
  {| title := title a; content := content a; summary := summary a;
     author := author a; publisher := publisher a;
     independently_published := independently_published a;
     is_approved := is_approved a; approved_by := approved_by a;
     is_rejected := is_rejected a; rejected_reason := rejected_reason a;
     rejected_by := rejected_by a; approval_date := approval_date a;
     rejected_date := rejected_date a; created_at := v;
     updated_at := updated_at a; published_date := published_date a;
     image := image a |}.
Definition set_updated_at (v : datetime) (a : t) : t :=
  {| title := title a; content := content a; summary := summary a;
     author := author a; publisher := publisher a;
     independently_published := independently_published a;
     is_approved := is_approved a; approved_by := approved_by a;
     is_rejected := is_rejected a; rejected_reason := rejected_reason a;
     rejected_by := rejected_by a; approval_date := approval_date a;
     rejected_date := rejected_date a; created_at := created_at a;
     updated_at := v; published_date := published_date a; image := image a |}.
Definition set_published_date (v : option datetime) (a : t) : t :=
  {| title := title a; content := content a; summary := summary a;
     author := author a; publisher := publisher a;
     independently_published := independently_published a;
     is_approved := is_approved a; approved_by := approved_by a;
     is_rejected := is_rejected a; rejected_reason := rejected_reason a;
     rejected_by := rejected_by a; approval_date := approval_date a;
     rejected_date := rejected_date a; created_at := created_at a;
     updated_at := updated_at a; published_date := v; image := image a |}.

(** The [status] property: rejection is tested first. *)
Definition status (a : t) : string :=
  if is_rejected a then "rejected"
  else if is_approved a then "approved"
  else "pending".

End Article.

Module JoinStatus.

(** [PublisherJoinRequest.STATUS_CHOICES]. *)
Inductive t := pending | approved | rejected.

#[global] Instance eq_dec : EqDecision t.
Proof. solve_decision. Defined.

End JoinStatus.

Module PublisherJoinRequest.

Record t := {
  user : pk;
  publisher : pk;
  status : JoinStatus.t;
  message : string;
  created_at : datetime;
  reviewed_at : option datetime;
  reviewed_by : option pk;
}.

#[global] Instance eq_dec : EqDecision t.
Proof. solve_decision. Defined.

Definition set_status (v : JoinStatus.t) (r : t) : t :=
  {| user := user r; publisher := publisher r; status := v;
     message := message r; created_at := created_at r;
     reviewed_at := reviewed_at r; reviewed_by := reviewed_by r |}.
Definition set_reviewed_at (v : option datetime) (r : t) : t :=
  {| user := user r; publisher := publisher r; status := status r;
     message := message r; created_at := created_at r; reviewed_at := v;
     reviewed_by := reviewed_by r |}.
Definition set_reviewed_by (v : option pk) (r : t) : t :=
  {| user := user r; publisher := publisher r; status := status r;
     message := message r; created_at := created_at r;
     reviewed_at := reviewed_at r; reviewed_by := v |}.

End PublisherJoinRequest.

(** ** The relational store *)

Module DB.

(** A join table holds pairs (row of the model that declares the field, row
    of the related model): [subscribed_publishers] holds (user, publisher),
    [subscribed_journalists] (subscriber, journalist), [publisher_editors]
    and [publisher_journalists] (publisher, user), [user_groups]
    (user, group name). *)
Record t := {
  users : gmap pk CustomUser.t;
  publishers : gmap pk Publisher.t;
  articles : gmap pk Article.t;
  join_requests : gmap pk PublisherJoinRequest.t;
  subscribed_newsletters : gset (pk * pk);
  subscribed_publishers : gset (pk * pk);
  subscribed_journalists : gset (pk * pk);
  publisher_editors : gset (pk * pk);
  publisher_journalists : gset (pk * pk);
  groups : gset string;
  user_groups : gset (pk * string);
}.

Definition empty : t :=
  {| users := ∅; publishers := ∅; articles := ∅; join_requests := ∅;
     subscribed_newsletters := ∅; subscribed_publishers := ∅;
     subscribed_journalists := ∅; publisher_editors := ∅;
     publisher_journalists := ∅; groups := ∅; user_groups := ∅ |}.

Definition set_users (v : gmap pk CustomUser.t) (d : t) : t :=
  {| users := v; publishers := publishers d; articles := articles d;
     join_requests := join_requests d;
     subscribed_newsletters := subscribed_newsletters d;
     subscribed_publishers := subscribed_publishers d;
     subscribed_journalists := subscribed_journalists d;
     publisher_editors := publisher_editors d;
     publisher_journalists := publisher_journalists d; groups := groups d;
     user_groups := user_groups d |}.
Definition set_articles (v : gmap pk Article.t) (d : t) : t :=
  {| users := users d; publishers := publishers d; articles := v;
     join_requests := join_requests d;
     subscribed_newsletters := subscribed_newsletters d;
     subscribed_publishers := subscribed_publishers d;
     subscribed_journalists := subscribed_journalists d;
     publisher_editors := publisher_editors d;
     publisher_journalists := publisher_journalists d; groups := groups d;
     user_groups := user_groups d |}.
Definition set_join_requests (v : gmap pk PublisherJoinRequest.t) (d : t) : t :=
  {| users := users d; publishers := publishers d; articles := articles d;
     join_requests := v; subscribed_newsletters := subscribed_newsletters d;
     subscribed_publishers := subscribed_publishers d;
     subscribed_journalists := subscribed_journalists d;
     publisher_editors := publisher_editors d;
     publisher_journalists := publisher_journalists d; groups := groups d;
     user_groups := user_groups d |}.
Definition set_subscribed_newsletters (v : gset (pk * pk)) (d : t) : t :=
  {| users := users d; publishers := publishers d; articles := articles d;
     join_requests := join_requests d; subscribed_newsletters := v;
     subscribed_publishers := subscribed_publishers d;
     subscribed_journalists := subscribed_journalists d;
     publisher_editors := publisher_editors d;
     publisher_journalists := publisher_journalists d; groups := groups d;
     user_groups := user_groups d |}.
Definition set_subscribed_publishers (v : gset (pk * pk)) (d : t) : t :=
  {| users := users d; publishers := publishers d; articles := articles d;
     join_requests := join_requests d;
     subscribed_newsletters := subscribed_newsletters d;
     subscribed_publishers := v;
     subscribed_journalists := subscribed_journalists d;
     publisher_editors := publisher_editors d;
     publisher_journalists := publisher_journalists d; groups := groups d;
     user_groups := user_groups d |}.
Definition set_subscribed_journalists (v : gset (pk * pk)) (d : t) : t :=
  {| users := users d; publishers := publishers d; articles := articles d;
     join_requests := join_requests d;
     subscribed_newsletters := subscribed_newsletters d;
     subscribed_publishers := subscribed_publishers d;
     subscribed_journalists := v; publisher_editors := publisher_editors d;
     publisher_journalists := publisher_journalists d; groups := groups d;
     user_groups := user_groups d |}.
Definition set_publisher_editors (v : gset (pk * pk)) (d : t) : t :=
  {| users := users d; publishers := publishers d; articles := articles d;
     join_requests := join_requests d;
     subscribed_newsletters := subscribed_newsletters d;
     subscribed_publishers := subscribed_publishers d;
     subscribed_journalists := subscribed_journalists d;
     publisher_editors := v; publisher_journalists := publisher_journalists d;
     groups := groups d; user_groups := user_groups d |}.
Definition set_publisher_journalists (v : gset (pk * pk)) (d : t) : t :=
  {| users := users d; publishers := publishers d; articles := articles d;
     join_requests := join_requests d;
     subscribed_newsletters := subscribed_newsletters d;
     subscribed_publishers := subscribed_publishers d;
     subscribed_journalists := subscribed_journalists d;
     publisher_editors := publisher_editors d; publisher_journalists := v;
     groups := groups d; user_groups := user_groups d |}.
Definition set_groups (v : gset string) (d : t) : t :=
  {| users := users d; publishers := publishers d; articles := articles d;
     join_requests := join_requests d;
     subscribed_newsletters := subscribed_newsletters d;
     subscribed_publishers := subscribed_publishers d;
     subscribed_journalists := subscribed_journalists d;
     publisher_editors := publisher_editors d;
     publisher_journalists := publisher_journalists d; groups := v;
     user_groups := user_groups d |}.
Definition set_user_groups (v : gset (pk * string)) (d : t) : t :=
  {| users := users d; publishers := publishers d; articles := articles d;
     join_requests := join_requests d;
     subscribed_newsletters := subscribed_newsletters d;
     subscribed_publishers := subscribed_publishers d;
     subscribed_journalists := subscribed_journalists d;
     publisher_editors := publisher_editors d;
     publisher_journalists := publisher_journalists d; groups := groups d;
     user_groups := v |}.

(** Managers of a many-to-many field [rel] seen from the row [k] that
    declares it: [k.rel.all()], [k.rel.exists()], [k.rel.add(x)],
    [k.rel.remove(x)] and [k.rel.clear()]. *)
Definition all {B} `{Countable B} (rel : gset (pk * B)) (k : pk) : gset B :=
  set_map snd (filter (λ p, p.1 = k) rel).

Definition exists_ {B} `{Countable B} (rel : gset (pk * B)) (k : pk) : bool :=
  negb (bool_decide (filter (λ p, p.1 = k) rel = ∅)).

Definition add {B} `{Countable B} (rel : gset (pk * B)) (k : pk) (x : B)
  : gset (pk * B) := {[ (k, x) ]} ∪ rel.

Definition remove {B} `{Countable B} (rel : gset (pk * B)) (k : pk) (x : B)
  : gset (pk * B) := rel ∖ {[ (k, x) ]}.

Definition clear {B} `{Countable B} (rel : gset (pk * B)) (k : pk)
  : gset (pk * B) := filter (λ p, p.1 ≠ k) rel.

End DB.

(** ** Requests, responses and effects *)

Module HttpRequest.

(** [POST] holds the text entries of the request body.  [POST_publisher] is
    the primary key denoted by the body's [publisher] entry ([None] when the
    entry is absent or blank) and [FILES_image] the name of an uploaded
    image. *)
Record t := {
  method : string;
  user : option pk;
  POST : gmap string string;
  POST_publisher : option pk;
  FILES_image : option string;
}.

End HttpRequest.

#[local] Set Warnings "-register-all".

Inductive json :=
| JString (s : string)
| JNumber (n : pk)
| JObject (members : list (string * json)).

(** What a view returns.  The template context of [render] is not kept. *)
Inductive HttpResponse :=
| redirect (to : string) (args : list pk)
| render (template_name : string)
| Http404
| redirect_to_login
| NotAuthenticated
| HttpResponseServerError
| HttpResponseNotAllowed
| Response (data : json) (status : nat).

Module Email.

(** One entry of the list handed to [send_mass_mail]. *)
Record t := {
  subject : string;
  message : string;
  from_email : string;
  recipient_list : list string;
}.

End Email.

Module messages.

Inductive level := info | success | error.

End messages.

Inductive Event :=
| flash (l : messages.level) (text : string)
| send_mass_mail (datatuple : list Email.t)
| post_tweet (text : string).

Module settings.

(** The two settings the embedded code reads. *)
Record t := {
  DEFAULT_FROM_EMAIL : string;
  ENABLE_TWITTER : bool;
}.

End settings.

(** The [n]-th call of [timezone.now()] while a request is served returns
    [clock n]; [ticks] counts the calls made so far. *)
Record World := {
  conf : settings.t;
  db : DB.t;
  clock : nat → datetime;
  ticks : nat;
  outbox : list Event;
}.

Inductive exn :=
| DoesNotExist
| ValidationError (message : string)
| ValueError
| DatabaseError.

(** A computation changes the world and either returns or raises; what was
    written before an exception stays written. *)
Definition M (A : Type) : Type := World → (exn + A) * World.

#[global] Instance M_ret : MRet M := λ A a w, (inr a, w).

#[global] Instance M_bind : MBind M := λ A B f m w,
  match m w with
  | (inr a, w') => f a w'
  | (inl e, w') => (inl e, w')
  end.

Definition raise {A} (e : exn) : M A := λ w, (inl e, w).

Definition read_db : M DB.t := λ w, (inr (db w), w).

Definition modify_db (f : DB.t → DB.t) : M unit := λ w,
  (inr (), {| conf := conf w; db := f (db w); clock := clock w;
              ticks := ticks w; outbox := outbox w |}).

Definition read_settings : M settings.t := λ w, (inr (conf w), w).

Definition timezone_now : M datetime := λ w,
  (inr (clock w (ticks w)),
   {| conf := conf w; db := db w; clock := clock w;
      ticks := S (ticks w); outbox := outbox w |}).

Definition emit (e : Event) : M unit := λ w,
  (inr (), {| conf := conf w; db := db w; clock := clock w;
              ticks := ticks w; outbox := outbox w ++ [e] |}).

(** Following a foreign key: the related row, or [DoesNotExist]. *)
Definition related {V} (table : DB.t → gmap pk V) (k : pk) : M V :=
  d ← read_db;
  match table d !! k with
  | Some row => mret row
  | None => raise DoesNotExist
  end.

(** Following a nullable foreign key. *)
Definition related_opt {V} (table : DB.t → gmap pk V) (k : option pk)
  : M (option V) :=
  match k with
  | Some k => row ← related table k; mret (Some row)
  | None => mret None
  end.

(** [try: m except ValidationError: ...]: whether [m] passed. *)
Definition passes (m : M unit) : M bool := λ w,
  match m w with
  | (inr _, w') => (inr true, w')
  | (inl (ValidationError _), w') => (inr false, w')
  | (inl e, w') => (inl e, w')
  end.

(** An exception no view catches becomes a server error. *)
Definition serve (view : M HttpResponse) (w : World) : HttpResponse * World :=
  match view w with
  | (inr r, w') => (r, w')
  | (inl _, w') => (HttpResponseServerError, w')
  end.

Definition newline : string := "
".

(** Python's [s[:n]]: a negative [n] counts from the end. *)
Definition slice_to (n : Z) (s : string) : string :=
  if decide (0 ≤ n)%Z then String.substring 0 (Z.to_nat n) s
  else String.substring 0 (Z.to_nat (Z.of_nat (String.length s) + n)) s.

(** Text is a sequence of characters, one [ascii] each: the embedding
    covers the text whose characters have code points below 256, so
    [String.length] is Python's [len]. *)
Module str.

(** [str.isspace] of one character: tab to carriage return, the four
    separators, the blank, next line and the no-break space. *)
Definition isspace (c : Ascii.ascii) : bool :=
  let n := Ascii.nat_of_ascii c in
  (9 <=? n)%nat && (n <=? 13)%nat
  || (28 <=? n)%nat && (n <=? 32)%nat
  || (n =? 133)%nat
  || (n =? 160)%nat.

Fixpoint lstrip (s : string) : string :=
  match s with
  | EmptyString => EmptyString
  | String c rest => if isspace c then lstrip rest else s
  end.

Fixpoint rstrip (s : string) : string :=
  match s with
  | EmptyString => EmptyString
  | String c rest =>
      match rstrip rest with
      | EmptyString => if isspace c then EmptyString
                       else String c EmptyString
      | kept => String c kept
      end
  end.

(** [s.strip()]. *)
Definition strip (s : string) : string := rstrip (lstrip s).

End str.

(** ** permissions.py *)

Module permissions.

(** [IsEditor.has_permission]: an authenticated user whose role is editor. *)
Definition IsEditor (d : DB.t) (request : HttpRequest.t) : bool :=
  match HttpRequest.user request with
  | None => false
  | Some u =>
      match DB.users d !! u with
      | None => false
      | Some row => bool_decide (CustomUser.role row = Role.editor)
      end
  end.

End permissions.

(** ** signals.py *)

Module signals.

(** [pre_save] receiver: stamp a first approval. *)
Definition set_approval_date (pk_ : pk) (instance : Article.t) : M Article.t :=
  d ← read_db;
  match DB.articles d !! pk_ with
  | Some old_instance =>
      if negb (Article.is_approved old_instance) && Article.is_approved instance
      then
        t ← timezone_now;
        let instance := Article.set_approval_date (Some t) instance in
        match Article.published_date instance with
        | None =>
            t' ← timezone_now;
            mret (Article.set_published_date (Some t') instance)
        | Some _ => mret instance
        end
      else mret instance
  | None => mret instance
  end.

(** [publisher.subscribed_readers.all()]: the users related to publisher
    [p] through [subscribed_publishers]. *)
Definition subscribed_readers (d : DB.t) (p : pk) : list (pk * CustomUser.t) :=
  filter (λ ur, (ur.1, p) ∈ DB.subscribed_publishers d)
         (map_to_list (DB.users d)).

(** [journalist.journalist_subscribers.all()]. *)
Definition journalist_subscribers (d : DB.t) (j : pk)
  : list (pk * CustomUser.t) :=
  filter (λ ur, (ur.1, j) ∈ DB.subscribed_journalists d)
         (map_to_list (DB.users d)).

(** [set.update]: model instances are hashed and compared by primary key,
    so a Python set of users is a finite map from key to row. *)
Definition update (subscribers : gmap pk CustomUser.t)
    (rows : list (pk * CustomUser.t)) : gmap pk CustomUser.t :=
  subscribers ∪ list_to_map rows.

(** The subject line and the body of the notification. *)
Definition notification_subject (article : Article.t) : string :=
  "New Article Published: " +:+ Article.title article.

Definition notification_message (article : Article.t)
    (author : CustomUser.t) (publisher : option Publisher.t) : string :=
  "
Hello,

A new article has been published that you might be interested in:

Title: " +:+ Article.title article +:+ "
Author: " +:+ (if decide (CustomUser.get_full_name author = "")
               then CustomUser.username author
               else CustomUser.get_full_name author) +:+ "
Publisher: " +:+ (match publisher with
                  | Some p => Publisher.name p
                  | None => "Independent"
                  end) +:+ "

Summary:
" +:+ (if decide (Article.summary article = "")
       then slice_to 200 (Article.content article) +:+ "..."
       else Article.summary article) +:+ "

Read the full article on our website.

Best regards,
The News Team
    ".

(** The loop that fills [emails]: one tuple per subscriber whose [email] is
    not empty. *)
Definition email_tuples (subject message from_email : string)
    (subscribers : list (pk * CustomUser.t)) : list Email.t :=
  (λ ur, {| Email.subject := subject; Email.message := message;
            Email.from_email := from_email;
            Email.recipient_list := [CustomUser.email ur.2] |})
  <$> filter (λ ur, CustomUser.email ur.2 ≠ "") subscribers.

(** The part of [send_email_notifications] up to the call of
    [send_mass_mail]: the list [emails] it prepares. *)
Definition prepare_emails (article : Article.t) : M (list Email.t) :=
  d ← read_db;
  publisher ← related_opt DB.publishers (Article.publisher article);
  let subscribers : gmap pk CustomUser.t := ∅ in
  let subscribers :=
    match Article.publisher article with
    | Some p => update subscribers (subscribed_readers d p)
    | None => subscribers
    end in
  author ← related DB.users (Article.author article);
  let subscribers :=
    update subscribers (journalist_subscribers d (Article.author article)) in
  let subscribers := delete (Article.author article) subscribers in
  if decide (subscribers = ∅) then mret []
  else
    s ← read_settings;
    mret (email_tuples (notification_subject article)
            (notification_message article author publisher)
            (settings.DEFAULT_FROM_EMAIL s) (map_to_list subscribers)).

(** Delivery is best effort: a failure of [send_mass_mail] is caught and
    printed, so the embedding records the hand-over only. *)
Definition send_email_notifications (article : Article.t) : M unit :=
  emails ← prepare_emails article;
  if decide (emails = []) then mret () else emit (send_mass_mail emails).

Definition _build_tweet_text (article : Article.t) : string :=
  let tweet_text := "New Article: " +:+ Article.title article
                    +:+ newline +:+ newline in
  let remaining_chars := (280 - Z.of_nat (String.length tweet_text) - 3)%Z in
  if decide (Article.summary article = "") then
    tweet_text +:+ slice_to remaining_chars (Article.content article) +:+ "..."
  else if decide (Z.of_nat (String.length (Article.summary article))
                  ≤ remaining_chars)%Z
  then tweet_text +:+ Article.summary article
  else tweet_text +:+ slice_to remaining_chars (Article.summary article)
       +:+ "...".

(** [utilities.twitter.post_to_twitter]: nothing unless [ENABLE_TWITTER]. *)
Definition post_to_twitter (message : string) : M unit :=
  s ← read_settings;
  if settings.ENABLE_TWITTER s then emit (post_tweet message) else mret ().

(** [post_save] receiver.  An approval stamped more than ten seconds ago
    counts as already announced. *)
Definition notify_subscribers_on_approval (instance : Article.t)
    (created : bool) : M unit :=
  if negb (Article.is_approved instance) then mret ()
  else
    stale ← (if created then mret false
             else match Article.approval_date instance with
                  | Some approval_date =>
                      now ← timezone_now;
                      mret (bool_decide (10000000 < now - approval_date)%Z)
                  | None => mret false
                  end);
    if (stale : bool) then mret ()
    else
      send_email_notifications instance;;
      post_to_twitter (_build_tweet_text instance).

End signals.

(** ** models.py: validation and saving *)

Module models.

(** [Article.clean]. *)
Definition Article_clean (self : Article.t) : M unit :=
  author ← related DB.users (Article.author self);
  (if decide (CustomUser.role author ≠ Role.journalist)
   then raise (ValidationError
                 "Only users with 'journalist' role can author articles.")
   else mret ());;
  match Article.approved_by self with
  | Some e =>
      approved_by ← related DB.users e;
      if decide (CustomUser.role approved_by ≠ Role.editor)
      then raise (ValidationError
                    "Only users with 'editor' role can approve articles.")
      else mret ()
  | None => mret ()
  end;;
  if Article.independently_published self then
    has_editor_mark ←
      (if Article.is_approved self || Article.is_rejected self then mret true
       else if bool_decide (is_Some (Article.approved_by self)) then mret true
       else match Article.rejected_by self with
            | Some e => _ ← related DB.users e; mret true
            | None => mret false
            end);
    if (has_editor_mark : bool)
    then raise (ValidationError
      "Independent articles cannot be approved or rejected by an editor.")
    else mret ()
  else mret ().

(** [Article.save] of an instance whose primary key is [pk_]: the
    [pre_save] receiver, the automatic time stamps, the write of the row
    (an insert when the table has no row [pk_]) and the [post_save]
    receiver. *)
Definition Article_save (pk_ : pk) (instance : Article.t) : M unit :=
  instance ← signals.set_approval_date pk_ instance;
  d ← read_db;
  let created := bool_decide (DB.articles d !! pk_ = None) in
  instance ← (if created
              then t ← timezone_now; mret (Article.set_created_at t instance)
              else mret instance);
  t ← timezone_now;
  let instance := Article.set_updated_at t instance in
  modify_db (λ d, DB.set_articles (<[pk_ := instance]> (DB.articles d)) d);;
  signals.notify_subscribers_on_approval instance created.

(** [PublisherJoinRequest.save] of an existing instance. *)
Definition PublisherJoinRequest_save (pk_ : pk)
    (instance : PublisherJoinRequest.t) : M unit :=
  modify_db (λ d,
    DB.set_join_requests (<[pk_ := instance]> (DB.join_requests d)) d).

(** The columns of [CustomUser] that [update_fields] may name: the
    concrete fields of [AbstractUser] and of the model, the primary key
    left out.  The record keeps five of them. *)
Definition CustomUser_columns : list string :=
  ["password"; "last_login"; "is_superuser"; "username"; "first_name";
   "last_name"; "email"; "is_staff"; "is_active"; "date_joined"; "role";
   "created_at"; "updated_at"].

Definition CustomUser_write (fields : list string) (self old : CustomUser.t)
  : CustomUser.t :=
  let pick {A} (name : string) (f : CustomUser.t → A) : A :=
    if bool_decide (name ∈ fields) then f self else f old in
  {| CustomUser.username := pick "username" CustomUser.username;
     CustomUser.email := pick "email" CustomUser.email;
     CustomUser.first_name := pick "first_name" CustomUser.first_name;
     CustomUser.last_name := pick "last_name" CustomUser.last_name;
     CustomUser.role := pick "role" CustomUser.role |}.

(** [Model.save] for a user: the primary key the instance has afterwards.
    Without [update_fields] the whole row is written, under a fresh key when
    the instance has none.  An empty [update_fields] writes nothing; a
    non-empty one updates the named columns of a row that must exist. *)
Definition Model_save (self_pk : option pk) (self : CustomUser.t)
    (update_fields : option (list string)) : M (option pk) :=
  d ← read_db;
  match update_fields with
  | None =>
      let k := default (fresh (dom (DB.users d))) self_pk in
      modify_db (λ d, DB.set_users (<[k := self]> (DB.users d)) d);;
      mret (Some k)
  | Some [] => mret self_pk
  | Some fields =>
      if bool_decide (Forall (λ f, f ∈ CustomUser_columns) fields) then
        match self_pk with
        | None => raise ValueError
        | Some k =>
            match DB.users d !! k with
            | None => raise DatabaseError
            | Some old =>
                modify_db (λ d,
                  DB.set_users
                    (<[k := CustomUser_write fields self old]> (DB.users d))
                    d);;
                mret (Some k)
            end
        end
      else raise ValueError
  end.

(** [CustomUser.save]; [update_fields] is the keyword argument of that
    name, [None] when the caller passes none.  A related manager of an
    instance without primary key raises [ValueError]. *)
Definition CustomUser_save (self_pk : option pk) (self : CustomUser.t)
    (update_fields : option (list string)) : M pk :=
  let is_new := bool_decide (self_pk = None) in
  saved ← Model_save self_pk self update_fields;
  match saved with
  | None => raise ValueError
  | Some k =>
      (if decide (CustomUser.role self = Role.journalist) then
         modify_db (λ d,
           DB.set_subscribed_newsletters
             (DB.clear (DB.subscribed_newsletters d) k) d);;
         modify_db (λ d,
           DB.set_subscribed_journalists
             (DB.clear (DB.subscribed_journalists d) k) d);;
         modify_db (λ d,
           DB.set_subscribed_publishers
             (DB.clear (DB.subscribed_publishers d) k) d)
       else mret ());;
      (if is_new || bool_decide ("role" ∈ default [] update_fields) then
         let group_name := Role.display (CustomUser.role self) in
         modify_db (λ d, DB.set_user_groups (DB.clear (DB.user_groups d) k) d);;
         modify_db (λ d, DB.set_groups ({[ group_name ]} ∪ DB.groups d) d);;
         modify_db (λ d,
           DB.set_user_groups (DB.add (DB.user_groups d) k group_name) d)
       else mret ());;
      mret k
  end.

(** [CustomUser.clean]. *)
Definition CustomUser_clean (self_pk : option pk) (self : CustomUser.t)
  : M unit :=
  match self_pk with
  | None => mret ()
  | Some k =>
      if decide (CustomUser.role self = Role.journalist) then
        d ← read_db;
        if DB.exists_ (DB.subscribed_newsletters d) k
           || DB.exists_ (DB.subscribed_journalists d) k
        then raise (ValidationError
                      "Journalists cannot have reader subscriptions.")
        else mret ()
      else mret ()
  end.


(** [article.delete()]: no other table refers to an article. *)
Definition Article_delete (pk_ : pk) : M unit :=
  modify_db (λ d, DB.set_articles (delete pk_ (DB.articles d)) d).

End models.

(** ** forms.py *)

Module forms.

(** [request.POST.get(key, "")]. *)
Definition POST_get (request : HttpRequest.t) (key : string) : string :=
  default "" (HttpRequest.POST request !! key).

(** [forms.CharField.clean]: the value is stripped; an empty one is
    refused when the field is required and is the empty string otherwise;
    any other value must keep to [max_length] and hold no null character.
    [None] stands for a validation error of the field. *)
Definition CharField_clean (required : bool) (max_length : option nat)
    (value : string) : option string :=
  let value := str.strip value in
  if decide (value = "") then (if required then None else Some "")
  else if match max_length with
          | Some n => bool_decide (n < String.length value)%nat
          | None => false
          end
  then None
  else if bool_decide (Ascii.zero ∈ String.list_ascii_of_string value)
  then None
  else Some value.

(** The entries of [cleaned_data]; a field that failed validation has
    none.  [title] is a [CharField(max_length=300)], [content] a
    [TextField], [summary] a [TextField(max_length=500, blank=True)] and
    [publisher] an optional choice among the publishers. *)
Definition cleaned_title (request : HttpRequest.t) : option string :=
  CharField_clean true (Some 300%nat) (POST_get request "title").

Definition cleaned_content (request : HttpRequest.t) : option string :=
  CharField_clean true None (POST_get request "content").

Definition cleaned_summary (request : HttpRequest.t) : option string :=
  CharField_clean false (Some 500%nat) (POST_get request "summary").

Definition cleaned_publisher (d : DB.t) (request : HttpRequest.t)
  : option (option pk) :=
  match HttpRequest.POST_publisher request with
  | Some p => if bool_decide (is_Some (DB.publishers d !! p))
              then Some (Some p) else None
  | None => Some None
  end.

(** Field validation of [ArticleForm]: no field has an error. *)
Definition ArticleForm_fields_valid (d : DB.t) (request : HttpRequest.t)
  : bool :=
  bool_decide (is_Some (cleaned_title request))
  && bool_decide (is_Some (cleaned_content request))
  && bool_decide (is_Some (cleaned_summary request))
  && bool_decide (is_Some (cleaned_publisher d request)).

(** [construct_instance]: the entries of [cleaned_data] for [title],
    [content], [publisher], [image] and [summary] assigned to the instance;
    a field without entry is left alone, and an image is replaced only
    when one is uploaded. *)
Definition ArticleForm_construct (d : DB.t) (request : HttpRequest.t)
    (instance : Article.t) : Article.t :=
  let instance :=
    match cleaned_title request with
    | Some title => Article.set_title title instance
    | None => instance
    end in
  let instance :=
    match cleaned_content request with
    | Some content => Article.set_content content instance
    | None => instance
    end in
  let instance :=
    match cleaned_publisher d request with
    | Some publisher => Article.set_publisher publisher instance
    | None => instance
    end in
  let instance :=
    match HttpRequest.FILES_image request with
    | Some file => Article.set_image (Some file) instance
    | None => instance
    end in
  match cleaned_summary request with
  | Some summary => Article.set_summary summary instance
  | None => instance
  end.

(** [form.is_valid()] followed by [form.save(commit=False)]: the instance
    to save when the fields validate and the model's [clean] passes. *)
Definition ArticleForm_is_valid (request : HttpRequest.t)
    (instance : Article.t) : M (option Article.t) :=
  d ← read_db;
  let article_instance := ArticleForm_construct d request instance in
  clean_ok ← passes (models.Article_clean article_instance);
  if ArticleForm_fields_valid d request && clean_ok
  then mret (Some article_instance)
  else mret None.

(** A new [Article()] with the defaults of the model; the view assigns
    [author] before it saves. *)
Definition Article_default (author : pk) : Article.t :=
  {| Article.title := ""; Article.content := ""; Article.summary := "";
     Article.author := author; Article.publisher := None;
     Article.independently_published := false;
     Article.is_approved := false; Article.approved_by := None;
     Article.is_rejected := false; Article.rejected_reason := None;
     Article.rejected_by := None; Article.approval_date := None;
     Article.rejected_date := None; Article.created_at := 0;
     Article.updated_at := 0; Article.published_date := None;
     Article.image := None |}.

(** [Article.clean] as the form of [create_article] runs it: the instance
    has no [author_id] yet, so the test of the author's role is skipped. *)
Definition Article_clean_without_author (self : Article.t) : M unit :=
  match Article.approved_by self with
  | Some e =>
      approved_by ← related DB.users e;
      if decide (CustomUser.role approved_by ≠ Role.editor)
      then raise (ValidationError
                    "Only users with 'editor' role can approve articles.")
      else mret ()
  | None => mret ()
  end;;
  if Article.independently_published self then
    has_editor_mark ←
      (if Article.is_approved self || Article.is_rejected self then mret true
       else if bool_decide (is_Some (Article.approved_by self)) then mret true
       else match Article.rejected_by self with
            | Some e => _ ← related DB.users e; mret true
            | None => mret false
            end);
    if (has_editor_mark : bool)
    then raise (ValidationError
      "Independent articles cannot be approved or rejected by an editor.")
    else mret ()
  else mret ().

(** [ArticleForm(request.POST, request.FILES, user=...)] without instance:
    [is_valid()] and [save(commit=False)], then [article.author = author]. *)
Definition ArticleForm_new (request : HttpRequest.t) (author : pk)
  : M (option Article.t) :=
  d ← read_db;
  let article := ArticleForm_construct d request (Article_default author) in
  clean_ok ← passes (Article_clean_without_author article);
  if ArticleForm_fields_valid d request && clean_ok
  then mret (Some article)
  else mret None.

End forms.

(** ** views.py *)

Module views.

(** [request.user] when it is authenticated. *)
Definition request_user (d : DB.t) (request : HttpRequest.t)
  : option (pk * CustomUser.t) :=
  u ← HttpRequest.user request;
  row ← DB.users d !! u;
  Some (u, row).

(** The [login_required] decorator. *)
Definition login_required (request : HttpRequest.t)
    (view : pk → CustomUser.t → M HttpResponse) : M HttpResponse :=
  d ← read_db;
  match request_user d request with
  | Some (u, user) => view u user
  | None => mret redirect_to_login
  end.

Definition messages_error (text : string) : M unit :=
  emit (flash messages.error text).

Definition messages_info (text : string) : M unit :=
  emit (flash messages.info text).

Definition messages_success (text : string) : M unit :=
  emit (flash messages.success text).

(** The part of [edit_article] after the permission checks. *)
Definition edit_article_form (request : HttpRequest.t) (pk_ : pk)
    (user : CustomUser.t) (article : Article.t) : M HttpResponse :=
  if decide (HttpRequest.method request = "POST") then
    form ← forms.ArticleForm_is_valid request article;
    match form with
    | Some article_instance =>
        let article_instance :=
          if bool_decide (CustomUser.role user = Role.journalist)
             && Article.is_rejected article_instance
          then Article.set_rejected_date None
                 (Article.set_rejected_by None
                    (Article.set_rejected_reason None
                       (Article.set_is_rejected false article_instance)))
          else article_instance in
        models.Article_save pk_ article_instance;;
        messages_success "Article updated successfully!";;
        mret (redirect "article_detail" [pk_])
    | None => mret (render "news_app/article_form.html")
    end
  else mret (render "news_app/article_form.html").

Definition edit_article (request : HttpRequest.t) (pk_ : pk)
  : M HttpResponse :=
  login_required request (λ u user,
    d ← read_db;
    match DB.articles d !! pk_ with
    | None => mret Http404
    | Some article =>
        if decide (CustomUser.role user = Role.journalist) then
          if decide (Article.author article ≠ u) then
            messages_error "You can only edit your own articles.";;
            mret (redirect "my_articles" [])
          else if Article.is_approved article then
            messages_error
              "Cannot edit approved articles. Contact an editor.";;
            mret (redirect "my_articles" [])
          else edit_article_form request pk_ user article
        else if decide (CustomUser.role user ≠ Role.editor) then
          messages_error "You do not have permission to edit articles.";;
          mret (redirect "home" [])
        else edit_article_form request pk_ user article
    end).

Definition approve_article (request : HttpRequest.t) (pk_ : pk)
  : M HttpResponse :=
  login_required request (λ u user,
    d ← read_db;
    match DB.articles d !! pk_ with
    | None => mret Http404
    | Some article =>
        if Article.is_rejected article then
          messages_error "This article was rejected and cannot be approved.";;
          mret (redirect "pending_articles" [])
        else if Article.is_approved article then
          messages_info "This article is already approved.";;
          mret (redirect "pending_articles" [])
        else if decide (HttpRequest.method request = "POST") then
          let article := Article.set_is_approved true article in
          let article := Article.set_approved_by (Some u) article in
          t ← timezone_now;
          let article := Article.set_approval_date (Some t) article in
          t ← timezone_now;
          let article := Article.set_published_date (Some t) article in
          models.Article_save pk_ article;;
          mret (redirect "pending_articles" [])
        else mret (render "news_app/approve_article.html")
    end).

Definition reject_article (request : HttpRequest.t) (pk_ : pk)
  : M HttpResponse :=
  login_required request (λ u user,
    d ← read_db;
    match DB.articles d !! pk_ with
    | None => mret Http404
    | Some article =>
        if decide (HttpRequest.method request = "POST") then
          let article := Article.set_is_approved false article in
          let article := Article.set_is_rejected true article in
          let article := Article.set_rejected_by (Some u) article in
          t ← timezone_now;
          let article := Article.set_rejected_date (Some t) article in
          let article :=
            Article.set_rejected_reason
              (Some (forms.POST_get request "reason")) article in
          models.Article_save pk_ article;;
          messages_success "Article rejected.";;
          mret (redirect "pending_articles" [])
        else mret (render "news_app/reject_article.html")
    end).

Definition publish_independently (request : HttpRequest.t) (pk_ : pk)
  : M HttpResponse :=
  login_required request (λ u user,
    d ← read_db;
    match DB.articles d !! pk_ with
    | None => mret Http404
    | Some article =>
        if decide (Article.author article ≠ u) then mret Http404
        else
          let article := Article.set_independently_published true article in
          let article := Article.set_is_approved true article in
          t ← timezone_now;
          let article := Article.set_approval_date (Some t) article in
          t ← timezone_now;
          let article := Article.set_published_date (Some t) article in
          models.Article_save pk_ article;;
          messages_success "Your article has been published independently.";;
          mret (render "news_app/my_articles.html")
    end).

Definition approve_join_request (request : HttpRequest.t) (request_id : pk)
  : M HttpResponse :=
  login_required request (λ u user,
    d ← read_db;
    match DB.join_requests d !! request_id with
    | None => mret Http404
    | Some join_req =>
        publisher ← related DB.publishers
                      (PublisherJoinRequest.publisher join_req);
        _ ← related_opt DB.users (Publisher.owner publisher);
        if decide (Some u ≠ Publisher.owner publisher) then
          messages_error "You are not allowed to approve this request.";;
          mret (redirect "publisher_dashboard"
                  [PublisherJoinRequest.publisher join_req])
        else
          let join_req :=
            PublisherJoinRequest.set_status JoinStatus.approved join_req in
          let join_req :=
            PublisherJoinRequest.set_reviewed_by (Some u) join_req in
          t ← timezone_now;
          let join_req :=
            PublisherJoinRequest.set_reviewed_at (Some t) join_req in
          models.PublisherJoinRequest_save request_id join_req;;
          requester ← related DB.users (PublisherJoinRequest.user join_req);
          (if decide (CustomUser.role requester = Role.journalist) then
             modify_db (λ d,
               DB.set_publisher_journalists
                 (DB.add (DB.publisher_journalists d)
                    (PublisherJoinRequest.publisher join_req)
                    (PublisherJoinRequest.user join_req)) d)
           else if decide (CustomUser.role requester = Role.editor) then
             modify_db (λ d,
               DB.set_publisher_editors
                 (DB.add (DB.publisher_editors d)
                    (PublisherJoinRequest.publisher join_req)
                    (PublisherJoinRequest.user join_req)) d)
           else mret ());;
          messages_success
            (CustomUser.username requester +:+ " has been added to the team.");;
          mret (redirect "publisher_join_requests" [])
    end).

(** The statements after the first [return redirect(...)] of the source
    are unreachable and have no counterpart here. *)
Definition reject_join_request (request : HttpRequest.t) (request_id : pk)
  : M HttpResponse :=
  login_required request (λ u user,
    d ← read_db;
    match DB.join_requests d !! request_id with
    | None => mret Http404
    | Some join_req =>
        publisher ← related DB.publishers
                      (PublisherJoinRequest.publisher join_req);
        _ ← related_opt DB.users (Publisher.owner publisher);
        if decide (Some u ≠ Publisher.owner publisher) then
          messages_error "You are not allowed to approve this request.";;
          mret (redirect "publisher_dashboard"
                  [PublisherJoinRequest.publisher join_req])
        else
          let join_req :=
            PublisherJoinRequest.set_status JoinStatus.rejected join_req in
          let join_req :=
            PublisherJoinRequest.set_reviewed_by (Some u) join_req in
          t ← timezone_now;
          let join_req :=
            PublisherJoinRequest.set_reviewed_at (Some t) join_req in
          models.PublisherJoinRequest_save request_id join_req;;
          requester ← related DB.users (PublisherJoinRequest.user join_req);
          messages_success
            ("Join request from " +:+ CustomUser.username requester
             +:+ " has been rejected.");;
          mret (redirect "publisher_join_requests" [])
    end).

(** [order_by("-published_date")]: a row without date sorts as the oldest,
    the way SQLite orders NULL. *)
Definition not_later (x y : option datetime) : Prop :=
  match x, y with
  | None, _ => True
  | Some _, None => False
  | Some a, Some b => (a ≤ b)%Z
  end.

#[global] Instance not_later_dec x y : Decision (not_later x y).
Proof. destruct x, y; simpl; apply _. Defined.

Definition newest_first (x y : pk * Article.t) : Prop :=
  not_later (Article.published_date y.2) (Article.published_date x.2).

#[global] Instance newest_first_dec x y : Decision (newest_first x y).
Proof. unfold newest_first. apply _. Defined.

(** [SubscriptionArticlesView.get_queryset] for the authenticated user [u]:
    the rows of the query, evaluated. *)
Definition SubscriptionArticlesView_get_queryset (d : DB.t) (u : pk)
    (user : CustomUser.t) : list (pk * Article.t) :=
  if decide (CustomUser.role user ≠ Role.reader) then []
  else
    let subscribed_publishers := DB.all (DB.subscribed_publishers d) u in
    let subscribed_journalists := DB.all (DB.subscribed_journalists d) u in
    let articles :=
      filter (λ row : pk * Article.t,
                (match Article.publisher row.2 with
                 | Some p => bool_decide (p ∈ subscribed_publishers)
                 | None => false
                 end
                 || bool_decide (Article.author row.2 ∈ subscribed_journalists))
                && Article.is_approved row.2)
             (map_to_list (DB.articles d)) in
    merge_sort newest_first (remove_dups articles).

(** [@api_view(methods)] with [@permission_classes([IsAuthenticated])]:
    permissions are checked before the method. *)
Definition api_view (methods : list string) (request : HttpRequest.t)
    (view : pk → CustomUser.t → M HttpResponse) : M HttpResponse :=
  d ← read_db;
  match request_user d request with
  | None => mret NotAuthenticated
  | Some (u, user) =>
      if bool_decide (HttpRequest.method request ∈ methods) then view u user
      else mret HttpResponseNotAllowed
  end.

Definition HTTP_200_OK : nat := 200.
Definition HTTP_201_CREATED : nat := 201.
Definition HTTP_403_FORBIDDEN : nat := 403.

Definition subscribe_to_publisher (request : HttpRequest.t)
    (publisher_id : pk) : M HttpResponse :=
  api_view ["POST"] request (λ u user,
    if decide (CustomUser.role user ≠ Role.reader) then
      mret (Response
              (JObject [("error",
                         JString "Only readers can subscribe to publishers")])
              HTTP_403_FORBIDDEN)
    else
      d ← read_db;
      match DB.publishers d !! publisher_id with
      | None => mret Http404
      | Some publisher =>
          if decide ((u, publisher_id) ∈ DB.subscribed_publishers d) then
            mret (Response
                    (JObject [("message",
                               JString ("Already subscribed to "
                                        +:+ Publisher.name publisher))])
                    HTTP_200_OK)
          else
            modify_db (λ d,
              DB.set_subscribed_publishers
                (DB.add (DB.subscribed_publishers d) u publisher_id) d);;
            mret (Response
                    (JObject [("message",
                               JString ("Successfully subscribed to "
                                        +:+ Publisher.name publisher));
                              ("publisher",
                               JObject [("id", JNumber publisher_id);
                                        ("name",
                                         JString (Publisher.name publisher))])])
                    HTTP_201_CREATED)
      end).

Definition unsubscribe_from_publisher (request : HttpRequest.t)
    (publisher_id : pk) : M HttpResponse :=
  api_view ["DELETE"] request (λ u user,
    if decide (CustomUser.role user ≠ Role.reader) then
      mret (Response
              (JObject [("error",
                         JString "Only readers can manage subscriptions")])
              HTTP_403_FORBIDDEN)
    else
      d ← read_db;
      match DB.publishers d !! publisher_id with
      | None => mret Http404
      | Some publisher =>
          if decide ((u, publisher_id) ∉ DB.subscribed_publishers d) then
            mret (Response
                    (JObject [("message",
                               JString ("Not subscribed to "
                                        +:+ Publisher.name publisher))])
                    HTTP_200_OK)
          else
            modify_db (λ d,
              DB.set_subscribed_publishers
                (DB.remove (DB.subscribed_publishers d) u publisher_id) d);;
            mret (Response
                    (JObject [("message",
                               JString ("Successfully unsubscribed from "
                                        +:+ Publisher.name publisher))])
                    HTTP_200_OK)
      end).

(** [get_object_or_404(CustomUser, id=journalist_id, role="journalist")]. *)
Definition get_journalist_or_404 (d : DB.t) (journalist_id : pk)
  : option CustomUser.t :=
  match DB.users d !! journalist_id with
  | Some row =>
      if decide (CustomUser.role row = Role.journalist) then Some row
      else None
  | None => None
  end.

Definition subscribe_to_journalist (request : HttpRequest.t)
    (journalist_id : pk) : M HttpResponse :=
  api_view ["POST"] request (λ u user,
    if decide (CustomUser.role user ≠ Role.reader) then
      mret (Response
              (JObject [("error",
                         JString "Only readers can subscribe to journalists")])
              HTTP_403_FORBIDDEN)
    else
      d ← read_db;
      match get_journalist_or_404 d journalist_id with
      | None => mret Http404
      | Some journalist =>
          if decide ((u, journalist_id) ∈ DB.subscribed_journalists d) then
            mret (Response
                    (JObject [("message",
                               JString ("Already subscribed to "
                                        +:+ CustomUser.username journalist))])
                    HTTP_200_OK)
          else
            modify_db (λ d,
              DB.set_subscribed_journalists
                (DB.add (DB.subscribed_journalists d) u journalist_id) d);;
            mret (Response
                    (JObject [("message",
                               JString ("Successfully subscribed to "
                                        +:+ CustomUser.username journalist));
                              ("journalist",
                               JObject [("id", JNumber journalist_id);
                                        ("username",
                                         JString
                                           (CustomUser.username journalist))])])
                    HTTP_201_CREATED)
      end).

Definition unsubscribe_from_journalist (request : HttpRequest.t)
    (journalist_id : pk) : M HttpResponse :=
  api_view ["POST"] request (λ u user,
    if decide (CustomUser.role user ≠ Role.reader) then
      mret (Response
              (JObject [("error",
                         JString "Only readers can manage subscriptions")])
              HTTP_403_FORBIDDEN)
    else
      d ← read_db;
      match get_journalist_or_404 d journalist_id with
      | None => mret Http404
      | Some journalist =>
          if decide ((u, journalist_id) ∉ DB.subscribed_journalists d) then
            mret (Response
                    (JObject [("message",
                               JString ("Not subscribed to "
                                        +:+ CustomUser.username journalist))])
                    HTTP_200_OK)
          else
            modify_db (λ d,
              DB.set_subscribed_journalists
                (DB.remove (DB.subscribed_journalists d) u journalist_id) d);;
            mret (Response
                    (JObject [("message",
                               JString ("Successfully unsubscribed from "
                                        +:+ CustomUser.username journalist))])
                    HTTP_200_OK)
      end).


Definition delete_article (request : HttpRequest.t) (pk_ : pk)
  : M HttpResponse :=
  login_required request (λ u user,
    d ← read_db;
    match DB.articles d !! pk_ with
    | None => mret Http404
    | Some article =>
        if decide (Article.author article ≠ u) then
          messages_error "You can only delete your own articles.";;
          mret (redirect "my_articles" [])
        else if Article.is_approved article then
          messages_error
            "Cannot delete approved articles. Please contact an editor.";;
          mret (redirect "my_articles" [])
        else if decide (HttpRequest.method request = "POST") then
          models.Article_delete pk_;;
          messages_success "Article deleted successfully!";;
          mret (redirect "my_articles" [])
        else mret (render "news_app/article_confirm_delete.html")
    end).

(** [order_by("-created_at")]. *)
Definition latest_first (x y : pk * Article.t) : Prop :=
  (Article.created_at y.2 ≤ Article.created_at x.2)%Z.

#[global] Instance latest_first_dec x y : Decision (latest_first x y).
Proof. unfold latest_first. apply _. Defined.

(** [ArticleListView.get_queryset]. *)
Definition ArticleListView_get_queryset (d : DB.t) : list (pk * Article.t) :=
  merge_sort newest_first
    (filter (λ row : pk * Article.t, Article.is_approved row.2)
            (map_to_list (DB.articles d))).

(** The [articles] of [home]: the query of the list view, cut at ten. *)
Definition home_articles (d : DB.t) : list (pk * Article.t) :=
  take 10
    (merge_sort newest_first
       (filter (λ row : pk * Article.t, Article.is_approved row.2)
               (map_to_list (DB.articles d)))).

(** [ArticleDetailView.get_queryset] and [ArticleViewSet.get_queryset]
    for [request.user], [None] when nobody is logged in. *)
Definition ArticleDetailView_get_queryset (d : DB.t)
    (user : option (pk * CustomUser.t)) : list (pk * Article.t) :=
  match user with
  | None =>
      filter (λ row : pk * Article.t, Article.is_approved row.2)
             (map_to_list (DB.articles d))
  | Some (u, user) =>
      if decide (CustomUser.role user = Role.editor) then
        map_to_list (DB.articles d)
      else if decide (CustomUser.role user = Role.journalist) then
        filter (λ row : pk * Article.t,
                  Article.is_approved row.2
                  || bool_decide (Article.author row.2 = u))
               (map_to_list (DB.articles d))
      else
        filter (λ row : pk * Article.t, Article.is_approved row.2)
               (map_to_list (DB.articles d))
  end.

(** [ArticleDetailView]: [get_object] looks the key up in the queryset. *)
Definition ArticleDetailView_get (d : DB.t) (request : HttpRequest.t)
    (pk_ : pk) : HttpResponse :=
  if bool_decide (pk_ ∈ (ArticleDetailView_get_queryset d
                           (request_user d request)).*1)
  then render "news_app/article_detail.html"
  else Http404.

(** [PendingArticlesView.get_queryset]. *)
Definition PendingArticlesView_get_queryset (d : DB.t)
  : list (pk * Article.t) :=
  merge_sort latest_first
    (filter (λ row : pk * Article.t,
               negb (Article.is_approved row.2)
               && negb (Article.is_rejected row.2))
            (map_to_list (DB.articles d))).

(** [my_articles]: the journalist's own articles with the two counts of
    the context. *)
Definition my_articles_queryset (d : DB.t) (u : pk) : list (pk * Article.t) :=
  merge_sort latest_first
    (filter (λ row : pk * Article.t, Article.author row.2 = u)
            (map_to_list (DB.articles d))).

Definition my_articles_pending_count (d : DB.t) (u : pk) : nat :=
  length (filter (λ row : pk * Article.t, Article.is_approved row.2 = false)
                 (my_articles_queryset d u)).

Definition my_articles_approved_count (d : DB.t) (u : pk) : nat :=
  length (filter (λ row : pk * Article.t, Article.is_approved row.2 = true)
                 (my_articles_queryset d u)).

Definition web_subscribe_to_journalist (request : HttpRequest.t)
    (journalist_id : pk) : M HttpResponse :=
  login_required request (λ u user,
    if decide (CustomUser.role user ≠ Role.reader) then
      messages_error "Only readers may subscribe to journalists.";;
      mret (redirect "journalist_list" [])
    else
      d ← read_db;
      match get_journalist_or_404 d journalist_id with
      | None => mret Http404
      | Some journalist =>
          (if decide ((u, journalist_id) ∈ DB.subscribed_journalists d) then
             messages_info ("You are already subscribed to "
                            +:+ CustomUser.username journalist +:+ ".")
           else
             modify_db (λ d,
               DB.set_subscribed_journalists
                 (DB.add (DB.subscribed_journalists d) u journalist_id) d);;
             messages_success ("Subscribed to "
                               +:+ CustomUser.username journalist +:+ "!"));;
          mret (redirect "journalist_list" [])
      end).

Definition web_unsubscribe_from_journalist (request : HttpRequest.t)
    (journalist_id : pk) : M HttpResponse :=
  login_required request (λ u user,
    if decide (CustomUser.role user ≠ Role.reader) then
      messages_error "Only readers may unsubscribe.";;
      mret (redirect "journalist_list" [])
    else
      d ← read_db;
      match get_journalist_or_404 d journalist_id with
      | None => mret Http404
      | Some journalist =>
          (if decide ((u, journalist_id) ∉ DB.subscribed_journalists d) then
             messages_info ("You were not subscribed to "
                            +:+ CustomUser.username journalist +:+ ".")
           else
             modify_db (λ d,
               DB.set_subscribed_journalists
                 (DB.remove (DB.subscribed_journalists d) u journalist_id) d);;
             messages_success ("Unsubscribed from "
                               +:+ CustomUser.username journalist +:+ "."));;
          mret (redirect "journalist_list" [])
      end).

End views.

(** * Vocabulary of the statements *)

(** A computation that leaves the store as it found it, whatever it
    returns or raises. *)
Definition keeps_db {A} (m : M A) : Prop := ∀ w, db (m w).2 = db w.

(** The world after one more event was emitted. *)
Definition with_event (w : World) (e : Event) : World :=
  {| conf := conf w; db := db w; clock := clock w; ticks := ticks w;
     outbox := outbox w ++ [e] |}.

(** The fields of an article that record the editorial decision. *)
Definition review (a : Article.t)
  : bool * option pk * bool * option string * option pk * option datetime :=
  (Article.is_approved a, Article.approved_by a, Article.is_rejected a,
   Article.rejected_reason a, Article.rejected_by a, Article.rejected_date a).

(** The flags of an article exclude each other. *)
Definition exclusive (a : Article.t) : Prop :=
  ¬ (Article.is_approved a = true ∧ Article.is_rejected a = true).

(** The four operations on an article, each with the request that
    triggers it. *)
Inductive Op :=
| op_approve (request : HttpRequest.t)
| op_reject (request : HttpRequest.t)
| op_publish (request : HttpRequest.t)
| op_edit (request : HttpRequest.t).

Definition step (pk_ : pk) (w : World) (op : Op) : World :=
  match op with
  | op_approve request => (serve (views.approve_article request pk_) w).2
  | op_reject request => (serve (views.reject_article request pk_) w).2
  | op_publish request =>
      (serve (views.publish_independently request pk_) w).2
  | op_edit request => (serve (views.edit_article request pk_) w).2
  end.

Definition run (pk_ : pk) (ops : list Op) (w : World) : World :=
  foldl (step pk_) w ops.

Definition editorial (op : Op) : Prop :=
  match op with
  | op_publish _ => False
  | _ => True
  end.

(** ** A small newsroom to run the code on *)

Module fixture.

Definition rita : CustomUser.t :=
  {| CustomUser.username := "rita"; CustomUser.email := "rita@example.org";
     CustomUser.first_name := "Rita"; CustomUser.last_name := "";
     CustomUser.role := Role.reader |}.

Definition ed : CustomUser.t :=
  {| CustomUser.username := "ed"; CustomUser.email := "ed@example.org";
     CustomUser.first_name := ""; CustomUser.last_name := "";
     CustomUser.role := Role.editor |}.

Definition jo : CustomUser.t :=
  {| CustomUser.username := "jo"; CustomUser.email := "jo@example.org";
     CustomUser.first_name := "Jo"; CustomUser.last_name := "Doe";
     CustomUser.role := Role.journalist |}.

Definition olga : CustomUser.t :=
  {| CustomUser.username := "olga"; CustomUser.email := "olga@example.org";
     CustomUser.first_name := "Olga"; CustomUser.last_name := "";
     CustomUser.role := Role.publisher |}.

Definition rob : CustomUser.t :=
  {| CustomUser.username := "rob"; CustomUser.email := "";
     CustomUser.first_name := ""; CustomUser.last_name := "";
     CustomUser.role := Role.reader |}.

Definition jane : CustomUser.t :=
  {| CustomUser.username := "jane"; CustomUser.email := "jane@example.org";
     CustomUser.first_name := "Jane"; CustomUser.last_name := "";
     CustomUser.role := Role.journalist |}.

Definition planet : Publisher.t :=
  {| Publisher.name := "Daily Planet"; Publisher.description := "";
     Publisher.website := ""; Publisher.owner := Some 4%positive;
     Publisher.created_by := Some 4%positive |}.

(** A pending article of [jo] for the publisher. *)
Definition draft : Article.t :=
  {| Article.title := "Budget"; Article.content := "The council met.";
     Article.summary := ""; Article.author := 3%positive;
     Article.publisher := Some 1%positive;
     Article.independently_published := false;
     Article.is_approved := false; Article.approved_by := None;
     Article.is_rejected := false; Article.rejected_reason := None;
     Article.rejected_by := None; Article.approval_date := None;
     Article.rejected_date := None; Article.created_at := 100;
     Article.updated_at := 100; Article.published_date := None;
     Article.image := None |}.

(** A join request of [jane] that the owner has turned down. *)
Definition turned_down : PublisherJoinRequest.t :=
  {| PublisherJoinRequest.user := 6%positive;
     PublisherJoinRequest.publisher := 1%positive;
     PublisherJoinRequest.status := JoinStatus.rejected;
     PublisherJoinRequest.message := "Please let me join";
     PublisherJoinRequest.created_at := 200;
     PublisherJoinRequest.reviewed_at := Some 300%Z;
     PublisherJoinRequest.reviewed_by := Some 4%positive |}.

(** Users 1 to 6 are rita, ed, jo, olga, rob and jane.  Rita follows the
    publisher and jo, rob follows jo. *)
Definition d0 : DB.t :=
  {| DB.users := list_to_map [(1%positive, rita); (2%positive, ed);
                              (3%positive, jo); (4%positive, olga);
                              (5%positive, rob); (6%positive, jane)];
     DB.publishers := {[ 1%positive := planet ]};
     DB.articles := {[ 1%positive := draft ]};
     DB.join_requests := {[ 1%positive := turned_down ]};
     DB.subscribed_newsletters := ∅;
     DB.subscribed_publishers := {[ (1%positive, 1%positive) ]};
     DB.subscribed_journalists :=
       {[ (1%positive, 3%positive); (5%positive, 3%positive) ]};
     DB.publisher_editors := {[ (1%positive, 2%positive) ]};
     DB.publisher_journalists := {[ (1%positive, 3%positive) ]};
     DB.groups := ∅;
     DB.user_groups := ∅ |}.

(** One clock reading per second, from second 1000 on. *)
Definition w0 : World :=
  {| conf := {| settings.DEFAULT_FROM_EMAIL := "news@example.org";
                settings.ENABLE_TWITTER := false |};
     db := d0;
     clock := λ n, (1000000 * (1000 + Z.of_nat n))%Z;
     ticks := 0;
     outbox := [] |}.

(** A request of user [u] with the given method and text entries. *)
Definition request (u : pk) (method : string) (body : gmap string string)
  : HttpRequest.t :=
  {| HttpRequest.method := method; HttpRequest.user := Some u;
     HttpRequest.POST := body; HttpRequest.POST_publisher := None;
     HttpRequest.FILES_image := None |}.

(** The newsroom after ed rejected the draft, and after jo then published
    it independently. *)
Definition w_rejected : World :=
  run 1 [op_reject (request 2 "POST" {[ "reason" := "Too thin" ]})] w0.

Definition w_both : World :=
  run 1 [op_publish (request 3 "GET" ∅)] w_rejected.

(** The newsroom after ed approved the draft. *)
Definition w_approved : World :=
  run 1 [op_approve (request 2 "POST" ∅)] w0.

(** The newsroom with jane, a journalist, following the publisher. *)
Definition w_follower : World :=
  {| conf := conf w0;
     db := DB.set_subscribed_publishers
             (DB.add (DB.subscribed_publishers d0) 6%positive 1%positive) d0;
     clock := clock w0; ticks := 0; outbox := [] |}.

End fixture.

(** What a view may do to the articles: nothing, or write the row [pk_]
    with a row that satisfies [P]. *)
Definition article_written (pk_ : pk) (P : Article.t → Prop) (w w' : World)
  : Prop :=
  db w' = db w
  ∨ ∃ row, db w' = DB.set_articles (<[pk_ := row]> (DB.articles (db w))) (db w)
            ∧ P row.

(** The join request [r] as reviewed by [u] at time [t] with outcome
    [status]. *)
Definition reviewed (status : JoinStatus.t) (u : pk) (t : datetime)
    (r : PublisherJoinRequest.t) : PublisherJoinRequest.t :=
  {| PublisherJoinRequest.user := PublisherJoinRequest.user r;
     PublisherJoinRequest.publisher := PublisherJoinRequest.publisher r;
     PublisherJoinRequest.status := status;
     PublisherJoinRequest.message := PublisherJoinRequest.message r;
     PublisherJoinRequest.created_at := PublisherJoinRequest.created_at r;
     PublisherJoinRequest.reviewed_at := Some t;
     PublisherJoinRequest.reviewed_by := Some u |}.

(** The store after the requester of [r], whose role is [role], was added
    to the membership set of the publisher that matches the role. *)
Definition joined (role : Role.t) (r : PublisherJoinRequest.t) (d : DB.t)
  : DB.t :=
  let member := (PublisherJoinRequest.publisher r,
                 PublisherJoinRequest.user r) in
  match role with
  | Role.journalist =>
      DB.set_publisher_journalists
        ({[ member ]} ∪ DB.publisher_journalists d) d
  | Role.editor =>
      DB.set_publisher_editors ({[ member ]} ∪ DB.publisher_editors d) d
  | _ => d
  end.

(** The recipients of the notification for an approved article, in the
    words of the specification: the users subscribed to the article's
    publisher, when it has one, together with the subscribers of its
    author, the author left out. *)
Definition notification_recipients (d : DB.t) (article : Article.t)
  : gset pk :=
  (match Article.publisher article with
   | Some p => filter (λ u, (u, p) ∈ DB.subscribed_publishers d)
                      (dom (DB.users d))
   | None => ∅
   end
   ∪ filter (λ u, (u, Article.author article) ∈ DB.subscribed_journalists d)
            (dom (DB.users d)))
  ∖ {[ Article.author article ]}.

(** The message prepared for the user row [r]. *)
Definition notification_for (s : settings.t) (article : Article.t)
    (author : CustomUser.t) (publisher : option Publisher.t)
    (r : CustomUser.t) : Email.t :=
  {| Email.subject := signals.notification_subject article;
     Email.message := signals.notification_message article author publisher;
     Email.from_email := settings.DEFAULT_FROM_EMAIL s;
     Email.recipient_list := [CustomUser.email r] |}.

(** The row of [article] once [u] has approved it: the view reads the clock
    for [approval_date] and [published_date], the [pre_save] receiver stamps
    [approval_date] again, and the write stamps [updated_at]. *)
Definition approved_row (u : pk) (clock : nat → datetime) (n : nat)
    (article : Article.t) : Article.t :=
  {| Article.title := Article.title article;
     Article.content := Article.content article;
     Article.summary := Article.summary article;
     Article.author := Article.author article;
     Article.publisher := Article.publisher article;
     Article.independently_published :=
       Article.independently_published article;
     Article.is_approved := true;
     Article.approved_by := Some u;
     Article.is_rejected := Article.is_rejected article;
     Article.rejected_reason := Article.rejected_reason article;
     Article.rejected_by := Article.rejected_by article;
     Article.approval_date := Some (clock (2 + n)%nat);
     Article.rejected_date := Article.rejected_date article;
     Article.created_at := Article.created_at article;
     Article.updated_at := clock (3 + n)%nat;
     Article.published_date := Some (clock (1 + n)%nat);
     Article.image := Article.image article |}.

(** The row of an unapproved [article] once its author has published it
    independently. *)
Definition self_published_row (clock : nat → datetime) (n : nat)
    (article : Article.t) : Article.t :=
  {| Article.title := Article.title article;
     Article.content := Article.content article;
     Article.summary := Article.summary article;
     Article.author := Article.author article;
     Article.publisher := Article.publisher article;
     Article.independently_published := true;
     Article.is_approved := true;
     Article.approved_by := Article.approved_by article;
     Article.is_rejected := Article.is_rejected article;
     Article.rejected_reason := Article.rejected_reason article;
     Article.rejected_by := Article.rejected_by article;
     Article.approval_date := Some (clock (2 + n)%nat);
     Article.rejected_date := Article.rejected_date article;
     Article.created_at := Article.created_at article;
     Article.updated_at := clock (3 + n)%nat;
     Article.published_date := Some (clock (1 + n)%nat);
     Article.image := Article.image article |}.

(** What an approval announces: the mass mail, unless no message was
    prepared, and the tweet, when tweeting is switched on. *)
Definition announcements (s : settings.t) (article : Article.t)
    (emails : list Email.t) : list Event :=
  (if decide (emails = []) then [] else [send_mass_mail emails])
  ++ (if settings.ENABLE_TWITTER s
      then [post_tweet (signals._build_tweet_text article)] else []).

(** The world [w] with [n] more readings of the clock and the events [es]
    emitted. *)
Definition later (n : nat) (es : list Event) (w : World) : World :=
  {| conf := conf w; db := db w; clock := clock w;
     ticks := (n + ticks w)%nat; outbox := outbox w ++ es |}.

(** A computation that only reads: it hands the world back as it was. *)
Definition keeps_world {A} (m : M A) : Prop := ∀ w, (m w).2 = w.

(** Two articles that the notification cannot tell apart. *)
Definition same_notice (a b : Article.t) : Prop :=
  Article.title a = Article.title b
  ∧ Article.content a = Article.content b
  ∧ Article.summary a = Article.summary b
  ∧ Article.author a = Article.author b
  ∧ Article.publisher a = Article.publisher b.

(** Two worlds with the same settings, users, publishers and
    subscriptions. *)
Definition same_audience (w1 w2 : World) : Prop :=
  conf w1 = conf w2
  ∧ DB.users (db w1) = DB.users (db w2)
  ∧ DB.publishers (db w1) = DB.publishers (db w2)
  ∧ DB.subscribed_publishers (db w1) = DB.subscribed_publishers (db w2)
  ∧ DB.subscribed_journalists (db w1) = DB.subscribed_journalists (db w2).

(** ** The newsroom, continued *)

Module newsroom.


(** An edit that passes the form. *)
Definition edit (u : pk) : HttpRequest.t :=
  fixture.request u "POST"
    {[ "title" := "Budget"; "content" := "The council met twice." ]}.

(** The same edit with blanks around the title and the content and a
    summary of blanks only. *)
Definition padded (u : pk) : HttpRequest.t :=
  fixture.request u "POST"
    {[ "title" := " Budget "; "content" := "  The council met twice. ";
       "summary" := "   " ]}.


End newsroom.


(** * Reasoning about computations *)

Lemma bind_run {A B} (m : M A) (f : A → M B) (w : World) :
  (m ≫= f) w = match m w with
               | (inr a, w') => f a w'
               | (inl e, w') => (inl e, w')
               end.
Proof. reflexivity. Qed.

Lemma read_db_run {B} (f : DB.t → M B) (w : World) :
  (read_db ≫= f) w = f (db w) w.
Proof. reflexivity. Qed.

Lemma keeps_db_ret {A} (a : A) : keeps_db (mret a).
Proof. by intros w. Qed.

Lemma keeps_db_raise {A} (e : exn) : keeps_db (@raise A e).
Proof. by intros w. Qed.

Lemma keeps_db_read_db : keeps_db read_db.
Proof. by intros w. Qed.

Lemma keeps_db_read_settings : keeps_db read_settings.
Proof. by intros w. Qed.

Lemma keeps_db_timezone_now : keeps_db timezone_now.
Proof. by intros w. Qed.

Lemma keeps_db_emit (e : Event) : keeps_db (emit e).
Proof. by intros w. Qed.

Lemma keeps_db_bind {A B} (m : M A) (f : A → M B) :
  keeps_db m → (∀ a, keeps_db (f a)) → keeps_db (m ≫= f).
Proof.
  intros Hm Hf w. rewrite bind_run. specialize (Hm w).
  destruct (m w) as [[e|a] w1]; simpl in *; [done|].
  by rewrite Hf.
Qed.

Lemma keeps_db_related {V} (table : DB.t → gmap pk V) (k : pk) :
  keeps_db (related table k).
Proof.
  apply keeps_db_bind; [apply keeps_db_read_db|].
  intros d. destruct (table d !! k); [apply keeps_db_ret|apply keeps_db_raise].
Qed.

Lemma keeps_db_related_opt {V} (table : DB.t → gmap pk V) (k : option pk) :
  keeps_db (related_opt table k).
Proof.
  destruct k; [|apply keeps_db_ret].
  apply keeps_db_bind; [apply keeps_db_related|intros ?; apply keeps_db_ret].
Qed.

Lemma related_run {V} (table : DB.t → gmap pk V) (k : pk) (row : V)
    (w : World) :
  table (db w) !! k = Some row → related table k w = (inr row, w).
Proof. intros Hrow. unfold related. by rewrite read_db_run, Hrow. Qed.

Lemma related_opt_run {V} (table : DB.t → gmap pk V) (k : option pk)
    (w : World) :
  (∀ k', k = Some k' → is_Some (table (db w) !! k')) →
  related_opt table k w = (inr (k ≫= λ k', table (db w) !! k'), w).
Proof.
  intros Hrow. destruct k as [k|]; [|done].
  destruct (Hrow k eq_refl) as [row Hk]. simpl.
  by rewrite bind_run, (related_run _ _ row), Hk.
Qed.

Lemma keeps_db_passes (m : M unit) : keeps_db m → keeps_db (passes m).
Proof.
  intros Hm w. unfold passes. specialize (Hm w).
  by destruct (m w) as [[[]|[]] w1].
Qed.

Create HintDb keeps discriminated.

#[global] Hint Resolve keeps_db_ret keeps_db_raise keeps_db_read_db
  keeps_db_read_settings keeps_db_timezone_now keeps_db_emit
  keeps_db_related keeps_db_related_opt keeps_db_passes : keeps.

(** Splits a computation along its binds and case distinctions. *)
Ltac keeps :=
  repeat first
    [ progress eauto with keeps
    | apply keeps_db_bind; [|intros ?]
    | match goal with
      | |- keeps_db (match ?x with _ => _ end) => destruct x
      end ].

Lemma keeps_db_prepare_emails (article : Article.t) :
  keeps_db (signals.prepare_emails article).
Proof. unfold signals.prepare_emails. keeps. Qed.

Lemma keeps_db_send_email_notifications (article : Article.t) :
  keeps_db (signals.send_email_notifications article).
Proof.
  unfold signals.send_email_notifications.
  apply keeps_db_bind; [apply keeps_db_prepare_emails|]. intros ?. keeps.
Qed.

Lemma keeps_db_post_to_twitter (message : string) :
  keeps_db (signals.post_to_twitter message).
Proof. unfold signals.post_to_twitter. keeps. Qed.

Lemma keeps_db_notify_subscribers_on_approval (instance : Article.t)
    (created : bool) :
  keeps_db (signals.notify_subscribers_on_approval instance created).
Proof.
  unfold signals.notify_subscribers_on_approval.
  destruct (negb _); [keeps|].
  apply keeps_db_bind; [keeps|]. intros [|]; [keeps|].
  apply keeps_db_bind;
    [apply keeps_db_send_email_notifications
    |intros ?; apply keeps_db_post_to_twitter].
Qed.

Lemma keeps_db_Article_clean (self : Article.t) :
  keeps_db (models.Article_clean self).
Proof. unfold models.Article_clean. keeps. Qed.

#[global] Hint Resolve keeps_db_prepare_emails
  keeps_db_send_email_notifications keeps_db_post_to_twitter
  keeps_db_notify_subscribers_on_approval keeps_db_Article_clean : keeps.

(** * Saving an article *)

Lemma set_approval_date_run (pk_ : pk) (instance : Article.t) (w : World) :
  ∃ instance' w',
    signals.set_approval_date pk_ instance w = (inr instance', w')
    ∧ db w' = db w
    ∧ review instance' = review instance.
Proof.
  unfold signals.set_approval_date. rewrite bind_run. simpl.
  destruct (DB.articles (db w) !! pk_) as [old|]; [|by eexists _, _].
  destruct (negb (Article.is_approved old) && Article.is_approved instance);
    [|by eexists _, _].
  rewrite bind_run. simpl.
  destruct (Article.published_date instance); by eexists _, _.
Qed.

Lemma set_approval_date_unapproved (pk_ : pk) (instance : Article.t)
    (w : World) :
  Article.is_approved instance = false →
  signals.set_approval_date pk_ instance w = (inr instance, w).
Proof.
  intros Hna. unfold signals.set_approval_date. rewrite bind_run. simpl.
  destruct (DB.articles (db w) !! pk_) as [old|]; [|done].
  by rewrite Hna, andb_false_r.
Qed.

(** Whatever else happens, [save] writes one row, and the row carries the
    editorial decision of the instance. *)
Lemma Article_save_row (pk_ : pk) (instance : Article.t) (w : World) :
  ∃ row,
    db (models.Article_save pk_ instance w).2
    = DB.set_articles (<[pk_ := row]> (DB.articles (db w))) (db w)
    ∧ review row = review instance.
Proof.
  unfold models.Article_save. rewrite bind_run.
  destruct (set_approval_date_run pk_ instance w)
    as (instance1 & w1 & -> & Hdb & Hreview).
  rewrite bind_run. simpl.
  destruct (bool_decide (DB.articles (db w1) !! pk_ = None));
    repeat (rewrite bind_run; cbn -[signals.notify_subscribers_on_approval]);
    rewrite keeps_db_notify_subscribers_on_approval; simpl;
    rewrite Hdb; eexists; (split; [reflexivity|done]).
Qed.

(** Saving an existing article that is not approved: the row is written
    with a new [updated_at] and nothing is announced. *)
Lemma Article_save_unapproved (pk_ : pk) (instance : Article.t) (w : World) :
  is_Some (DB.articles (db w) !! pk_) →
  Article.is_approved instance = false →
  models.Article_save pk_ instance w
  = (inr (),
     {| conf := conf w;
        db := DB.set_articles
                (<[pk_ := Article.set_updated_at (clock w (ticks w)) instance]>
                   (DB.articles (db w))) (db w);
        clock := clock w; ticks := S (ticks w); outbox := outbox w |}).
Proof.
  intros [old Hold] Hna. unfold models.Article_save.
  rewrite bind_run, set_approval_date_unapproved by done.
  rewrite bind_run. simpl.
  rewrite bool_decide_eq_false_2 by (by rewrite Hold).
  rewrite !bind_run. simpl.
  unfold signals.notify_subscribers_on_approval. simpl. by rewrite Hna.
Qed.

(** * The editorial workflow of an article *)

(** The common prologue of the article views. *)
Lemma login_required_run (request : HttpRequest.t) (u : pk)
    (user : CustomUser.t) (view : pk → CustomUser.t → M HttpResponse)
    (w : World) :
  views.request_user (db w) request = Some (u, user) →
  views.login_required request view w = view u user w.
Proof.
  intros Hu. unfold views.login_required. by rewrite read_db_run, Hu.
Qed.

(** C3 (amended).  A POST to [reject_article] by an editor takes the
    reason from the request, the empty string when the request has none,
    and sets [is_rejected], clears [is_approved] and stamps [rejected_by],
    [rejected_date] and [rejected_reason]; apart from the automatic
    [updated_at] every other field, and every other row and table, is left
    as it was.  Any other method changes nothing. *)
Theorem reject_article_effect (w : World) (request : HttpRequest.t)
    (pk_ u : pk) (user : CustomUser.t) (article : Article.t) :
  views.request_user (db w) request = Some (u, user) →
  CustomUser.role user = Role.editor →
  DB.articles (db w) !! pk_ = Some article →
  (HttpRequest.method request = "POST" →
   serve (views.reject_article request pk_) w
   = (redirect "pending_articles" [],
      {| conf := conf w;
         db := DB.set_articles
                 (<[pk_ :=
                    {| Article.title := Article.title article;
                       Article.content := Article.content article;
                       Article.summary := Article.summary article;
                       Article.author := Article.author article;
                       Article.publisher := Article.publisher article;
                       Article.independently_published :=
                         Article.independently_published article;
                       Article.is_approved := false;
                       Article.approved_by := Article.approved_by article;
                       Article.is_rejected := true;
                       Article.rejected_reason :=
                         Some (default "" (HttpRequest.POST request
                                           !! "reason"));
                       Article.rejected_by := Some u;
                       Article.approval_date := Article.approval_date article;
                       Article.rejected_date := Some (clock w (ticks w));
                       Article.created_at := Article.created_at article;
                       Article.updated_at := clock w (S (ticks w));
                       Article.published_date :=
                         Article.published_date article;
                       Article.image := Article.image article |}]>
                    (DB.articles (db w))) (db w);
         clock := clock w;
         ticks := S (S (ticks w));
         outbox := outbox w ++ [flash messages.success "Article rejected."]
      |}))
  ∧ (HttpRequest.method request ≠ "POST" →
     serve (views.reject_article request pk_) w
     = (render "news_app/reject_article.html", w)).
Proof.
  intros Hu _ Ha. unfold serve, views.reject_article.
  rewrite (login_required_run _ u user) by done.
  cbv beta. rewrite read_db_run. cbv beta. rewrite Ha.
  split; intros Hm; destruct (decide _); try done.
  rewrite bind_run. simpl.
  rewrite !bind_run, Article_save_unapproved; [done|simpl; by rewrite Ha|done].
Qed.

Lemma reject_article_effect_witness :
  ∃ w', serve (views.reject_article
                 (fixture.request 2 "POST" {[ "reason" := "Too thin" ]}) 1)
              fixture.w0
        = (redirect "pending_articles" [], w')
        ∧ (review <$> DB.articles (db w') !! 1%positive)
          = Some (false, None, true, Some "Too thin", Some 2%positive,
                  Some 1000000000%Z).
Proof.
  destruct (reject_article_effect fixture.w0
              (fixture.request 2 "POST" {[ "reason" := "Too thin" ]})
              1 2 fixture.ed fixture.draft) as [Hpost _];
    [reflexivity|reflexivity|reflexivity|].
  eexists. split; [apply Hpost; reflexivity|].
  simpl. by rewrite lookup_insert_eq.
Defined.

(** Against C3 as worded: rejecting an approved article without giving a
    reason goes through, turns [is_approved] off and [is_rejected] on, and
    records the empty reason. *)
Lemma reject_article_clears_approval :
  let request := fixture.request 2 "POST" ∅ in
  let w' := (serve (views.reject_article request 1) fixture.w_approved).2 in
  HttpRequest.POST request !! "reason" = None
  ∧ (review <$> DB.articles (db fixture.w_approved) !! 1%positive)
    = Some (true, Some 2%positive, false, None, None, None)
  ∧ (review <$> DB.articles (db w') !! 1%positive)
    = Some (false, Some 2%positive, true, Some "", Some 2%positive,
            Some 1005000000%Z).
Proof. vm_compute. done. Qed.

(** C4 (amended).  Approving an article that is approved and not rejected
    reports that it is already approved; approving a rejected article,
    approved or not, is refused with an error.  Either way the store and
    the clock are left alone and the message is the only thing emitted. *)
Theorem approve_article_reentry (w : World) (request : HttpRequest.t)
    (pk_ u : pk) (user : CustomUser.t) (article : Article.t) :
  views.request_user (db w) request = Some (u, user) →
  DB.articles (db w) !! pk_ = Some article →
  (Article.is_rejected article = false →
   Article.is_approved article = true →
   serve (views.approve_article request pk_) w
   = (redirect "pending_articles" [],
      with_event w (flash messages.info "This article is already approved.")))
  ∧ (Article.is_rejected article = true →
     serve (views.approve_article request pk_) w
     = (redirect "pending_articles" [],
        with_event w
          (flash messages.error
             "This article was rejected and cannot be approved."))).
Proof.
  intros Hu Ha. unfold serve, views.approve_article.
  rewrite (login_required_run _ u user) by done.
  cbv beta. rewrite read_db_run. cbv beta. rewrite Ha.
  split; [intros -> ->|intros ->]; done.
Qed.

Lemma approve_article_reentry_witness :
  serve (views.approve_article (fixture.request 2 "POST" ∅) 1)
        fixture.w_approved
  = (redirect "pending_articles" [],
     with_event fixture.w_approved
       (flash messages.info "This article is already approved."))
  ∧ serve (views.approve_article (fixture.request 2 "POST" ∅) 1)
          fixture.w_rejected
    = (redirect "pending_articles" [],
       with_event fixture.w_rejected
         (flash messages.error
            "This article was rejected and cannot be approved.")).
Proof.
  split.
  - eapply (approve_article_reentry fixture.w_approved _ 1 2 fixture.ed);
      [reflexivity|vm_compute; reflexivity|reflexivity|reflexivity].
  - eapply (approve_article_reentry fixture.w_rejected _ 1 2 fixture.ed);
      [reflexivity|vm_compute; reflexivity|reflexivity].
Defined.

(** Against C4 as worded: the article that was rejected and then published
    by its author is approved, yet approving it again reports the
    rejection, not that it is already approved. *)
Lemma approve_article_prefers_rejection :
  (review <$> DB.articles (db fixture.w_both) !! 1%positive)
  = Some (true, None, true, Some "Too thin", Some 2%positive,
          Some 1000000000%Z)
  ∧ serve (views.approve_article (fixture.request 2 "POST" ∅) 1)
          fixture.w_both
    = (redirect "pending_articles" [],
       with_event fixture.w_both
         (flash messages.error
            "This article was rejected and cannot be approved.")).
Proof. vm_compute. done. Qed.

Lemma serve_world (view : M HttpResponse) (w : World) :
  (serve view w).2 = (view w).2.
Proof. unfold serve. by destruct (view w) as [[?|?] ?]. Qed.

Lemma exclusive_review (a b : Article.t) :
  review a = review b → exclusive b → exclusive a.
Proof. unfold review, exclusive. intros [= -> _ -> _ _ _]. done. Qed.

(** The form hands back the instance with the five form fields assigned,
    and validating it does not touch the store. *)
Lemma ArticleForm_is_valid_run (request : HttpRequest.t) (instance : Article.t)
    (w : World) :
  ∃ r w', forms.ArticleForm_is_valid request instance w = (r, w')
          ∧ db w' = db w
          ∧ ∀ article_instance, r = inr (Some article_instance) →
              article_instance
              = forms.ArticleForm_construct (db w) request instance.
Proof.
  unfold forms.ArticleForm_is_valid. rewrite read_db_run. cbv beta.
  rewrite bind_run.
  pose proof (keeps_db_passes _
                (keeps_db_Article_clean
                   (forms.ArticleForm_construct (db w) request instance)) w)
    as Hdb.
  destruct (passes _ w) as [[e|ok] w1]; simpl in Hdb; [by eexists _, _|].
  destruct (forms.ArticleForm_fields_valid (db w) request && ok);
    eexists _, _; (split; [reflexivity|split; [done|congruence]]).
Qed.

Lemma review_ArticleForm_construct (d : DB.t) (request : HttpRequest.t)
    (instance : Article.t) :
  review (forms.ArticleForm_construct d request instance) = review instance.
Proof.
  unfold forms.ArticleForm_construct.
  by destruct (forms.cleaned_title request), (forms.cleaned_content request),
    (forms.cleaned_publisher d request), (HttpRequest.FILES_image request),
    (forms.cleaned_summary request).
Qed.

(** What [approve_article] does to the store: nothing, or the row of an
    article that was not rejected is written as approved. *)
Lemma approve_article_written (request : HttpRequest.t) (pk_ : pk)
    (w : World) :
  article_written pk_
    (λ row, Article.is_approved row = true ∧ Article.is_rejected row = false)
    w (serve (views.approve_article request pk_) w).2.
Proof.
  rewrite serve_world. unfold views.approve_article, views.login_required.
  rewrite read_db_run. cbv beta.
  destruct (views.request_user (db w) request) as [[u user]|]; [|by left].
  rewrite read_db_run. cbv beta.
  destruct (DB.articles (db w) !! pk_) as [article|]; [|by left].
  destruct (Article.is_rejected article) eqn:Hrej; [by left|].
  destruct (Article.is_approved article) eqn:Happ; [by left|].
  destruct (decide _); [|by left].
  rewrite bind_run. simpl. rewrite bind_run. simpl. rewrite bind_run.
  match goal with
  | |- context [models.Article_save ?k ?i ?w1] =>
      destruct (Article_save_row k i w1) as (row & Hdb & Hrow);
      destruct (models.Article_save k i w1) as [[err|[]] w2]
  end; simpl in *; right; exists row;
    (split; [done|]); unfold review in Hrow; simpl in Hrow;
    injection Hrow as -> _ -> _ _ _; done.
Qed.

(** What [reject_article] does to the store: nothing, or the row is
    written as rejected and not approved. *)
Lemma reject_article_written (request : HttpRequest.t) (pk_ : pk)
    (w : World) :
  article_written pk_
    (λ row, Article.is_approved row = false ∧ Article.is_rejected row = true)
    w (serve (views.reject_article request pk_) w).2.
Proof.
  rewrite serve_world. unfold views.reject_article, views.login_required.
  rewrite read_db_run. cbv beta.
  destruct (views.request_user (db w) request) as [[u user]|]; [|by left].
  rewrite read_db_run. cbv beta.
  destruct (DB.articles (db w) !! pk_) as [article|]; [|by left].
  destruct (decide _); [|by left].
  rewrite bind_run. simpl. rewrite bind_run.
  match goal with
  | |- context [models.Article_save ?k ?i ?w1] =>
      destruct (Article_save_row k i w1) as (row & Hdb & Hrow);
      destruct (models.Article_save k i w1) as [[err|[]] w2]
  end; simpl in *; right; exists row;
    (split; [done|]); unfold review in Hrow; simpl in Hrow;
    injection Hrow as -> _ -> _ _ _; done.
Qed.

(** The form half of [edit_article] either leaves the store alone and
    does not report success, or writes the row: with the rejection cleared
    when a journalist edits a rejected article, with the decision the
    article had otherwise. *)
Lemma edit_article_form_run (request : HttpRequest.t) (pk_ : pk)
    (user : CustomUser.t) (article : Article.t) (w : World) :
  let out := views.edit_article_form request pk_ user article w in
  (db out.2 = db w ∧ out.1 ≠ inr (redirect "article_detail" [pk_]))
  ∨ ∃ row,
      db out.2 = DB.set_articles (<[pk_ := row]> (DB.articles (db w))) (db w)
      ∧ if bool_decide (CustomUser.role user = Role.journalist)
           && Article.is_rejected article
        then review row
             = (Article.is_approved article, Article.approved_by article,
                false, None, None, None)
        else review row = review article.
Proof.
  unfold views.edit_article_form.
  destruct (decide _); [|by left].
  rewrite bind_run.
  destruct (ArticleForm_is_valid_run request article w)
    as (r & w1 & -> & Hdb1 & Hr).
  destruct r as [err|[article_instance|]]; simpl; [by left| |by left].
  rewrite (Hr article_instance eq_refl). clear Hr.
  pose proof (review_ArticleForm_construct (db w) request article) as Hrev.
  revert Hrev. generalize (forms.ArticleForm_construct (db w) request article).
  intros instance Hrev.
  assert (Hflags : Article.is_approved instance = Article.is_approved article
                   ∧ Article.approved_by instance
                     = Article.approved_by article
                   ∧ Article.is_rejected instance
                     = Article.is_rejected article).
  { unfold review in Hrev. by injection Hrev. }
  destruct Hflags as (Happ & Hby & Hrej). rewrite Hrej.
  rewrite bind_run.
  match goal with
  | |- context [models.Article_save ?k ?i ?w1] =>
      destruct (Article_save_row k i w1) as (row & Hdb & Hrow);
      destruct (models.Article_save k i w1) as [[err|[]] w2]
  end; cbn [snd] in Hdb |- *; right; exists row; rewrite <- Hdb1;
    (split; [done|]); rewrite Hrow;
    destruct (bool_decide _ && _); try done;
    unfold review; simpl; by rewrite Happ, Hby.
Qed.

Lemma edit_article_form_written (request : HttpRequest.t) (pk_ : pk)
    (user : CustomUser.t) (article : Article.t) (w : World) :
  article_written pk_
    (λ row,
       if bool_decide (CustomUser.role user = Role.journalist)
          && Article.is_rejected article
       then review row
            = (Article.is_approved article, Article.approved_by article,
               false, None, None, None)
       else review row = review article)
    w (views.edit_article_form request pk_ user article w).2.
Proof.
  destruct (edit_article_form_run request pk_ user article w)
    as [[? _]|?]; [by left|by right].
Qed.

Lemma edit_article_written (request : HttpRequest.t) (pk_ : pk) (w : World) :
  article_written pk_
    (λ row, ∃ article, DB.articles (db w) !! pk_ = Some article
                       ∧ (exclusive article → exclusive row))
    w (serve (views.edit_article request pk_) w).2.
Proof.
  rewrite serve_world. unfold views.edit_article, views.login_required.
  rewrite read_db_run. cbv beta.
  destruct (views.request_user (db w) request) as [[u user]|]; [|by left].
  rewrite read_db_run. cbv beta.
  destruct (DB.articles (db w) !! pk_) as [article|] eqn:Ha; [|by left].
  assert (Hform :
    article_written pk_
      (λ row, ∃ article, DB.articles (db w) !! pk_ = Some article
                         ∧ (exclusive article → exclusive row))
      w (views.edit_article_form request pk_ user article w).2).
  { destruct (edit_article_form_written request pk_ user article w)
      as [Hsame|(row & Hdb & Hrow)]; [by left|].
    right. exists row. split; [done|]. exists article. split; [done|].
    intros Hex. destruct (bool_decide _ && _).
    - unfold exclusive. unfold review in Hrow.
      injection Hrow as _ _ -> _ _ _. by intros [_ ?].
    - by eapply exclusive_review. }
  rewrite Ha in Hform.
  destruct (decide (CustomUser.role user = Role.journalist)).
  - destruct (decide _); [by left|].
    destruct (Article.is_approved article); [by left|exact Hform].
  - destruct (decide _); [by left|exact Hform].
Qed.

(** Approving, rejecting and editing keep the two flags of every article
    apart; independent publication is the operation that does not. *)
Lemma editorial_step_exclusive (pk_ : pk) (op : Op) (w : World) :
  editorial op →
  (∀ k a, DB.articles (db w) !! k = Some a → exclusive a) →
  ∀ k a, DB.articles (db (step pk_ w op)) !! k = Some a → exclusive a.
Proof.
  intros Hop Hinv k a.
  assert (Hw : article_written pk_
                 (λ row, (∀ old, DB.articles (db w) !! pk_ = Some old →
                                 exclusive old) → exclusive row)
                 w (step pk_ w op)).
  { destruct op as [request|request|request|request]; simpl; [| |done|].
    - destruct (approve_article_written request pk_ w)
        as [?|(row & ? & ? & Hr)]; [by left|right].
      exists row. split; [done|]. intros _ [_ ?]. congruence.
    - destruct (reject_article_written request pk_ w)
        as [?|(row & ? & Hr & ?)]; [by left|right].
      exists row. split; [done|]. intros _ [? _]. congruence.
    - destruct (edit_article_written request pk_ w)
        as [?|(row & ? & article & ? & Hr)]; [by left|right].
      exists row. split; [done|]. intros Hold. apply Hr. by apply Hold. }
  destruct Hw as [->|(row & -> & Hrow)]; [apply Hinv|].
  simpl. destruct (decide (k = pk_)) as [->|Hne].
  - rewrite lookup_insert_eq. intros [= <-]. apply Hrow.
    intros old Hold. by eapply Hinv.
  - rewrite lookup_insert_ne by done. apply Hinv.
Qed.

Lemma editorial_run_exclusive (pk_ : pk) (ops : list Op) (w : World) :
  Forall editorial ops →
  (∀ k a, DB.articles (db w) !! k = Some a → exclusive a) →
  ∀ k a, DB.articles (db (run pk_ ops w)) !! k = Some a → exclusive a.
Proof.
  intros Hops. revert w. induction Hops as [|op ops Hop _ IH]; intros w Hinv.
  - done.
  - simpl. apply IH. by apply editorial_step_exclusive.
Qed.

(** [publish_independently] has no such guard: served to the author of a
    rejected article, it leaves the rejection on the row and sets
    [is_approved] next to it. *)
Lemma publish_independently_on_rejected (w : World) (request : HttpRequest.t)
    (pk_ u : pk) (user : CustomUser.t) (article : Article.t) :
  views.request_user (db w) request = Some (u, user) →
  DB.articles (db w) !! pk_ = Some article →
  Article.author article = u →
  Article.is_rejected article = true →
  ∃ row,
    DB.articles (db (serve (views.publish_independently request pk_) w).2)
    !! pk_ = Some row
    ∧ Article.is_approved row = true
    ∧ Article.is_rejected row = true.
Proof.
  intros Hu Ha Hauthor Hrej.
  rewrite serve_world. unfold views.publish_independently.
  rewrite (login_required_run _ u user) by done.
  cbv beta. rewrite read_db_run. cbv beta. rewrite Ha.
  destruct (decide (Article.author article ≠ u)); [done|].
  rewrite bind_run. simpl. rewrite bind_run. simpl. rewrite bind_run.
  match goal with
  | |- context [models.Article_save ?k ?i ?w1] =>
      destruct (Article_save_row k i w1) as (row & Hdb & Hrow);
      destruct (models.Article_save k i w1) as [[err|[]] w2]
  end; cbn [snd db] in Hdb; rewrite ?bind_run;
    cbn [snd mret M_ret views.messages_success emit db];
    rewrite Hdb; exists row; cbn [db DB.articles DB.set_articles];
    rewrite lookup_insert_eq; (split; [done|]);
    unfold review in Hrow; simpl in Hrow;
    injection Hrow as -> _ -> _ _ _; done.
Qed.

(** C1 (the code at the failing input).  The draft starts out pending; the
    editor rejects it and its author publishes it independently: the row
    then has both [is_approved] and [is_rejected] set. *)
Theorem publish_independently_keeps_rejection :
  let w := run 1 [op_reject (fixture.request 2 "POST"
                               {[ "reason" := "Too thin" ]});
                  op_publish (fixture.request 3 "GET" ∅)] fixture.w0 in
  (review <$> DB.articles (db fixture.w0) !! 1%positive)
  = Some (false, None, false, None, None, None)
  ∧ (Article.is_approved <$> DB.articles (db w) !! 1%positive) = Some true
  ∧ (Article.is_rejected <$> DB.articles (db w) !! 1%positive) = Some true.
Proof. vm_compute. done. Qed.

(** The role of the user plays no part in [approve_article]: a POST by
    any logged-in user approves a pending article and records that user as
    the approver. *)
Lemma approve_article_ignores_role (w : World) (request : HttpRequest.t)
    (pk_ u : pk) (user : CustomUser.t) (article : Article.t) :
  views.request_user (db w) request = Some (u, user) →
  DB.articles (db w) !! pk_ = Some article →
  Article.is_rejected article = false →
  Article.is_approved article = false →
  HttpRequest.method request = "POST" →
  ∃ row,
    DB.articles (db (serve (views.approve_article request pk_) w).2) !! pk_
    = Some row
    ∧ review row
      = (true, Some u, false, Article.rejected_reason article,
         Article.rejected_by article, Article.rejected_date article).
Proof.
  intros Hu Ha Hrej Happ Hm.
  rewrite serve_world. unfold views.approve_article.
  rewrite (login_required_run _ u user) by done.
  cbv beta. rewrite read_db_run. cbv beta. rewrite Ha, Hrej, Happ.
  destruct (decide _); [|done].
  rewrite bind_run. simpl. rewrite bind_run. simpl. rewrite bind_run.
  match goal with
  | |- context [models.Article_save ?k ?i ?w1] =>
      destruct (Article_save_row k i w1) as (row & Hdb & Hrow);
      destruct (models.Article_save k i w1) as [[err|[]] w2]
  end; cbn [snd db] in Hdb; rewrite ?bind_run; cbn [snd mret M_ret];
    rewrite Hdb; exists row; cbn [db DB.articles DB.set_articles];
    rewrite lookup_insert_eq; (split; [done|]); rewrite Hrow;
    unfold review; simpl; by rewrite Hrej.
Qed.

(** C2 (the code at the failing input).  Rita is a reader, so [IsEditor]
    turns her request down; [approve_article] serves it all the same and
    records her as the approver of the draft. *)
Theorem approve_article_by_reader :
  let request := fixture.request 1 "POST" ∅ in
  let w := (serve (views.approve_article request 1) fixture.w0).2 in
  (CustomUser.role <$> DB.users (db fixture.w0) !! 1%positive)
  = Some Role.reader
  ∧ permissions.IsEditor (db fixture.w0) request = false
  ∧ (review <$> DB.articles (db fixture.w0) !! 1%positive)
    = Some (false, None, false, None, None, None)
  ∧ (Article.is_approved <$> DB.articles (db w) !! 1%positive) = Some true
  ∧ (Article.approved_by <$> DB.articles (db w) !! 1%positive)
    = Some (Some 1%positive).
Proof. vm_compute. done. Qed.

(** C10.  A successful edit of a rejected article by a journalist, who is
    then its author, leaves the article pending: [is_rejected] is off and
    [rejected_reason], [rejected_by] and [rejected_date] are empty.  A
    successful edit by an editor leaves the four rejection fields, and
    [is_approved], as they were. *)
Theorem edit_article_resets_rejection (w w' : World)
    (request : HttpRequest.t) (pk_ u : pk) (user : CustomUser.t)
    (article : Article.t) :
  views.request_user (db w) request = Some (u, user) →
  DB.articles (db w) !! pk_ = Some article →
  Article.is_rejected article = true →
  serve (views.edit_article request pk_) w
  = (redirect "article_detail" [pk_], w') →
  ∃ row,
    DB.articles (db w') !! pk_ = Some row
    ∧ (CustomUser.role user = Role.journalist →
       Article.author article = u
       ∧ review row
         = (false, Article.approved_by article, false, None, None, None)
       ∧ Article.status row = "pending")
    ∧ (CustomUser.role user = Role.editor → review row = review article).
Proof.
  intros Hu Ha Hrej. unfold serve, views.edit_article.
  rewrite (login_required_run _ u user) by done.
  cbv beta. rewrite read_db_run. cbv beta. rewrite Ha.
  pose proof (edit_article_form_run request pk_ user article w) as Hform.
  cbv zeta in Hform. rewrite Hrej, andb_true_r in Hform.
  destruct (decide (CustomUser.role user = Role.journalist)) as [Hj|Hj].
  - destruct (decide (Article.author article ≠ u)) as [?|Hau]; [done|].
    destruct (Article.is_approved article) eqn:Happ; [done|].
    destruct (views.edit_article_form request pk_ user article w)
      as [[err|r] w1]; [done|].
    intros [= -> ->]. simpl in Hform.
    destruct Hform as [[_ ?]|(row & -> & Hrow)]; [done|].
    exists row. simpl. rewrite lookup_insert_eq. split; [done|].
    rewrite bool_decide_eq_true_2 in Hrow by done.
    split; [|by rewrite Hj].
    intros _. split; [by destruct (decide (Article.author article = u))|].
    split; [done|].
    unfold review in Hrow. injection Hrow as Hra _ Hrr _ _ _.
    unfold Article.status. by rewrite Hrr, Hra.
  - destruct (decide (CustomUser.role user ≠ Role.editor)); [done|].
    destruct (views.edit_article_form request pk_ user article w)
      as [[err|r] w1]; [done|].
    intros [= -> ->]. simpl in Hform.
    destruct Hform as [[_ ?]|(row & -> & Hrow)]; [done|].
    exists row. simpl. rewrite lookup_insert_eq. split; [done|].
    rewrite bool_decide_eq_false_2 in Hrow by done.
    split; [done|by intros _].
Qed.

Lemma edit_article_resets_rejection_witness :
  let request :=
    fixture.request 3 "POST"
      {[ "title" := "Budget"; "content" := "The council met twice." ]} in
  ∃ row,
    DB.articles (db (serve (views.edit_article request 1)
                       fixture.w_rejected).2) !! 1%positive = Some row
    ∧ review row = (false, None, false, None, None, None)
    ∧ Article.content row = "The council met twice.".
Proof.
  intros request.
  destruct (edit_article_resets_rejection fixture.w_rejected
              (serve (views.edit_article request 1) fixture.w_rejected).2
              request 1 3 fixture.jo
              (Article.set_updated_at 1001000000
                 (Article.set_rejected_reason (Some "Too thin")
                    (Article.set_rejected_date (Some 1000000000%Z)
                       (Article.set_rejected_by (Some 2%positive)
                          (Article.set_is_rejected true fixture.draft))))))
    as (row & Hrow & Hjournalist & _);
    [vm_compute; reflexivity..|].
  exists row. split; [exact Hrow|].
  destruct (Hjournalist eq_refl) as (_ & Hreview & _).
  split; [exact Hreview|].
  revert Hrow. vm_compute. by intros [= <-].
Defined.

(** The same edit by the editor keeps the rejection on record. *)
Example edit_article_by_editor :
  let request :=
    fixture.request 2 "POST"
      {[ "title" := "Budget"; "content" := "The council met twice." ]} in
  let out := serve (views.edit_article request 1) fixture.w_rejected in
  out.1 = redirect "article_detail" [1%positive]
  ∧ (review <$> DB.articles (db out.2) !! 1%positive)
    = Some (false, None, true, Some "Too thin", Some 2%positive,
            Some 1000000000%Z).
Proof. vm_compute. done. Qed.

(** * Join requests *)

Lemma request_user_lookup (d : DB.t) (request : HttpRequest.t) (u : pk)
    (user : CustomUser.t) :
  views.request_user d request = Some (u, user) → DB.users d !! u = Some user.
Proof.
  unfold views.request_user.
  destruct (HttpRequest.user request) as [u'|]; [|done]. simpl.
  destruct (DB.users d !! u') eqn:Hrow; [|done]. simpl. congruence.
Qed.

Ltac join_request_prologue Hu Hr Hp :=
  unfold views.approve_join_request, views.reject_join_request;
  rewrite (login_required_run _ _ _ _ _ Hu);
  cbv beta; rewrite read_db_run; cbv beta; rewrite Hr;
  rewrite bind_run, (related_run _ _ _ _ Hp).

Ltac stamp_review Hq :=
  rewrite bind_run; cbn [timezone_now]; rewrite bind_run;
  unfold models.PublisherJoinRequest_save, modify_db;
  rewrite bind_run; unfold related; rewrite read_db_run;
  cbn [db DB.users DB.set_join_requests PublisherJoinRequest.user
       PublisherJoinRequest.set_status PublisherJoinRequest.set_reviewed_by
       PublisherJoinRequest.set_reviewed_at];
  rewrite Hq; cbn [mret M_ret]; rewrite ?bind_run.

Lemma approve_join_request_owner (w : World) (request : HttpRequest.t)
    (request_id u : pk) (user requester : CustomUser.t)
    (join_req : PublisherJoinRequest.t) (publisher : Publisher.t) :
  views.request_user (db w) request = Some (u, user) →
  DB.join_requests (db w) !! request_id = Some join_req →
  DB.publishers (db w) !! PublisherJoinRequest.publisher join_req
  = Some publisher →
  DB.users (db w) !! PublisherJoinRequest.user join_req = Some requester →
  Publisher.owner publisher = Some u →
  serve (views.approve_join_request request request_id) w
  = (redirect "publisher_join_requests" [],
     {| conf := conf w;
        db := joined (CustomUser.role requester) join_req
                (DB.set_join_requests
                   (<[request_id :=
                      reviewed JoinStatus.approved u (clock w (ticks w))
                        join_req]> (DB.join_requests (db w))) (db w));
        clock := clock w;
        ticks := S (ticks w);
        outbox := outbox w
                  ++ [flash messages.success
                        (CustomUser.username requester
                         +:+ " has been added to the team.")] |}).
Proof.
  intros Hu Hr Hp Hq Ho. unfold serve. join_request_prologue Hu Hr Hp.
  rewrite Ho, bind_run, related_opt_run;
    [|intros ? [= <-]; by erewrite request_user_lookup].
  destruct (decide (Some u ≠ Some u)); [done|].
  stamp_review Hq.
  destruct requester as [? ? ? ? []]; reflexivity.
Qed.

Lemma reject_join_request_owner (w : World) (request : HttpRequest.t)
    (request_id u : pk) (user requester : CustomUser.t)
    (join_req : PublisherJoinRequest.t) (publisher : Publisher.t) :
  views.request_user (db w) request = Some (u, user) →
  DB.join_requests (db w) !! request_id = Some join_req →
  DB.publishers (db w) !! PublisherJoinRequest.publisher join_req
  = Some publisher →
  DB.users (db w) !! PublisherJoinRequest.user join_req = Some requester →
  Publisher.owner publisher = Some u →
  serve (views.reject_join_request request request_id) w
  = (redirect "publisher_join_requests" [],
     {| conf := conf w;
        db := DB.set_join_requests
                (<[request_id :=
                   reviewed JoinStatus.rejected u (clock w (ticks w))
                     join_req]> (DB.join_requests (db w))) (db w);
        clock := clock w;
        ticks := S (ticks w);
        outbox := outbox w
                  ++ [flash messages.success
                        ("Join request from "
                         +:+ CustomUser.username requester
                         +:+ " has been rejected.")] |}).
Proof.
  intros Hu Hr Hp Hq Ho. unfold serve. join_request_prologue Hu Hr Hp.
  rewrite Ho, bind_run, related_opt_run;
    [|intros ? [= <-]; by erewrite request_user_lookup].
  destruct (decide (Some u ≠ Some u)); [done|].
  stamp_review Hq. reflexivity.
Qed.

Lemma join_request_stranger (w : World) (request : HttpRequest.t)
    (request_id u : pk) (user : CustomUser.t)
    (join_req : PublisherJoinRequest.t) (publisher : Publisher.t) :
  views.request_user (db w) request = Some (u, user) →
  DB.join_requests (db w) !! request_id = Some join_req →
  DB.publishers (db w) !! PublisherJoinRequest.publisher join_req
  = Some publisher →
  Publisher.owner publisher ≠ Some u →
  db (serve (views.approve_join_request request request_id) w).2 = db w
  ∧ db (serve (views.reject_join_request request request_id) w).2 = db w.
Proof.
  intros Hu Hr Hp Ho.
  split; rewrite serve_world; join_request_prologue Hu Hr Hp;
    rewrite bind_run;
    pose proof (keeps_db_related_opt DB.users (Publisher.owner publisher) w)
      as Hdb;
    (destruct (related_opt DB.users (Publisher.owner publisher) w)
       as [[err|owner] w1]; simpl in Hdb; [done|]);
    (destruct (decide (Some u ≠ Publisher.owner publisher)) as [_|Hno];
       [done|]);
    destruct Hno; congruence.
Qed.

(** C5 (amended).  Whatever the status of a join request, an approve by
    the owner of its publisher sets the status to approved, stamps the
    reviewer and the time and adds the requester to the membership set that
    matches the requester's role; a reject by the owner sets the status to
    rejected and stamps the reviewer and the time, and leaves the
    membership sets alone.  An approve or reject by anyone else changes
    nothing. *)
Theorem join_request_review (w : World) (request : HttpRequest.t)
    (request_id u : pk) (user requester : CustomUser.t)
    (join_req : PublisherJoinRequest.t) (publisher : Publisher.t) :
  views.request_user (db w) request = Some (u, user) →
  DB.join_requests (db w) !! request_id = Some join_req →
  DB.publishers (db w) !! PublisherJoinRequest.publisher join_req
  = Some publisher →
  DB.users (db w) !! PublisherJoinRequest.user join_req = Some requester →
  let approve := serve (views.approve_join_request request request_id) w in
  let reject := serve (views.reject_join_request request request_id) w in
  let write status :=
    DB.set_join_requests
      (<[request_id := reviewed status u (clock w (ticks w)) join_req]>
         (DB.join_requests (db w))) (db w) in
  (Publisher.owner publisher = Some u →
   approve.1 = redirect "publisher_join_requests" []
   ∧ db approve.2
     = joined (CustomUser.role requester) join_req (write JoinStatus.approved)
   ∧ reject.1 = redirect "publisher_join_requests" []
   ∧ db reject.2 = write JoinStatus.rejected)
  ∧ (Publisher.owner publisher ≠ Some u →
     db approve.2 = db w ∧ db reject.2 = db w).
Proof.
  intros Hu Hr Hp Hq. cbv zeta. split; intros Ho.
  - erewrite approve_join_request_owner, reject_join_request_owner by done.
    done.
  - by eapply join_request_stranger.
Qed.

Lemma join_request_review_witness :
  let approve :=
    serve (views.approve_join_request (fixture.request 4 "POST" ∅) 1)
          fixture.w0 in
  (PublisherJoinRequest.status <$> DB.join_requests (db approve.2)
                                   !! 1%positive)
  = Some JoinStatus.approved
  ∧ bool_decide ((1%positive, 6%positive)
                 ∈ DB.publisher_journalists (db approve.2)) = true.
Proof.
  destruct (join_request_review fixture.w0 (fixture.request 4 "POST" ∅)
              1 4 fixture.olga fixture.jane fixture.turned_down
              fixture.planet) as [Howner _];
    [reflexivity..|].
  destruct (Howner eq_refl) as (_ & Hdb & _).
  cbv zeta. rewrite Hdb. vm_compute. done.
Defined.

(** Against C5 as worded: the request was rejected by the owner; a later
    approve by the owner turns it into an approved one, stamps the review
    anew and makes the requester a member. *)
Lemma approve_join_request_after_rejection :
  let w' :=
    (serve (views.approve_join_request (fixture.request 4 "POST" ∅) 1)
           fixture.w0).2 in
  DB.join_requests (db fixture.w0) !! 1%positive = Some fixture.turned_down
  ∧ PublisherJoinRequest.status fixture.turned_down = JoinStatus.rejected
  ∧ DB.join_requests (db w') !! 1%positive
    = Some (reviewed JoinStatus.approved 4 1000000000 fixture.turned_down)
  ∧ bool_decide ((1%positive, 6%positive)
                 ∈ DB.publisher_journalists (db fixture.w0)) = false
  ∧ bool_decide ((1%positive, 6%positive)
                 ∈ DB.publisher_journalists (db w')) = true.
Proof. vm_compute. done. Qed.

(** * Subscriptions *)

Lemma api_view_run (methods : list string) (request : HttpRequest.t) (u : pk)
    (user : CustomUser.t) (view : pk → CustomUser.t → M HttpResponse)
    (w : World) :
  views.request_user (db w) request = Some (u, user) →
  HttpRequest.method request ∈ methods →
  views.api_view methods request view w = view u user w.
Proof.
  intros Hu Hm. unfold views.api_view. rewrite read_db_run, Hu.
  by rewrite bool_decide_eq_true_2.
Qed.

Ltac subscription_view Hu Hrole :=
  unfold serve, views.subscribe_to_publisher,
    views.unsubscribe_from_publisher, views.subscribe_to_journalist,
    views.unsubscribe_from_journalist;
  rewrite (api_view_run _ _ _ _ _ _ Hu) by set_solver;
  cbv beta; rewrite Hrole;
  destruct (decide (Role.reader ≠ Role.reader)) as [|_]; [done|];
  rewrite read_db_run.

Lemma subscribe_to_publisher_already (w : World) (request : HttpRequest.t)
    (u publisher_id : pk) (user : CustomUser.t) (publisher : Publisher.t) :
  views.request_user (db w) request = Some (u, user) →
  CustomUser.role user = Role.reader →
  DB.publishers (db w) !! publisher_id = Some publisher →
  HttpRequest.method request = "POST" →
  (u, publisher_id) ∈ DB.subscribed_publishers (db w) →
  serve (views.subscribe_to_publisher request publisher_id) w
  = (Response
       (JObject [("message",
                  JString ("Already subscribed to "
                           +:+ Publisher.name publisher))]) 200, w).
Proof.
  intros Hu Hrole Hp Hm Hsub. subscription_view Hu Hrole. rewrite Hp.
  by destruct (decide _).
Qed.

Lemma unsubscribe_from_publisher_absent (w : World) (request : HttpRequest.t)
    (u publisher_id : pk) (user : CustomUser.t) (publisher : Publisher.t) :
  views.request_user (db w) request = Some (u, user) →
  CustomUser.role user = Role.reader →
  DB.publishers (db w) !! publisher_id = Some publisher →
  HttpRequest.method request = "DELETE" →
  (u, publisher_id) ∉ DB.subscribed_publishers (db w) →
  serve (views.unsubscribe_from_publisher request publisher_id) w
  = (Response
       (JObject [("message",
                  JString ("Not subscribed to "
                           +:+ Publisher.name publisher))]) 200, w).
Proof.
  intros Hu Hrole Hp Hm Hsub. subscription_view Hu Hrole. rewrite Hp.
  by destruct (decide _).
Qed.

Lemma subscribe_to_journalist_already (w : World) (request : HttpRequest.t)
    (u journalist_id : pk) (user journalist : CustomUser.t) :
  views.request_user (db w) request = Some (u, user) →
  CustomUser.role user = Role.reader →
  DB.users (db w) !! journalist_id = Some journalist →
  CustomUser.role journalist = Role.journalist →
  HttpRequest.method request = "POST" →
  (u, journalist_id) ∈ DB.subscribed_journalists (db w) →
  serve (views.subscribe_to_journalist request journalist_id) w
  = (Response
       (JObject [("message",
                  JString ("Already subscribed to "
                           +:+ CustomUser.username journalist))]) 200, w).
Proof.
  intros Hu Hrole Hj Hjrole Hm Hsub. subscription_view Hu Hrole.
  unfold views.get_journalist_or_404. rewrite Hj.
  destruct (decide (CustomUser.role journalist = Role.journalist)); [|done].
  by destruct (decide _).
Qed.

Lemma unsubscribe_from_journalist_absent (w : World)
    (request : HttpRequest.t) (u journalist_id : pk)
    (user journalist : CustomUser.t) :
  views.request_user (db w) request = Some (u, user) →
  CustomUser.role user = Role.reader →
  DB.users (db w) !! journalist_id = Some journalist →
  CustomUser.role journalist = Role.journalist →
  HttpRequest.method request = "POST" →
  (u, journalist_id) ∉ DB.subscribed_journalists (db w) →
  serve (views.unsubscribe_from_journalist request journalist_id) w
  = (Response
       (JObject [("message",
                  JString ("Not subscribed to "
                           +:+ CustomUser.username journalist))]) 200, w).
Proof.
  intros Hu Hrole Hj Hjrole Hm Hsub. subscription_view Hu Hrole.
  unfold views.get_journalist_or_404. rewrite Hj.
  destruct (decide (CustomUser.role journalist = Role.journalist)); [|done].
  by destruct (decide _).
Qed.

(** C8.  For a reader who already follows a publisher or a journalist,
    subscribing again answers "Already subscribed to ..." with status 200;
    for a reader who does not, unsubscribing answers "Not subscribed to
    ..." with status 200.  In both cases the world, and so the subscription
    set, is returned as it was. *)
Theorem subscription_idempotent (w : World) (request : HttpRequest.t)
    (u : pk) (user : CustomUser.t) :
  views.request_user (db w) request = Some (u, user) →
  CustomUser.role user = Role.reader →
  (∀ publisher_id publisher,
     DB.publishers (db w) !! publisher_id = Some publisher →
     (HttpRequest.method request = "POST" →
      (u, publisher_id) ∈ DB.subscribed_publishers (db w) →
      serve (views.subscribe_to_publisher request publisher_id) w
      = (Response
           (JObject [("message",
                      JString ("Already subscribed to "
                               +:+ Publisher.name publisher))]) 200, w))
     ∧ (HttpRequest.method request = "DELETE" →
        (u, publisher_id) ∉ DB.subscribed_publishers (db w) →
        serve (views.unsubscribe_from_publisher request publisher_id) w
        = (Response
             (JObject [("message",
                        JString ("Not subscribed to "
                                 +:+ Publisher.name publisher))]) 200, w)))
  ∧ (∀ journalist_id journalist,
       DB.users (db w) !! journalist_id = Some journalist →
       CustomUser.role journalist = Role.journalist →
       HttpRequest.method request = "POST" →
       ((u, journalist_id) ∈ DB.subscribed_journalists (db w) →
        serve (views.subscribe_to_journalist request journalist_id) w
        = (Response
             (JObject [("message",
                        JString ("Already subscribed to "
                                 +:+ CustomUser.username journalist))]) 200,
           w))
       ∧ ((u, journalist_id) ∉ DB.subscribed_journalists (db w) →
          serve (views.unsubscribe_from_journalist request journalist_id) w
          = (Response
               (JObject [("message",
                          JString ("Not subscribed to "
                                   +:+ CustomUser.username journalist))]) 200,
             w))).
Proof.
  intros Hu Hrole. split.
  - intros publisher_id publisher Hp. split; intros Hm Hsub.
    + by eapply subscribe_to_publisher_already.
    + by eapply unsubscribe_from_publisher_absent.
  - intros journalist_id journalist Hj Hjrole Hm. split; intros Hsub.
    + by eapply subscribe_to_journalist_already.
    + by eapply unsubscribe_from_journalist_absent.
Qed.

Lemma subscription_idempotent_witness :
  serve (views.subscribe_to_publisher (fixture.request 1 "POST" ∅) 1)
        fixture.w0
  = (Response (JObject [("message",
                         JString "Already subscribed to Daily Planet")]) 200,
     fixture.w0)
  ∧ serve (views.unsubscribe_from_journalist (fixture.request 1 "POST" ∅) 6)
          fixture.w0
    = (Response (JObject [("message", JString "Not subscribed to jane")]) 200,
       fixture.w0).
Proof.
  destruct (subscription_idempotent fixture.w0 (fixture.request 1 "POST" ∅)
              1 fixture.rita) as [Hpublisher Hjournalist];
    [reflexivity..|].
  split.
  - apply (Hpublisher 1%positive fixture.planet); [reflexivity..|].
    apply (bool_decide_unpack _). vm_compute. exact I.
  - apply (Hjournalist 6%positive fixture.jane); [reflexivity..|].
    apply (bool_decide_unpack _). vm_compute. exact I.
Defined.

(** Unsubscribing from a publisher one does not follow, run on the
    newsroom: rob follows jo only. *)
Example unsubscribe_from_publisher_not_subscribed :
  serve (views.unsubscribe_from_publisher (fixture.request 5 "DELETE" ∅) 1)
        fixture.w0
  = (Response (JObject [("message",
                         JString "Not subscribed to Daily Planet")]) 200,
     fixture.w0).
Proof. vm_compute. reflexivity. Qed.

(** Subscribing twice in a row: whatever the first call did, the second
    one reports the subscription and changes nothing. *)
Lemma subscribe_to_publisher_twice (w : World) (request : HttpRequest.t)
    (u publisher_id : pk) (user : CustomUser.t) (publisher : Publisher.t) :
  views.request_user (db w) request = Some (u, user) →
  CustomUser.role user = Role.reader →
  DB.publishers (db w) !! publisher_id = Some publisher →
  HttpRequest.method request = "POST" →
  let w1 := (serve (views.subscribe_to_publisher request publisher_id) w).2 in
  serve (views.subscribe_to_publisher request publisher_id) w1
  = (Response
       (JObject [("message",
                  JString ("Already subscribed to "
                           +:+ Publisher.name publisher))]) 200, w1)
  ∧ DB.all (DB.subscribed_publishers (db w1)) u
    = {[ publisher_id ]} ∪ DB.all (DB.subscribed_publishers (db w)) u.
Proof.
  intros Hu Hrole Hp Hm w1.
  assert (Hw1 : (w1 = w ∧ (u, publisher_id) ∈ DB.subscribed_publishers (db w))
                ∨ w1 = {| conf := conf w;
                          db := DB.set_subscribed_publishers
                                  (DB.add (DB.subscribed_publishers (db w))
                                     u publisher_id) (db w);
                          clock := clock w; ticks := ticks w;
                          outbox := outbox w |}).
  { unfold w1. subscription_view Hu Hrole. rewrite Hp.
    destruct (decide _); [by left|by right]. }
  assert (Hin : (u, publisher_id) ∈ DB.subscribed_publishers (db w1)).
  { destruct Hw1 as [[-> ?]| ->]; [done|]. simpl. unfold DB.add. set_solver. }
  assert (Hdb : views.request_user (db w1) request = Some (u, user)
                ∧ DB.publishers (db w1) !! publisher_id = Some publisher).
  { by destruct Hw1 as [[-> ?]| ->]. }
  destruct Hdb as [Hu1 Hp1]. split.
  - by eapply subscribe_to_publisher_already.
  - unfold DB.all. destruct Hw1 as [[-> ?]| ->]; simpl; unfold DB.add.
    + apply set_eq. intros x. rewrite elem_of_union, !elem_of_map.
      split; [by right|]. intros [->%elem_of_singleton|?]; [|done].
      exists (u, publisher_id). split; [done|]. by apply elem_of_filter.
    + apply set_eq. intros x. rewrite elem_of_union, !elem_of_map.
      setoid_rewrite elem_of_filter. setoid_rewrite elem_of_union.
      setoid_rewrite elem_of_singleton. split.
      * intros ([a b] & -> & Ha & [[= -> ->]|?]); [by left|right].
        by exists (a, b).
      * intros [->|([a b] & -> & ? & ?)].
        -- exists (u, publisher_id). auto.
        -- exists (a, b). auto.
Qed.

(** * Journalists hold no subscriptions *)

Lemma all_clear {B} `{Countable B} (rel : gset (pk * B)) (k : pk) :
  DB.all (DB.clear rel k) k = ∅.
Proof.
  unfold DB.all, DB.clear. apply elem_of_equiv_empty_L. intros x.
  rewrite elem_of_map. intros (p & _ & Hp).
  apply elem_of_filter in Hp as [Hk Hp].
  by apply elem_of_filter in Hp as [Hnk _].
Qed.

(** [Model.save] without [update_fields] always goes through. *)
Lemma Model_save_returns (self_pk : option pk) (self : CustomUser.t)
    (w : World) :
  ∃ k w', models.Model_save self_pk self None w = (inr (Some k), w').
Proof. unfold models.Model_save. rewrite read_db_run. by eexists _, _. Qed.

(** Whenever [save] of a journalist returns, under whatever arguments, the
    three subscription relations of the saved user are empty. *)
Lemma CustomUser_save_clears (self_pk : option pk) (self : CustomUser.t)
    (update_fields : option (list string)) (w w' : World) (k : pk) :
  CustomUser.role self = Role.journalist →
  models.CustomUser_save self_pk self update_fields w = (inr k, w') →
  DB.all (DB.subscribed_publishers (db w')) k = ∅
  ∧ DB.all (DB.subscribed_newsletters (db w')) k = ∅
  ∧ DB.all (DB.subscribed_journalists (db w')) k = ∅.
Proof.
  intros Hrole. unfold models.CustomUser_save. rewrite bind_run.
  destruct (models.Model_save self_pk self update_fields w)
    as [[err|[k1|]] w1]; [done| |done].
  rewrite Hrole.
  destruct (decide (Role.journalist = Role.journalist)) as [_|]; [|done].
  destruct (bool_decide (self_pk = None)
            || bool_decide ("role" ∈ default [] update_fields));
    intros [= <- <-]; simpl; auto using @all_clear.
Qed.

(** And it does return when the caller names no [update_fields]. *)
Lemma CustomUser_save_returns (self_pk : option pk) (self : CustomUser.t)
    (w : World) :
  ∃ k w', models.CustomUser_save self_pk self None w = (inr k, w').
Proof.
  unfold models.CustomUser_save. rewrite bind_run.
  destruct (Model_save_returns self_pk self w) as (k & w1 & ->).
  destruct (decide (CustomUser.role self = Role.journalist));
    destruct (bool_decide (self_pk = None)
              || bool_decide ("role" ∈ default [] (@None (list string))));
    by eexists _, _.
Qed.

(** C7 (the code at the failing input).  Jane is a journalist who follows
    a publisher and nothing else: [clean] lets her pass, although a [save]
    would clear the subscription. *)
Theorem CustomUser_clean_misses_publishers :
  CustomUser.role fixture.jane = Role.journalist
  ∧ DB.all (DB.subscribed_publishers (db fixture.w_follower)) 6
    = {[ 1%positive ]}
  ∧ (models.CustomUser_clean (Some 6%positive) fixture.jane
       fixture.w_follower).1 = inr ()
  ∧ ∃ w', models.CustomUser_save (Some 6%positive) fixture.jane None
            fixture.w_follower = (inr 6%positive, w')
          ∧ DB.all (DB.subscribed_publishers (db w')) 6 = ∅.
Proof.
  split; [reflexivity|]. split; [by vm_compute|]. split; [by vm_compute|].
  eexists. split; [vm_compute; reflexivity|]. by vm_compute.
Qed.

(** With a newsletter or a journalist in her subscriptions [clean] does
    reject her. *)
Example CustomUser_clean_rejects_followed_journalist :
  (models.CustomUser_clean (Some 6%positive) fixture.jane
     {| conf := conf fixture.w0;
        db := DB.set_subscribed_journalists
                (DB.add (DB.subscribed_journalists fixture.d0)
                   6%positive 3%positive) fixture.d0;
        clock := clock fixture.w0; ticks := 0; outbox := [] |}).1
  = inl (ValidationError "Journalists cannot have reader subscriptions.").
Proof. by vm_compute. Qed.

(** * The subscription feed *)

#[global] Instance not_later_trans : Transitive views.not_later.
Proof. intros [x|] [y|] [z|]; simpl; try done. lia. Qed.

#[global] Instance not_later_total : Total views.not_later.
Proof. intros [x|] [y|]; simpl; try tauto. lia. Qed.

#[global] Instance newest_first_trans : Transitive views.newest_first.
Proof.
  intros x y z Hxy Hyz. unfold views.newest_first in *. by etrans.
Qed.

#[global] Instance newest_first_total : Total views.newest_first.
Proof.
  intros x y. unfold views.newest_first.
  destruct (total views.not_later (Article.published_date x.2)
              (Article.published_date y.2)); auto.
Qed.

(** C6.  For a reader the feed holds exactly the approved articles whose
    publisher is among the reader's subscribed publishers or whose author
    is among the reader's subscribed journalists, each once, the newer
    [published_date] first; for any other role the feed is empty. *)
Theorem subscription_feed (d : DB.t) (u : pk) (user : CustomUser.t) :
  let feed := views.SubscriptionArticlesView_get_queryset d u user in
  (CustomUser.role user = Role.reader →
   (∀ k a,
      (k, a) ∈ feed
      ↔ DB.articles d !! k = Some a
        ∧ Article.is_approved a = true
        ∧ ((∃ p, Article.publisher a = Some p
                 ∧ p ∈ DB.all (DB.subscribed_publishers d) u)
           ∨ Article.author a ∈ DB.all (DB.subscribed_journalists d) u))
   ∧ NoDup feed
   ∧ StronglySorted views.newest_first feed)
  ∧ (CustomUser.role user ≠ Role.reader → feed = []).
Proof.
  cbv zeta. unfold views.SubscriptionArticlesView_get_queryset.
  destruct (decide (CustomUser.role user ≠ Role.reader)) as [Hno|Hyes];
    (split; [|done]); [done|].
  intros _. split; [|split].
  - intros k a. rewrite merge_sort_Permutation, elem_of_remove_dups.
    rewrite list_elem_of_filter, elem_of_map_to_list. simpl.
    rewrite andb_True, orb_True, (Is_true_true (Article.is_approved a)).
    destruct (Article.publisher a) as [p|]; rewrite !bool_decide_spec.
    + split.
      * intros ([[?|?] ?] & ?); eauto 10.
      * intros (? & ? & [(p' & [= <-] & ?)|?]); auto.
    + split.
      * intros ([[[]|?] ?] & ?); auto.
      * intros (? & ? & [(p' & [=] & ?)|?]); auto.
  - rewrite merge_sort_Permutation. apply NoDup_remove_dups.
  - apply StronglySorted_merge_sort; apply _.
Qed.

Lemma subscription_feed_witness :
  views.SubscriptionArticlesView_get_queryset (db fixture.w_approved) 1
    fixture.rita
  ≠ []
  ∧ views.SubscriptionArticlesView_get_queryset (db fixture.w_approved) 2
      fixture.ed
    = [].
Proof.
  split.
  - destruct (subscription_feed (db fixture.w_approved) 1 fixture.rita)
      as [Hreader _].
    destruct (Hreader eq_refl) as (Hfeed & _ & _).
    assert (Hin : ∃ a, DB.articles (db fixture.w_approved) !! 1%positive
                       = Some a
                       ∧ Article.is_approved a = true
                       ∧ Article.publisher a = Some 1%positive)
      by (eexists; vm_compute; done).
    destruct Hin as (a & Ha & Happ & Hpub).
    assert (Hrow : (1%positive, a)
                   ∈ views.SubscriptionArticlesView_get_queryset
                       (db fixture.w_approved) 1 fixture.rita).
    { apply Hfeed. split; [done|]. split; [done|]. left.
      exists 1%positive. split; [done|].
      apply (bool_decide_unpack _). vm_compute. exact I. }
    intros Hnil. rewrite Hnil in Hrow. by apply not_elem_of_nil in Hrow.
  - destruct (subscription_feed (db fixture.w_approved) 2 fixture.ed)
      as [_ Hother].
    by apply Hother.
Defined.

(** * Notifications *)

(** A queryset over the users, collected into a set of instances. *)
Lemma lookup_selected (P : pk * CustomUser.t → Prop)
    `{∀ x, Decision (P x)} (m : gmap pk CustomUser.t) (k : pk)
    (r : CustomUser.t) :
  (list_to_map (filter P (map_to_list m)) : gmap pk CustomUser.t) !! k
  = Some r
  ↔ m !! k = Some r ∧ P (k, r).
Proof.
  rewrite <- elem_of_list_to_map.
  - rewrite list_elem_of_filter, elem_of_map_to_list. tauto.
  - apply (sublist_NoDup _ ((map_to_list m).*1));
      [apply NoDup_fst_map_to_list|].
    apply fmap_sublist, sublist_filter.
Qed.

Lemma lookup_selected_union (P Q : pk * CustomUser.t → Prop)
    `{∀ x, Decision (P x)} `{∀ x, Decision (Q x)}
    (m : gmap pk CustomUser.t) (k : pk) (r : CustomUser.t) :
  (list_to_map (filter P (map_to_list m))
   ∪ list_to_map (filter Q (map_to_list m)) : gmap pk CustomUser.t) !! k
  = Some r
  ↔ m !! k = Some r ∧ (P (k, r) ∨ Q (k, r)).
Proof.
  rewrite lookup_union_Some_raw, !lookup_selected. split.
  - intros [[? ?]|[_ [? ?]]]; auto.
  - intros [Hm [HP|HQ]]; [by left|].
    destruct (decide (P (k, r))); [by left|right].
    split; [|done]. apply eq_None_not_Some. intros [r' Hr'].
    apply lookup_selected in Hr' as [Hm' HP'].
    rewrite Hm in Hm'. by injection Hm' as <-.
Qed.

(** The set [subscribers] that [send_email_notifications] collects holds
    the rows of the recipients the specification names. *)
Lemma subscribers_lookup (d : DB.t) (article : Article.t) (k : pk)
    (r : CustomUser.t) :
  delete (Article.author article)
    (signals.update
       match Article.publisher article with
       | Some p => signals.update ∅ (signals.subscribed_readers d p)
       | None => ∅
       end
       (signals.journalist_subscribers d (Article.author article))) !! k
  = Some r
  ↔ k ∈ notification_recipients d article ∧ DB.users d !! k = Some r.
Proof.
  unfold notification_recipients, signals.update,
    signals.subscribed_readers, signals.journalist_subscribers.
  rewrite lookup_delete_Some.
  rewrite elem_of_difference, elem_of_union, not_elem_of_singleton.
  rewrite elem_of_filter, elem_of_dom.
  destruct (Article.publisher article) as [p|].
  - rewrite (left_id_L ∅ (∪)), lookup_selected_union.
    rewrite elem_of_filter, elem_of_dom. simpl.
    split; [|by intros (([[? ?]|[? ?]] & ?) & ?); auto].
    intros (? & ? & [?|?]); eauto 10.
  - rewrite (left_id_L ∅ (∪)), lookup_selected. simpl.
    split; [|by intros (([[]%not_elem_of_empty|[? ?]] & ?) & ?); auto].
    intros (? & ? & ?); eauto 10.
Qed.

(** C9.  When the author's row exists, and the publisher's when the article
    has one, [send_email_notifications] prepares its messages from a
    duplicate-free list of user rows: the rows of exactly those recipients
    (subscribers of the publisher and subscribers of the author, the author
    left out) whose [email] is not empty, one message each, addressed to
    that [email].  Recipients without [email] are not in the list. *)
Theorem notification_emails (w : World) (article : Article.t)
    (author : CustomUser.t) :
  DB.users (db w) !! Article.author article = Some author →
  (∀ p, Article.publisher article = Some p →
        is_Some (DB.publishers (db w) !! p)) →
  ∃ recipients : list (pk * CustomUser.t),
    signals.prepare_emails article w
    = (inr ((λ kr, notification_for (conf w) article author
                     (Article.publisher article
                      ≫= λ p, DB.publishers (db w) !! p) kr.2)
            <$> recipients), w)
    ∧ NoDup recipients.*1
    ∧ ∀ k r, (k, r) ∈ recipients
             ↔ k ∈ notification_recipients (db w) article
               ∧ DB.users (db w) !! k = Some r
               ∧ CustomUser.email r ≠ "".
Proof.
  intros Hauthor Hpublisher.
  set (subscribers :=
         delete (Article.author article)
           (signals.update
              match Article.publisher article with
              | Some p =>
                  signals.update ∅ (signals.subscribed_readers (db w) p)
              | None => ∅
              end
              (signals.journalist_subscribers (db w)
                 (Article.author article)))).
  exists (filter (λ ur, CustomUser.email ur.2 ≠ "") (map_to_list subscribers)).
  split; [|split].
  - unfold signals.prepare_emails. rewrite read_db_run. cbv beta.
    rewrite bind_run.
    rewrite (related_opt_run _ _ _ Hpublisher). cbv zeta. rewrite bind_run.
    unfold related at 1. rewrite read_db_run, Hauthor. cbn [mret M_ret].
    fold subscribers.
    destruct (decide (subscribers = ∅)) as [Hempty|_].
    + by rewrite Hempty, map_to_list_empty.
    + done.
  - apply (sublist_NoDup _ ((map_to_list subscribers).*1));
      [apply NoDup_fst_map_to_list|].
    apply fmap_sublist, sublist_filter.
  - intros k r. rewrite list_elem_of_filter, elem_of_map_to_list. simpl.
    unfold subscribers. rewrite subscribers_lookup. tauto.
Qed.

Lemma notification_emails_witness :
  ∃ recipients : list (pk * CustomUser.t),
    signals.prepare_emails fixture.draft fixture.w0
    = (inr ((λ kr, notification_for (conf fixture.w0) fixture.draft
                     fixture.jo (Some fixture.planet) kr.2) <$> recipients),
       fixture.w0)
    ∧ NoDup recipients.*1
    ∧ (1%positive, fixture.rita) ∈ recipients
    ∧ (5%positive, fixture.rob) ∉ recipients.
Proof.
  destruct (notification_emails fixture.w0 fixture.draft fixture.jo)
    as (recipients & Hrun & Hnodup & Hin).
  - reflexivity.
  - intros p [= <-]. by eexists.
  - exists recipients. split; [exact Hrun|]. split; [exact Hnodup|]. split.
    + apply Hin. split; [|split; [reflexivity|done]].
      apply (bool_decide_unpack _). vm_compute. exact I.
    + intros Hrob. apply Hin in Hrob. by destruct Hrob as (_ & _ & ?).
Defined.

(** The newsroom again: rita follows the publisher and jo, and is written
    to once; rob follows jo but has no address; jo is the author. *)
Example notification_emails_newsroom :
  (signals.prepare_emails fixture.draft fixture.w0).1
  = inr [notification_for (conf fixture.w0) fixture.draft fixture.jo
           (Some fixture.planet) fixture.rita]
  ∧ notification_recipients (db fixture.w0) fixture.draft
    = {[ 1%positive; 5%positive ]}.
Proof. vm_compute. done. Qed.

(** * The text of the tweet *)

Lemma length_append (s1 s2 : string) :
  String.length (s1 +:+ s2) = (String.length s1 + String.length s2)%nat.
Proof. induction s1 as [|c s1 IH]; simpl; [done|]. by rewrite IH. Qed.

Lemma length_substring_0 (n : nat) (s : string) :
  String.length (String.substring 0 n s) = (n `min` String.length s)%nat.
Proof.
  revert n. induction s as [|c s IH]; intros [|n]; simpl; try done.
  by rewrite IH.
Qed.

Lemma length_slice_to (n : Z) (s : string) :
  Z.of_nat (String.length (slice_to n s))
  = (if decide (0 ≤ n)%Z then n `min` Z.of_nat (String.length s)
     else 0 `max` (Z.of_nat (String.length s) + n))%Z.
Proof.
  unfold slice_to. destruct (decide (0 ≤ n)%Z);
    rewrite length_substring_0; lia.
Qed.

(** X1.  The tweet built for an article stays within 280 characters exactly
    when the title has at most 262: the heading and the dots take 18 on top
    of the title, and a longer title is never cut. *)
Theorem build_tweet_text_length (article : Article.t) :
  (String.length (signals._build_tweet_text article) ≤ 280)%nat
  ↔ (String.length (Article.title article) ≤ 262)%nat.
Proof.
  unfold signals._build_tweet_text. cbv zeta.
  set (heading := "New Article: " +:+ Article.title article
                  +:+ newline +:+ newline).
  assert (Hheading : String.length heading
                     = (15 + String.length (Article.title article))%nat).
  { unfold heading. rewrite !length_append. simpl. lia. }
  clearbody heading.
  set (remaining := (280 - Z.of_nat (String.length heading) - 3)%Z).
  pose proof (length_slice_to remaining (Article.content article)) as Hc.
  pose proof (length_slice_to remaining (Article.summary article)) as Hs.
  destruct (decide (Article.summary article = "")) as [_|Hsummary].
  - rewrite !length_append. simpl String.length.
    destruct (decide (0 ≤ remaining)%Z); unfold remaining in *; lia.
  - destruct (decide (Z.of_nat (String.length (Article.summary article))
                      ≤ remaining)%Z) as [Hfits|Hcut].
    + rewrite length_append. unfold remaining in *. lia.
    + rewrite !length_append. simpl String.length.
      destruct (decide (0 ≤ remaining)%Z); unfold remaining in *; lia.
Qed.

(** A summary that has to be cut fills the tweet to the last character. *)
Lemma build_tweet_text_cut (article : Article.t) :
  (String.length (Article.title article) ≤ 262)%nat →
  (262 - String.length (Article.title article)
   < String.length (Article.summary article))%nat →
  String.length (signals._build_tweet_text article) = 280%nat.
Proof.
  intros Htitle Hlong. unfold signals._build_tweet_text. cbv zeta.
  set (heading := "New Article: " +:+ Article.title article
                  +:+ newline +:+ newline).
  assert (Hheading : String.length heading
                     = (15 + String.length (Article.title article))%nat).
  { unfold heading. rewrite !length_append. simpl. lia. }
  clearbody heading.
  set (remaining := (280 - Z.of_nat (String.length heading) - 3)%Z).
  pose proof (length_slice_to remaining (Article.summary article)) as Hs.
  destruct (decide (Article.summary article = "")) as [Hempty|_].
  { rewrite Hempty in Hlong. simpl in Hlong. lia. }
  destruct (decide (Z.of_nat (String.length (Article.summary article))
                    ≤ remaining)%Z) as [Hfits|_].
  { unfold remaining in Hfits. lia. }
  rewrite !length_append. simpl String.length.
  destruct (decide (0 ≤ remaining)%Z); unfold remaining in *; lia.
Qed.

(** * Approval, publication and what they announce *)

(** The first approval of an existing row: the receiver stamps
    [approval_date], the write stamps [updated_at]. *)
Lemma Article_save_first_approval (pk_ : pk) (instance old : Article.t)
    (p : datetime) (w : World) :
  DB.articles (db w) !! pk_ = Some old →
  Article.is_approved old = false →
  Article.is_approved instance = true →
  Article.published_date instance = Some p →
  let row := Article.set_updated_at (clock w (S (ticks w)))
               (Article.set_approval_date (Some (clock w (ticks w)))
                  instance) in
  models.Article_save pk_ instance w
  = signals.notify_subscribers_on_approval row false
      {| conf := conf w;
         db := DB.set_articles (<[pk_ := row]> (DB.articles (db w))) (db w);
         clock := clock w; ticks := S (S (ticks w)); outbox := outbox w |}.
Proof.
  intros Hold Hno Hyes Hp. cbv zeta. unfold models.Article_save.
  rewrite bind_run. unfold signals.set_approval_date.
  rewrite read_db_run, Hold, Hno, Hyes. cbn [negb andb].
  rewrite bind_run. cbn [timezone_now Article.published_date
                         Article.set_approval_date].
  rewrite Hp. cbn [mret M_ret]. rewrite read_db_run. cbn [db].
  rewrite bool_decide_eq_false_2 by (by rewrite Hold).
  repeat (rewrite bind_run; cbn [mret M_ret timezone_now modify_db]).
  reflexivity.
Qed.

(** X2.  A POST to [approve_article] on an article that is neither approved
    nor rejected writes the approved row: the requester as [approved_by],
    the second clock reading as [published_date], the third, taken by the
    [pre_save] receiver, as [approval_date], the fourth as [updated_at];
    every other field, row and table stays.  This holds even if the
    notification fails afterwards. *)
Theorem approve_article_pending (w : World) (request : HttpRequest.t)
    (pk_ u : pk) (user : CustomUser.t) (article : Article.t) :
  views.request_user (db w) request = Some (u, user) →
  DB.articles (db w) !! pk_ = Some article →
  Article.is_approved article = false →
  Article.is_rejected article = false →
  HttpRequest.method request = "POST" →
  db (serve (views.approve_article request pk_) w).2
  = DB.set_articles
      (<[pk_ := approved_row u (clock w) (ticks w) article]>
         (DB.articles (db w))) (db w).
Proof.
  intros Hu Ha Happ Hrej Hm.
  rewrite serve_world. unfold views.approve_article.
  rewrite (login_required_run _ u user) by done.
  cbv beta. rewrite read_db_run. cbv beta. rewrite Ha, Hrej, Happ.
  destruct (decide _); [|done].
  rewrite bind_run. cbn [timezone_now]. rewrite bind_run.
  cbn [timezone_now]. rewrite bind_run.
  erewrite Article_save_first_approval; [|exact Ha|exact Happ|done|done].
  cbv zeta.
  match goal with
  | |- context [signals.notify_subscribers_on_approval ?i ?c ?w1] =>
      pose proof (keeps_db_notify_subscribers_on_approval i c w1) as Hdb;
      destruct (signals.notify_subscribers_on_approval i c w1)
        as [[err|[]] w2]
  end; cbn [snd mret M_ret db] in Hdb |- *; by rewrite Hdb.
Qed.

Lemma approve_article_pending_witness :
  DB.articles (db fixture.w_approved) !! 1%positive
  = Some (approved_row 2 (clock fixture.w0) 0 fixture.draft).
Proof.
  pose proof (approve_article_pending fixture.w0
                (fixture.request 2 "POST" ∅) 1 2 fixture.ed fixture.draft
                eq_refl eq_refl eq_refl eq_refl eq_refl) as Hdb.
  unfold fixture.w_approved, run. cbn [foldl step].
  rewrite Hdb. cbn [db DB.articles DB.set_articles].
  by rewrite lookup_insert_eq.
Defined.

(** X3.  [publish_independently] answers 404 to anyone but the author and
    then changes nothing; for the author of an unapproved article it writes,
    on any request method, the row with [independently_published] and
    [is_approved] set, the clock readings as for an approval, and
    [approved_by] and the rejection fields as they were. *)
Theorem publish_independently_effect (w : World) (request : HttpRequest.t)
    (pk_ u : pk) (user : CustomUser.t) (article : Article.t) :
  views.request_user (db w) request = Some (u, user) →
  DB.articles (db w) !! pk_ = Some article →
  (Article.author article ≠ u →
   serve (views.publish_independently request pk_) w = (Http404, w))
  ∧ (Article.author article = u →
     Article.is_approved article = false →
     db (serve (views.publish_independently request pk_) w).2
     = DB.set_articles
         (<[pk_ := self_published_row (clock w) (ticks w) article]>
            (DB.articles (db w))) (db w)).
Proof.
  intros Hu Ha. split.
  - intros Hother. unfold serve, views.publish_independently.
    rewrite (login_required_run _ u user) by done.
    cbv beta. rewrite read_db_run. cbv beta. rewrite Ha.
    by destruct (decide _).
  - intros Hauthor Happ.
    rewrite serve_world. unfold views.publish_independently.
    rewrite (login_required_run _ u user) by done.
    cbv beta. rewrite read_db_run. cbv beta. rewrite Ha.
    destruct (decide _); [done|].
    rewrite bind_run. cbn [timezone_now]. rewrite bind_run.
    cbn [timezone_now]. rewrite bind_run.
    erewrite Article_save_first_approval; [|exact Ha|exact Happ|done|done].
    cbv zeta.
    match goal with
    | |- context [signals.notify_subscribers_on_approval ?i ?c ?w1] =>
        pose proof (keeps_db_notify_subscribers_on_approval i c w1) as Hdb;
        destruct (signals.notify_subscribers_on_approval i c w1)
          as [[err|[]] w2]
    end; cbn [snd mret M_ret db] in Hdb |- *; [by rewrite Hdb|].
    rewrite bind_run. cbn [views.messages_success emit snd db mret M_ret].
    by rewrite Hdb.
Qed.

Lemma publish_independently_effect_witness :
  serve (views.publish_independently (fixture.request 2 "GET" ∅) 1)
        fixture.w0
  = (Http404, fixture.w0)
  ∧ DB.articles
      (db (serve (views.publish_independently (fixture.request 3 "GET" ∅) 1)
                 fixture.w0).2) !! 1%positive
    = Some (self_published_row (clock fixture.w0) 0 fixture.draft).
Proof.
  split.
  - by apply (publish_independently_effect fixture.w0
                (fixture.request 2 "GET" ∅) 1 2 fixture.ed fixture.draft).
  - destruct (publish_independently_effect fixture.w0
                (fixture.request 3 "GET" ∅) 1 3 fixture.jo fixture.draft
                eq_refl eq_refl) as [_ Hauthor].
    rewrite (Hauthor eq_refl eq_refl). cbn [db DB.articles DB.set_articles].
    by rewrite lookup_insert_eq.
Defined.

Lemma keeps_world_ret {A} (a : A) : keeps_world (mret a).
Proof. by intros w. Qed.

Lemma keeps_world_raise {A} (e : exn) : keeps_world (@raise A e).
Proof. by intros w. Qed.

Lemma keeps_world_read_db : keeps_world read_db.
Proof. by intros w. Qed.

Lemma keeps_world_read_settings : keeps_world read_settings.
Proof. by intros w. Qed.

Lemma keeps_world_bind {A B} (m : M A) (f : A → M B) :
  keeps_world m → (∀ a, keeps_world (f a)) → keeps_world (m ≫= f).
Proof.
  intros Hm Hf w. rewrite bind_run. specialize (Hm w).
  destruct (m w) as [[e|a] w1]; simpl in *; subst; [done|]. apply Hf.
Qed.

Lemma keeps_world_related {V} (table : DB.t → gmap pk V) (k : pk) :
  keeps_world (related table k).
Proof.
  apply keeps_world_bind; [apply keeps_world_read_db|]. intros d.
  destruct (table d !! k); [apply keeps_world_ret|apply keeps_world_raise].
Qed.

Lemma keeps_world_related_opt {V} (table : DB.t → gmap pk V)
    (k : option pk) :
  keeps_world (related_opt table k).
Proof.
  destruct k; [|apply keeps_world_ret].
  apply keeps_world_bind;
    [apply keeps_world_related|intros ?; apply keeps_world_ret].
Qed.

Lemma keeps_world_passes (m : M unit) : keeps_world m → keeps_world (passes m).
Proof.
  intros Hm w. unfold passes. specialize (Hm w).
  by destruct (m w) as [[[]|[]] w1].
Qed.

Create HintDb reads discriminated.

#[global] Hint Resolve keeps_world_ret keeps_world_raise keeps_world_read_db
  keeps_world_read_settings keeps_world_related keeps_world_related_opt
  keeps_world_passes : reads.

(** Splits a reading computation along its binds and case distinctions. *)
Ltac reads :=
  repeat first
    [ progress eauto with reads
    | apply keeps_world_bind; [|intros ?]
    | match goal with
      | |- keeps_world (match ?x with _ => _ end) => destruct x
      end ].

Lemma keeps_world_prepare_emails (article : Article.t) :
  keeps_world (signals.prepare_emails article).
Proof. unfold signals.prepare_emails. reads. Qed.

Lemma keeps_world_Article_clean (self : Article.t) :
  keeps_world (models.Article_clean self).
Proof. unfold models.Article_clean. reads. Qed.

Lemma keeps_world_Article_clean_without_author (self : Article.t) :
  keeps_world (forms.Article_clean_without_author self).
Proof. unfold forms.Article_clean_without_author. reads. Qed.

Lemma keeps_world_ArticleForm_is_valid (request : HttpRequest.t)
    (instance : Article.t) :
  keeps_world (forms.ArticleForm_is_valid request instance).
Proof.
  unfold forms.ArticleForm_is_valid.
  apply keeps_world_bind; [apply keeps_world_read_db|]. intros d.
  apply keeps_world_bind;
    [apply keeps_world_passes, keeps_world_Article_clean|].
  intros ok. destruct (_ && _); apply keeps_world_ret.
Qed.

Lemma keeps_world_ArticleForm_new (request : HttpRequest.t) (author : pk) :
  keeps_world (forms.ArticleForm_new request author).
Proof.
  unfold forms.ArticleForm_new.
  apply keeps_world_bind; [apply keeps_world_read_db|]. intros d.
  apply keeps_world_bind;
    [apply keeps_world_passes, keeps_world_Article_clean_without_author|].
  intros ok. destruct (_ && _); apply keeps_world_ret.
Qed.

(** The messages prepared for an article depend on the article's text,
    author and publisher and on the audience, and on nothing else. *)
Lemma prepare_emails_ext (a1 a2 : Article.t) (w1 w2 : World) :
  same_notice a1 a2 → same_audience w1 w2 →
  (signals.prepare_emails a1 w1).1 = (signals.prepare_emails a2 w2).1.
Proof.
  intros (Htitle & Hcontent & Hsummary & Hauthor & Hpublisher)
         (Hconf & Husers & Hpublishers & Hsp & Hsj).
  unfold signals.prepare_emails, signals.notification_subject,
    signals.notification_message, signals.subscribed_readers,
    signals.journalist_subscribers.
  rewrite !read_db_run. cbv beta.
  rewrite Htitle, Hcontent, Hsummary, Hauthor, Hpublisher.
  rewrite Husers, Hsp, Hsj. rewrite !bind_run.
  assert (Hrelated :
    (related_opt DB.publishers (Article.publisher a2) w1
     = (inr (Article.publisher a2 ≫= λ p, DB.publishers (db w2) !! p), w1)
     ∧ related_opt DB.publishers (Article.publisher a2) w2
       = (inr (Article.publisher a2 ≫= λ p, DB.publishers (db w2) !! p), w2))
    ∨ (∃ e, related_opt DB.publishers (Article.publisher a2) w1 = (inl e, w1)
            ∧ related_opt DB.publishers (Article.publisher a2) w2
              = (inl e, w2))).
  { unfold related_opt, related.
    destruct (Article.publisher a2) as [p|]; [|by left].
    rewrite !bind_run. cbn [read_db]. rewrite Hpublishers.
    destruct (DB.publishers (db w2) !! p) eqn:Hp; cbn [mret M_ret raise].
    - left. cbn [mbind option_bind]. by rewrite Hp.
    - right. by exists DoesNotExist. }
  destruct Hrelated as [[-> ->]|(e & -> & ->)]; [|done].
  cbv zeta. rewrite !bind_run. unfold related. rewrite !read_db_run, Husers.
  destruct (DB.users (db w2) !! Article.author a2); [|done].
  cbn [mret M_ret].
  destruct (decide (_ = ∅)); [done|].
  rewrite !bind_run. cbn [read_settings mret M_ret fst]. by rewrite Hconf.
Qed.


Lemma notify_fresh (row : Article.t) (t : datetime)
    (emails : list Email.t) (w : World) :
  Article.is_approved row = true →
  Article.approval_date row = Some t →
  (clock w (ticks w) - t ≤ 10000000)%Z →
  (signals.prepare_emails row w).1 = inr emails →
  signals.notify_subscribers_on_approval row false w
  = (inr (), later 1 (announcements (conf w) row emails) w).
Proof.
  intros Happ Hdate Hfresh Hemails.
  unfold signals.notify_subscribers_on_approval.
  rewrite Happ, Hdate. cbn [negb]. rewrite !bind_run. cbn [timezone_now].
  cbn [mret M_ret]. rewrite bool_decide_eq_false_2 by lia.
  rewrite bind_run. unfold signals.send_email_notifications.
  rewrite bind_run.
  match goal with
  | |- context [signals.prepare_emails row ?w1] =>
      pose proof (keeps_world_prepare_emails row w1) as Hw1;
      pose proof (prepare_emails_ext row row w1 w
                    (conj eq_refl (conj eq_refl (conj eq_refl
                       (conj eq_refl eq_refl))))
                    (conj eq_refl (conj eq_refl (conj eq_refl
                       (conj eq_refl eq_refl))))) as Hext;
      destruct (signals.prepare_emails row w1) as [r w2]
  end.
  cbn [fst snd] in Hw1, Hext. subst w2. rewrite Hemails in Hext. subst r.
  unfold announcements, later, signals.post_to_twitter.
  destruct (decide (emails = [])); cbn [mret M_ret emit];
    rewrite bind_run; cbn [read_settings conf];
    destruct (settings.ENABLE_TWITTER (conf w)); unfold emit; simpl;
    rewrite ?app_nil_r, <- ?app_assoc; reflexivity.
Qed.

(** X4.  When a pending article is approved and the clock moves at most ten
    seconds between the receiver's stamp and its check, the approval
    announces the article exactly once: one mass mail holding the messages
    prepared for the article, unless there are none, then the tweet if
    tweeting is on; and it takes five clock readings. *)
Theorem approve_article_announces (w : World) (request : HttpRequest.t)
    (pk_ u : pk) (user : CustomUser.t) (article : Article.t)
    (emails : list Email.t) :
  views.request_user (db w) request = Some (u, user) →
  DB.articles (db w) !! pk_ = Some article →
  Article.is_approved article = false →
  Article.is_rejected article = false →
  HttpRequest.method request = "POST" →
  (clock w (4 + ticks w)%nat - clock w (2 + ticks w)%nat ≤ 10000000)%Z →
  (signals.prepare_emails article w).1 = inr emails →
  serve (views.approve_article request pk_) w
  = (redirect "pending_articles" [],
     {| conf := conf w;
        db := DB.set_articles
                (<[pk_ := approved_row u (clock w) (ticks w) article]>
                   (DB.articles (db w))) (db w);
        clock := clock w;
        ticks := (5 + ticks w)%nat;
        outbox := outbox w ++ announcements (conf w) article emails |}).
Proof.
  intros Hu Ha Happ Hrej Hm Hfresh Hemails.
  unfold serve, views.approve_article.
  rewrite (login_required_run _ u user) by done.
  cbv beta. rewrite read_db_run. cbv beta. rewrite Ha, Hrej, Happ.
  destruct (decide _); [|done].
  rewrite bind_run. cbn [timezone_now]. rewrite bind_run.
  cbn [timezone_now]. rewrite bind_run.
  erewrite Article_save_first_approval; [|exact Ha|exact Happ|done|done].
  cbv zeta.
  erewrite (notify_fresh _ _ emails); [reflexivity|done|reflexivity|exact Hfresh|].
  rewrite <- Hemails. by apply prepare_emails_ext.
Qed.

Lemma approve_article_announces_witness :
  ∃ mail, outbox fixture.w_approved = [send_mass_mail [mail]]
          ∧ Email.recipient_list mail = ["rita@example.org"]
          ∧ ticks fixture.w_approved = 5%nat.
Proof.
  pose proof (approve_article_announces fixture.w0
                (fixture.request 2 "POST" ∅) 1 2 fixture.ed fixture.draft
                [notification_for (conf fixture.w0) fixture.draft fixture.jo
                   (Some fixture.planet) fixture.rita]
                eq_refl eq_refl eq_refl eq_refl eq_refl) as Hrun.
  unfold fixture.w_approved, run. cbn [foldl step].
  rewrite Hrun; [|by vm_compute|by vm_compute].
  eexists. by vm_compute.
Defined.

(** Saving a row that was approved before: the [pre_save] receiver leaves
    the instance alone. *)
Lemma Article_save_approved_before (pk_ : pk) (instance old : Article.t)
    (w : World) :
  DB.articles (db w) !! pk_ = Some old →
  Article.is_approved old = true →
  let row := Article.set_updated_at (clock w (ticks w)) instance in
  models.Article_save pk_ instance w
  = signals.notify_subscribers_on_approval row false
      {| conf := conf w;
         db := DB.set_articles (<[pk_ := row]> (DB.articles (db w))) (db w);
         clock := clock w; ticks := S (ticks w); outbox := outbox w |}.
Proof.
  intros Hold Hyes. cbv zeta. unfold models.Article_save.
  rewrite bind_run. unfold signals.set_approval_date.
  rewrite read_db_run, Hold, Hyes. cbn [negb andb mret M_ret].
  rewrite read_db_run. cbn [db].
  rewrite bool_decide_eq_false_2 by (by rewrite Hold).
  repeat (rewrite bind_run; cbn [mret M_ret timezone_now modify_db]).
  reflexivity.
Qed.

Lemma approval_ArticleForm_construct (d : DB.t) (request : HttpRequest.t)
    (instance : Article.t) :
  Article.is_approved (forms.ArticleForm_construct d request instance)
  = Article.is_approved instance
  ∧ Article.is_rejected (forms.ArticleForm_construct d request instance)
    = Article.is_rejected instance
  ∧ Article.approval_date (forms.ArticleForm_construct d request instance)
    = Article.approval_date instance.
Proof.
  unfold forms.ArticleForm_construct.
  by destruct (forms.cleaned_title request), (forms.cleaned_content request),
    (forms.cleaned_publisher d request), (HttpRequest.FILES_image request),
    (forms.cleaned_summary request).
Qed.

(** An editor's successful edit comes down to one [save] of the instance
    the form built. *)
Lemma edit_article_by_editor_run (w w' : World) (request : HttpRequest.t)
    (pk_ u : pk) (user : CustomUser.t) (article : Article.t) :
  views.request_user (db w) request = Some (u, user) →
  CustomUser.role user = Role.editor →
  DB.articles (db w) !! pk_ = Some article →
  serve (views.edit_article request pk_) w
  = (redirect "article_detail" [pk_], w') →
  ∃ w1,
    models.Article_save pk_
      (forms.ArticleForm_construct (db w) request article) w
    = (inr (), w1)
    ∧ w' = with_event w1
             (flash messages.success "Article updated successfully!").
Proof.
  intros Hu Hrole Ha. unfold serve, views.edit_article.
  rewrite (login_required_run _ u user) by done.
  cbv beta. rewrite read_db_run. cbv beta. rewrite Ha, Hrole.
  destruct (decide (Role.editor = Role.journalist)); [done|].
  destruct (decide (Role.editor ≠ Role.editor)); [done|].
  unfold views.edit_article_form.
  destruct (decide (HttpRequest.method request = "POST")); [|done].
  rewrite bind_run.
  pose proof (keeps_world_ArticleForm_is_valid request article w) as Hw.
  destruct (ArticleForm_is_valid_run request article w)
    as (r & w0 & Hrun & _ & Hr).
  rewrite Hrun in Hw |- *. cbn [snd] in Hw. subst w0.
  destruct r as [err|[article_instance|]]; [done| |done].
  rewrite (Hr article_instance eq_refl). rewrite Hrole.
  rewrite bool_decide_eq_false_2 by done. cbn [andb].
  rewrite bind_run.
  destruct (models.Article_save pk_
              (forms.ArticleForm_construct (db w) request article) w)
    as [[err|[]] w1]; [done|].
  rewrite bind_run. cbn [views.messages_success emit mret M_ret].
  intros [= <-]. by exists w1.
Qed.



(** X6.  When an editor edits an article at most ten seconds after its
    approval was stamped, the edit announces the article again, with the
    messages prepared for the instance the form built from the stripped
    text, before the flash message. *)
Theorem edit_article_reannounces (w w' : World) (request : HttpRequest.t)
    (pk_ u : pk) (user : CustomUser.t) (article : Article.t)
    (t : datetime) (emails : list Email.t) :
  views.request_user (db w) request = Some (u, user) →
  CustomUser.role user = Role.editor →
  DB.articles (db w) !! pk_ = Some article →
  Article.is_approved article = true →
  Article.approval_date article = Some t →
  (clock w (S (ticks w)) - t ≤ 10000000)%Z →
  (signals.prepare_emails
     (forms.ArticleForm_construct (db w) request article) w).1
  = inr emails →
  serve (views.edit_article request pk_) w
  = (redirect "article_detail" [pk_], w') →
  outbox w'
  = (outbox w
     ++ announcements (conf w)
          (forms.ArticleForm_construct (db w) request article) emails
     ++ [flash messages.success "Article updated successfully!"])%list.
Proof.
  intros Hu Hrole Ha Happ Hdate Hfresh Hemails Hrun.
  destruct (edit_article_by_editor_run w w' request pk_ u user article
              Hu Hrole Ha Hrun) as (w1 & Hsave & ->).
  destruct (approval_ArticleForm_construct (db w) request article)
    as (Happ' & _ & Hdate').
  erewrite Article_save_approved_before in Hsave by done. cbv zeta in Hsave.
  erewrite (notify_fresh _ t emails) in Hsave;
    [|by rewrite <- Happ|by rewrite <- Hdate|exact Hfresh|].
  - injection Hsave as <-. unfold with_event, later. simpl.
    by rewrite <- app_assoc.
  - rewrite <- Hemails. by apply prepare_emails_ext.
Qed.

Lemma edit_article_reannounces_witness :
  ∃ mail,
    Email.subject mail = "New Article Published: Budget"
    ∧ outbox (serve (views.edit_article (newsroom.padded 2) 1)
                    fixture.w_approved).2
      = (outbox fixture.w_approved
         ++ [send_mass_mail [mail];
             flash messages.success "Article updated successfully!"])%list.
Proof.
  exists (notification_for (conf fixture.w0)
            (forms.ArticleForm_construct fixture.d0 (newsroom.padded 2)
               fixture.draft)
            fixture.jo None fixture.rita).
  split; [by vm_compute|].
  erewrite (edit_article_reannounces fixture.w_approved
              (serve (views.edit_article (newsroom.padded 2) 1)
                     fixture.w_approved).2
              (newsroom.padded 2) 1 2 fixture.ed
              (approved_row 2 (clock fixture.w0) 0 fixture.draft)
              1002000000
              [notification_for (conf fixture.w0)
                 (forms.ArticleForm_construct fixture.d0 (newsroom.padded 2)
                    fixture.draft)
                 fixture.jo None fixture.rita]);
    [reflexivity|reflexivity|reflexivity|by vm_compute|reflexivity
    |reflexivity|by vm_compute|by vm_compute|by vm_compute].
Defined.

(** * Creating, editing and deleting articles *)

(** [Article.clean] never passes an independently published article that
    carries an editorial decision. *)
Lemma Article_clean_independent (self : Article.t) (w : World) :
  Article.independently_published self = true →
  Article.is_approved self || Article.is_rejected self = true →
  ∃ e, models.Article_clean self w = (inl e, w).
Proof.
  intros Hind Hmark. unfold models.Article_clean.
  rewrite bind_run. unfold related at 1. rewrite read_db_run.
  destruct (DB.users (db w) !! Article.author self) as [author|];
    [|by eexists].
  cbn [mret M_ret]. rewrite bind_run.
  destruct (decide (CustomUser.role author ≠ Role.journalist));
    [by eexists|].
  cbn [mret M_ret]. rewrite bind_run.
  assert (Hby : ∃ r,
    match Article.approved_by self with
    | Some e =>
        approved_by ← related DB.users e;
        if decide (CustomUser.role approved_by ≠ Role.editor)
        then raise (ValidationError
                      "Only users with 'editor' role can approve articles.")
        else mret ()
    | None => mret ()
    end w = (r, w)).
  { destruct (Article.approved_by self) as [e|]; [|by eexists].
    rewrite bind_run. unfold related. rewrite read_db_run.
    destruct (DB.users (db w) !! e) as [row|]; [|by eexists].
    cbn [mret M_ret]. destruct (decide _); by eexists. }
  destruct Hby as ([err|[]] & ->); [by eexists|].
  rewrite Hind, Hmark. rewrite bind_run. cbn [mret M_ret]. by eexists.
Qed.

(** X7.  An article that is marked as independently published and is
    approved or rejected cannot be edited through [edit_article] by anyone:
    the model validation that the form runs never passes, so no request
    reports success and none changes the store. *)
Theorem edit_article_independent (w : World) (request : HttpRequest.t)
    (pk_ : pk) (article : Article.t) :
  DB.articles (db w) !! pk_ = Some article →
  Article.independently_published article = true →
  Article.is_approved article || Article.is_rejected article = true →
  (serve (views.edit_article request pk_) w).1
  ≠ redirect "article_detail" [pk_]
  ∧ db (serve (views.edit_article request pk_) w).2 = db w.
Proof.
  intros Ha Hind Hmark.
  assert (Hform : ∀ user,
    (views.edit_article_form request pk_ user article w).1
    ≠ inr (redirect "article_detail" [pk_])
    ∧ db (views.edit_article_form request pk_ user article w).2 = db w).
  { intros user. unfold views.edit_article_form.
    destruct (decide _); [|done].
    rewrite bind_run. unfold forms.ArticleForm_is_valid.
    rewrite read_db_run. cbv beta. rewrite bind_run. unfold passes.
    destruct (Article_clean_independent
                (forms.ArticleForm_construct (db w) request article) w)
      as (err & ->).
    - unfold forms.ArticleForm_construct.
      by destruct (forms.cleaned_title request),
        (forms.cleaned_content request),
        (forms.cleaned_publisher (db w) request),
        (HttpRequest.FILES_image request), (forms.cleaned_summary request).
    - destruct (approval_ArticleForm_construct (db w) request article)
        as (-> & -> & _). done.
    - destruct err; [done| |done|done].
      cbn [mret M_ret]. by rewrite andb_false_r. }
  assert (Hview :
    (views.edit_article request pk_ w).1
    ≠ inr (redirect "article_detail" [pk_])
    ∧ db (views.edit_article request pk_ w).2 = db w).
  { unfold views.edit_article, views.login_required.
    rewrite read_db_run. cbv beta.
    destruct (views.request_user (db w) request) as [[u user]|]; [|done].
    rewrite read_db_run. cbv beta. rewrite Ha.
    destruct (decide (CustomUser.role user = Role.journalist)).
    - destruct (decide _); [done|].
      destruct (Article.is_approved article); [done|apply Hform].
    - destruct (decide _); [done|apply Hform]. }
  unfold serve.
  destruct (views.edit_article request pk_ w) as [[err|r] w1];
    cbn [fst snd] in Hview |- *; destruct Hview as [Hr Hdb];
    (split; [congruence|done]).
Qed.

Lemma edit_article_independent_witness :
  (serve (views.edit_article (newsroom.edit 2) 1) fixture.w_both).1
  = render "news_app/article_form.html"
  ∧ db (serve (views.edit_article (newsroom.edit 2) 1) fixture.w_both).2
    = db fixture.w_both.
Proof.
  destruct (edit_article_independent fixture.w_both (newsroom.edit 2) 1
              (self_published_row (clock fixture.w0) 2
                 (Article.set_updated_at 1001000000
                    (Article.set_rejected_reason (Some "Too thin")
                       (Article.set_rejected_date (Some 1000000000%Z)
                          (Article.set_rejected_by (Some 2%positive)
                             (Article.set_is_rejected true
                                fixture.draft)))))))
    as [_ Hdb]; [by vm_compute|reflexivity|reflexivity|].
  split; [by vm_compute|exact Hdb].
Defined.

(** X8.  [edit_article] turns away, with a message and without touching
    the store or the clock, a journalist who is not the author, the author
    of an approved article, and every reader and publisher; for the users
    it lets through, a request that is not a POST only shows the form. *)
Theorem edit_article_denied (w : World) (request : HttpRequest.t)
    (pk_ u : pk) (user : CustomUser.t) (article : Article.t) :
  views.request_user (db w) request = Some (u, user) →
  DB.articles (db w) !! pk_ = Some article →
  (CustomUser.role user = Role.journalist →
   Article.author article ≠ u →
   serve (views.edit_article request pk_) w
   = (redirect "my_articles" [],
      with_event w
        (flash messages.error "You can only edit your own articles.")))
  ∧ (CustomUser.role user = Role.journalist →
     Article.author article = u →
     Article.is_approved article = true →
     serve (views.edit_article request pk_) w
     = (redirect "my_articles" [],
        with_event w
          (flash messages.error
             "Cannot edit approved articles. Contact an editor.")))
  ∧ (CustomUser.role user ≠ Role.journalist →
     CustomUser.role user ≠ Role.editor →
     serve (views.edit_article request pk_) w
     = (redirect "home" [],
        with_event w
          (flash messages.error
             "You do not have permission to edit articles.")))
  ∧ (CustomUser.role user = Role.editor
     ∨ (CustomUser.role user = Role.journalist
        ∧ Article.author article = u
        ∧ Article.is_approved article = false) →
     HttpRequest.method request ≠ "POST" →
     serve (views.edit_article request pk_) w
     = (render "news_app/article_form.html", w)).
Proof.
  intros Hu Ha. unfold serve, views.edit_article.
  rewrite (login_required_run _ u user) by done.
  cbv beta. rewrite read_db_run. cbv beta. rewrite Ha.
  repeat split.
  - intros -> Hother.
    destruct (decide (Role.journalist = Role.journalist)); [|done].
    by destruct (decide (Article.author article ≠ u)).
  - intros -> Hauthor ->.
    destruct (decide (Role.journalist = Role.journalist)); [|done].
    by destruct (decide (Article.author article ≠ u)).
  - intros Hnj Hne.
    destruct (decide (CustomUser.role user = Role.journalist)); [done|].
    by destruct (decide (CustomUser.role user ≠ Role.editor)).
  - intros [Heditor|(Hj & Hauthor & Happ)] Hm.
    + rewrite Heditor.
      destruct (decide (Role.editor = Role.journalist)); [done|].
      destruct (decide (Role.editor ≠ Role.editor)); [done|].
      unfold views.edit_article_form. by destruct (decide _).
    + rewrite Hj, Happ.
      destruct (decide (Role.journalist = Role.journalist)); [|done].
      destruct (decide (Article.author article ≠ u)); [done|].
      unfold views.edit_article_form. by destruct (decide _).
Qed.

Lemma edit_article_denied_witness :
  serve (views.edit_article (newsroom.edit 6) 1) fixture.w0
  = (redirect "my_articles" [],
     with_event fixture.w0
       (flash messages.error "You can only edit your own articles."))
  ∧ serve (views.edit_article (newsroom.edit 3) 1) fixture.w_approved
    = (redirect "my_articles" [],
       with_event fixture.w_approved
         (flash messages.error
            "Cannot edit approved articles. Contact an editor."))
  ∧ serve (views.edit_article (newsroom.edit 1) 1) fixture.w0
    = (redirect "home" [],
       with_event fixture.w0
         (flash messages.error
            "You do not have permission to edit articles."))
  ∧ serve (views.edit_article (fixture.request 2 "GET" ∅) 1) fixture.w0
    = (render "news_app/article_form.html", fixture.w0).
Proof.
  split; [|split; [|split]].
  - by apply (edit_article_denied fixture.w0 (newsroom.edit 6) 1 6
                fixture.jane fixture.draft eq_refl eq_refl).
  - apply (edit_article_denied fixture.w_approved (newsroom.edit 3) 1 3
             fixture.jo (approved_row 2 (clock fixture.w0) 0 fixture.draft));
      [reflexivity|by vm_compute|reflexivity..].
  - by apply (edit_article_denied fixture.w0 (newsroom.edit 1) 1 1
                fixture.rita fixture.draft eq_refl eq_refl).
  - apply (edit_article_denied fixture.w0 (fixture.request 2 "GET" ∅) 1 2
             fixture.ed fixture.draft eq_refl eq_refl); [by left|done].
Defined.

(** X9.  [delete_article] removes the row exactly when the request is a
    POST by the author of an article that is not approved; under any other
    condition the store is left as it was.  The role of the user is never
    looked at. *)
Theorem delete_article_effect (w : World) (request : HttpRequest.t)
    (pk_ u : pk) (user : CustomUser.t) (article : Article.t) :
  views.request_user (db w) request = Some (u, user) →
  DB.articles (db w) !! pk_ = Some article →
  (Article.author article = u →
   Article.is_approved article = false →
   HttpRequest.method request = "POST" →
   serve (views.delete_article request pk_) w
   = (redirect "my_articles" [],
      {| conf := conf w;
         db := DB.set_articles (delete pk_ (DB.articles (db w))) (db w);
         clock := clock w; ticks := ticks w;
         outbox := outbox w
                   ++ [flash messages.success
                         "Article deleted successfully!"] |}))
  ∧ (¬ (Article.author article = u
        ∧ Article.is_approved article = false
        ∧ HttpRequest.method request = "POST") →
     db (serve (views.delete_article request pk_) w).2 = db w).
Proof.
  intros Hu Ha. unfold serve, views.delete_article.
  rewrite (login_required_run _ u user) by done.
  cbv beta. rewrite read_db_run. cbv beta. rewrite Ha. split.
  - intros Hauthor -> Hm.
    destruct (decide (Article.author article ≠ u)); [done|].
    by destruct (decide _).
  - intros Hno.
    destruct (decide (Article.author article ≠ u)); [done|].
    destruct (Article.is_approved article) eqn:Happ; [done|].
    destruct (decide (HttpRequest.method request = "POST")); [|done].
    destruct Hno. split; [|done].
    by destruct (decide (Article.author article = u)).
Qed.

Lemma delete_article_effect_witness :
  DB.articles
    (db (serve (views.delete_article (fixture.request 3 "POST" ∅) 1)
               fixture.w0).2) !! 1%positive = None
  ∧ db (serve (views.delete_article (fixture.request 3 "POST" ∅) 1)
              fixture.w_approved).2 = db fixture.w_approved.
Proof.
  split.
  - destruct (delete_article_effect fixture.w0 (fixture.request 3 "POST" ∅)
                1 3 fixture.jo fixture.draft eq_refl eq_refl) as [Hdel _].
    rewrite Hdel by done. cbn [snd db DB.articles DB.set_articles].
    apply lookup_delete_eq.
  - apply (delete_article_effect fixture.w_approved
             (fixture.request 3 "POST" ∅) 1 3 fixture.jo
             (approved_row 2 (clock fixture.w0) 0 fixture.draft));
      [reflexivity|by vm_compute|].
    intros (_ & Happ & _). done.
Defined.






(** * Subscriptions and the feed *)

(** Membership in the feed of a reader. *)
Lemma feed_elem (d : DB.t) (u k : pk) (user : CustomUser.t) (a : Article.t) :
  CustomUser.role user = Role.reader →
  (k, a) ∈ views.SubscriptionArticlesView_get_queryset d u user
  ↔ DB.articles d !! k = Some a
    ∧ Article.is_approved a = true
    ∧ ((∃ p, Article.publisher a = Some p ∧ (u, p) ∈ DB.subscribed_publishers d)
       ∨ (u, Article.author a) ∈ DB.subscribed_journalists d).
Proof.
  intros Hrole. unfold views.SubscriptionArticlesView_get_queryset.
  rewrite Hrole. destruct (decide (Role.reader ≠ Role.reader)); [done|].
  rewrite merge_sort_Permutation, elem_of_remove_dups.
  rewrite list_elem_of_filter, elem_of_map_to_list. simpl.
  rewrite andb_True, orb_True, (Is_true_true (Article.is_approved a)).
  assert (Hall : ∀ (rel : gset (pk * pk)) x, x ∈ DB.all rel u ↔ (u, x) ∈ rel).
  { intros rel x. unfold DB.all. rewrite elem_of_map. split.
    - intros ([u' x'] & -> & Hin). apply elem_of_filter in Hin as [Hu Hin].
      simpl in Hu. by subst.
    - intros Hin. exists (u, x). split; [done|]. by apply elem_of_filter. }
  destruct (Article.publisher a) as [p|]; rewrite !bool_decide_spec, !Hall.
  - split.
    + intros ([[?|?] ?] & ?); eauto 10.
    + intros (? & ? & [(p' & [= <-] & ?)|?]); auto.
  - split.
    + intros ([[[]|?] ?] & ?); auto.
    + intros (? & ? & [(p' & [=] & ?)|?]); auto.
Qed.

(** What a first subscription to a publisher does. *)
Lemma subscribe_to_publisher_new (w : World) (request : HttpRequest.t)
    (u publisher_id : pk) (user : CustomUser.t) (publisher : Publisher.t) :
  views.request_user (db w) request = Some (u, user) →
  CustomUser.role user = Role.reader →
  DB.publishers (db w) !! publisher_id = Some publisher →
  HttpRequest.method request = "POST" →
  (u, publisher_id) ∉ DB.subscribed_publishers (db w) →
  serve (views.subscribe_to_publisher request publisher_id) w
  = (Response
       (JObject [("message",
                  JString ("Successfully subscribed to "
                           +:+ Publisher.name publisher));
                 ("publisher",
                  JObject [("id", JNumber publisher_id);
                           ("name", JString (Publisher.name publisher))])])
       201,
     {| conf := conf w;
        db := DB.set_subscribed_publishers
                ({[ (u, publisher_id) ]} ∪ DB.subscribed_publishers (db w))
                (db w);
        clock := clock w; ticks := ticks w; outbox := outbox w |}).
Proof.
  intros Hu Hrole Hp Hm Hsub. subscription_view Hu Hrole. rewrite Hp.
  by destruct (decide _).
Qed.

(** X11.  For a reader who does not follow a publisher, subscribing
    answers 201 and adds the one pair to the relation, and unsubscribing
    right after answers 200 and hands back the world exactly as it was
    before the two calls. *)
Theorem subscribe_unsubscribe_publisher (w : World)
    (post delete : HttpRequest.t) (u publisher_id : pk) (user : CustomUser.t)
    (publisher : Publisher.t) :
  views.request_user (db w) post = Some (u, user) →
  views.request_user (db w) delete = Some (u, user) →
  CustomUser.role user = Role.reader →
  DB.publishers (db w) !! publisher_id = Some publisher →
  HttpRequest.method post = "POST" →
  HttpRequest.method delete = "DELETE" →
  (u, publisher_id) ∉ DB.subscribed_publishers (db w) →
  let subscribed :=
    serve (views.subscribe_to_publisher post publisher_id) w in
  db subscribed.2
  = DB.set_subscribed_publishers
      ({[ (u, publisher_id) ]} ∪ DB.subscribed_publishers (db w)) (db w)
  ∧ serve (views.unsubscribe_from_publisher delete publisher_id) subscribed.2
    = (Response
         (JObject [("message",
                    JString ("Successfully unsubscribed from "
                             +:+ Publisher.name publisher))]) 200, w).
Proof.
  intros Hpost Hdelete Hrole Hp Hmp Hmd Hsub. cbv zeta.
  rewrite (subscribe_to_publisher_new w post u publisher_id user publisher)
    by done.
  cbn [snd]. split; [done|].
  set (w1 := {| conf := conf w;
                db := DB.set_subscribed_publishers
                        ({[ (u, publisher_id) ]}
                         ∪ DB.subscribed_publishers (db w)) (db w);
                clock := clock w; ticks := ticks w; outbox := outbox w |}).
  assert (Hdelete1 : views.request_user (db w1) delete = Some (u, user))
    by exact Hdelete.
  subscription_view Hdelete1 Hrole. unfold w1.
  cbn [db DB.publishers DB.set_subscribed_publishers
       DB.subscribed_publishers]. rewrite Hp.
  destruct (decide _) as [Hout|_].
  { destruct Hout. by apply elem_of_union_l, elem_of_singleton. }
  unfold modify_db. rewrite bind_run. cbn [mret M_ret db].
  f_equal. destruct w as [c d k t o]. cbn. f_equal.
  destruct d. unfold DB.set_subscribed_publishers, DB.remove. cbn. f_equal.
  cbn in Hsub. apply set_eq. intros x.
  rewrite elem_of_difference, elem_of_union, elem_of_singleton.
  split; [by intros [[?|?] ?]|]. intros Hx. split; [by right|].
  by intros ->.
Qed.

Lemma subscribe_unsubscribe_publisher_witness :
  serve (views.unsubscribe_from_publisher (fixture.request 5 "DELETE" ∅) 1)
        (serve (views.subscribe_to_publisher (fixture.request 5 "POST" ∅) 1)
               fixture.w0).2
  = (Response
       (JObject [("message",
                  JString "Successfully unsubscribed from Daily Planet")])
       200, fixture.w0).
Proof.
  apply (subscribe_unsubscribe_publisher fixture.w0
           (fixture.request 5 "POST" ∅) (fixture.request 5 "DELETE" ∅)
           5 1 fixture.rob fixture.planet); try reflexivity.
  apply (bool_decide_unpack _). by vm_compute.
Defined.

(** X12.  Once a reader has called [subscribe_to_publisher], whether the
    call was the first or a repeated one, every approved article of that
    publisher is in the reader's subscription feed. *)
Theorem subscribe_to_publisher_feed (w : World) (request : HttpRequest.t)
    (u publisher_id k : pk) (user : CustomUser.t) (publisher : Publisher.t)
    (a : Article.t) :
  views.request_user (db w) request = Some (u, user) →
  CustomUser.role user = Role.reader →
  DB.publishers (db w) !! publisher_id = Some publisher →
  HttpRequest.method request = "POST" →
  DB.articles (db w) !! k = Some a →
  Article.is_approved a = true →
  Article.publisher a = Some publisher_id →
  (k, a) ∈ views.SubscriptionArticlesView_get_queryset
             (db (serve (views.subscribe_to_publisher request publisher_id)
                        w).2) u user.
Proof.
  intros Hu Hrole Hp Hm Ha Happ Hpub. apply feed_elem; [done|].
  destruct (decide ((u, publisher_id) ∈ DB.subscribed_publishers (db w))).
  - rewrite (subscribe_to_publisher_already w request u publisher_id user
               publisher) by done.
    cbn [snd]. eauto 10.
  - rewrite (subscribe_to_publisher_new w request u publisher_id user
               publisher) by done.
    cbn [snd db DB.articles DB.set_subscribed_publishers
         DB.subscribed_publishers].
    split; [done|]. split; [done|]. left. exists publisher_id.
    split; [done|]. set_solver.
Qed.

Lemma subscribe_to_publisher_feed_witness :
  (1%positive, approved_row 2 (clock fixture.w0) 0 fixture.draft)
  ∈ views.SubscriptionArticlesView_get_queryset
      (db (serve (views.subscribe_to_publisher (fixture.request 5 "POST" ∅)
                    1) fixture.w_approved).2) 5 fixture.rob.
Proof.
  apply (subscribe_to_publisher_feed fixture.w_approved
           (fixture.request 5 "POST" ∅) 5 1 1 fixture.rob fixture.planet);
    reflexivity.
Defined.

(** X13.  The subscription endpoints serve readers only: for a logged-in
    user of any other role, none of the four API endpoints and neither of
    the two pages for journalists changes the store. *)
Theorem subscriptions_readers_only (w : World) (request : HttpRequest.t)
    (u target : pk) (user : CustomUser.t) :
  views.request_user (db w) request = Some (u, user) →
  CustomUser.role user ≠ Role.reader →
  db (serve (views.subscribe_to_publisher request target) w).2 = db w
  ∧ db (serve (views.unsubscribe_from_publisher request target) w).2 = db w
  ∧ db (serve (views.subscribe_to_journalist request target) w).2 = db w
  ∧ db (serve (views.unsubscribe_from_journalist request target) w).2 = db w
  ∧ db (serve (views.web_subscribe_to_journalist request target) w).2 = db w
  ∧ db (serve (views.web_unsubscribe_from_journalist request target) w).2
    = db w.
Proof.
  intros Hu Hrole.
  repeat split; rewrite serve_world;
    unfold views.subscribe_to_publisher, views.unsubscribe_from_publisher,
      views.subscribe_to_journalist, views.unsubscribe_from_journalist,
      views.web_subscribe_to_journalist,
      views.web_unsubscribe_from_journalist, views.api_view;
    rewrite ?(login_required_run _ u user) by done;
    rewrite ?read_db_run, ?Hu; cbv beta;
    repeat case_bool_decide;
    first [done
          |by destruct (decide (CustomUser.role user ≠ Role.reader))].
Qed.

Lemma subscriptions_readers_only_witness :
  db (serve (views.subscribe_to_publisher (fixture.request 3 "POST" ∅) 1)
            fixture.w0).2 = db fixture.w0.
Proof.
  by destruct (subscriptions_readers_only fixture.w0
                 (fixture.request 3 "POST" ∅) 3 1 fixture.jo eq_refl)
       as (Hdb & _).
Defined.

(** X14.  On a POST the page and the API endpoint for following a
    journalist leave the same store behind, and so do the page and the
    endpoint for unfollowing. *)
Theorem web_and_api_agree (w : World) (request : HttpRequest.t)
    (journalist_id : pk) :
  HttpRequest.method request = "POST" →
  db (serve (views.web_subscribe_to_journalist request journalist_id) w).2
  = db (serve (views.subscribe_to_journalist request journalist_id) w).2
  ∧ db (serve (views.web_unsubscribe_from_journalist request journalist_id)
              w).2
    = db (serve (views.unsubscribe_from_journalist request journalist_id)
                w).2.
Proof.
  intros Hm.
  split; rewrite !serve_world;
    unfold views.web_subscribe_to_journalist, views.subscribe_to_journalist,
      views.web_unsubscribe_from_journalist,
      views.unsubscribe_from_journalist, views.api_view,
      views.login_required;
    rewrite !read_db_run; cbv beta;
    (destruct (views.request_user (db w) request) as [[u user]|]; [|done]);
    rewrite Hm, bool_decide_eq_true_2 by set_solver;
    (destruct (decide (CustomUser.role user ≠ Role.reader)); [done|]);
    rewrite !read_db_run;
    (destruct (views.get_journalist_or_404 (db w) journalist_id); [|done]);
    by destruct (decide _).
Qed.

Lemma web_and_api_agree_witness :
  bool_decide
    ((5%positive, 6%positive)
     ∈ DB.subscribed_journalists
         (db (serve (views.subscribe_to_journalist
                       (fixture.request 5 "POST" ∅) 6) fixture.w0).2))
  = true.
Proof.
  destruct (web_and_api_agree fixture.w0 (fixture.request 5 "POST" ∅) 6
              eq_refl) as [<- _].
  by vm_compute.
Defined.

(** * The lists of articles *)

#[global] Instance latest_first_trans : Transitive views.latest_first.
Proof. intros x y z. unfold views.latest_first. lia. Qed.

#[global] Instance latest_first_total : Total views.latest_first.
Proof. intros x y. unfold views.latest_first. lia. Qed.

Lemma pending_queue_elem (d : DB.t) (k : pk) (a : Article.t) :
  (k, a) ∈ views.PendingArticlesView_get_queryset d
  ↔ DB.articles d !! k = Some a
    ∧ Article.is_approved a = false ∧ Article.is_rejected a = false.
Proof.
  unfold views.PendingArticlesView_get_queryset.
  rewrite merge_sort_Permutation, list_elem_of_filter, elem_of_map_to_list.
  simpl. rewrite andb_True, !negb_True, !Is_true_false. tauto.
Qed.

Lemma article_list_elem (d : DB.t) (k : pk) (a : Article.t) :
  (k, a) ∈ views.ArticleListView_get_queryset d
  ↔ DB.articles d !! k = Some a ∧ Article.is_approved a = true.
Proof.
  unfold views.ArticleListView_get_queryset.
  rewrite merge_sort_Permutation, list_elem_of_filter, elem_of_map_to_list.
  simpl. rewrite Is_true_true. tauto.
Qed.

(** The row a POST to [reject_article] leaves behind. *)
Lemma reject_article_row (w : World) (request : HttpRequest.t) (pk_ u : pk)
    (user : CustomUser.t) (article : Article.t) :
  views.request_user (db w) request = Some (u, user) →
  DB.articles (db w) !! pk_ = Some article →
  HttpRequest.method request = "POST" →
  ∃ row,
    DB.articles (db (serve (views.reject_article request pk_) w).2) !! pk_
    = Some row
    ∧ Article.is_approved row = false ∧ Article.is_rejected row = true.
Proof.
  intros Hu Ha Hm. rewrite serve_world. unfold views.reject_article.
  rewrite (login_required_run _ u user) by done.
  cbv beta. rewrite read_db_run. cbv beta. rewrite Ha.
  destruct (decide _); [|done].
  rewrite bind_run. cbn [timezone_now]. rewrite bind_run.
  rewrite Article_save_unapproved; [|cbn [db]; by rewrite Ha|done].
  repeat (rewrite bind_run;
          cbn [views.messages_success emit mret M_ret snd db]).
  eexists. cbn [DB.articles DB.set_articles].
  rewrite lookup_insert_eq. done.
Qed.

(** X15.  The editors' queue is ordered, the latest created first.  A POST
    to [reject_article] takes the article out of the queue and out of the
    public list; a POST to [approve_article] on a queued article takes it
    out of the queue and puts it on the public list. *)
Theorem decisions_leave_queue (w : World) (request : HttpRequest.t)
    (pk_ u : pk) (user : CustomUser.t) (article : Article.t) :
  views.request_user (db w) request = Some (u, user) →
  DB.articles (db w) !! pk_ = Some article →
  HttpRequest.method request = "POST" →
  let rejected := db (serve (views.reject_article request pk_) w).2 in
  let approved := db (serve (views.approve_article request pk_) w).2 in
  StronglySorted views.latest_first
    (views.PendingArticlesView_get_queryset (db w))
  ∧ (pk_ ∉ (views.PendingArticlesView_get_queryset rejected).*1)
  ∧ (pk_ ∉ (views.ArticleListView_get_queryset rejected).*1)
  ∧ ((pk_, article) ∈ views.PendingArticlesView_get_queryset (db w) →
     (pk_ ∉ (views.PendingArticlesView_get_queryset approved).*1)
     ∧ (pk_ ∈ (views.ArticleListView_get_queryset approved).*1)).
Proof.
  intros Hu Ha Hm. cbv zeta. split; [|split; [|split]].
  - apply StronglySorted_merge_sort; apply _.
  - destruct (reject_article_row w request pk_ u user article Hu Ha Hm)
      as (row & Hrow & Happ & Hrej).
    intros ([k a] & -> & Hin)%list_elem_of_fmap.
    apply pending_queue_elem in Hin as (Hk & _ & Hno). cbn [fst] in *.
    congruence.
  - destruct (reject_article_row w request pk_ u user article Hu Ha Hm)
      as (row & Hrow & Happ & Hrej).
    intros ([k a] & -> & Hin)%list_elem_of_fmap.
    apply article_list_elem in Hin as (Hk & Hyes). cbn [fst] in *. congruence.
  - intros (_ & Happ & Hrej)%pending_queue_elem.
    destruct (approve_article_ignores_role w request pk_ u user article
                Hu Ha Hrej Happ Hm) as (row & Hrow & Hreview).
    unfold review in Hreview. injection Hreview as Hyes _ _ _ _ _. split.
    + intros ([k a] & -> & Hin)%list_elem_of_fmap.
      apply pending_queue_elem in Hin as (Hk & Hno & _). cbn [fst] in *.
      congruence.
    + apply list_elem_of_fmap. exists (pk_, row). split; [done|].
      by apply article_list_elem.
Qed.

Lemma decisions_leave_queue_witness :
  (1%positive ∉ (views.PendingArticlesView_get_queryset
                   (db fixture.w_rejected)).*1)
  ∧ (1%positive ∈ (views.ArticleListView_get_queryset
                     (db fixture.w_approved)).*1).
Proof.
  destruct (decisions_leave_queue fixture.w0
              (fixture.request 2 "POST" {[ "reason" := "Too thin" ]})
              1 2 fixture.ed fixture.draft eq_refl eq_refl eq_refl)
    as (_ & Hrejected & _ & _).
  destruct (decisions_leave_queue fixture.w0 (fixture.request 2 "POST" ∅)
              1 2 fixture.ed fixture.draft eq_refl eq_refl eq_refl)
    as (_ & _ & _ & Happroved).
  split; [exact Hrejected|].
  apply Happroved. apply pending_queue_elem. by vm_compute.
Defined.

(** X16.  After a journalist's successful edit of a rejected article of
    their own, the article is back in the editors' queue. *)
Theorem edit_article_requeues (w w' : World) (request : HttpRequest.t)
    (pk_ u : pk) (user : CustomUser.t) (article : Article.t) :
  views.request_user (db w) request = Some (u, user) →
  CustomUser.role user = Role.journalist →
  DB.articles (db w) !! pk_ = Some article →
  Article.is_rejected article = true →
  serve (views.edit_article request pk_) w
  = (redirect "article_detail" [pk_], w') →
  (pk_ ∉ (views.PendingArticlesView_get_queryset (db w)).*1)
  ∧ (pk_ ∈ (views.PendingArticlesView_get_queryset (db w')).*1).
Proof.
  intros Hu Hrole Ha Hrej. split.
  { intros ([k a] & -> & Hin)%list_elem_of_fmap.
    apply pending_queue_elem in Hin as (Hk & _ & Hno). cbn [fst] in *.
    congruence. }
  revert H. unfold serve, views.edit_article.
  rewrite (login_required_run _ u user) by done.
  cbv beta. rewrite read_db_run. cbv beta. rewrite Ha, Hrole.
  destruct (decide (Role.journalist = Role.journalist)); [|done].
  destruct (decide (Article.author article ≠ u)); [done|].
  destruct (Article.is_approved article) eqn:Happ; [done|].
  pose proof (edit_article_form_run request pk_ user article w) as Hform.
  cbv zeta in Hform. rewrite Hrole, Hrej in Hform.
  rewrite bool_decide_eq_true_2 in Hform by done. cbn [andb] in Hform.
  destruct (views.edit_article_form request pk_ user article w)
    as [[err|r] w1]; [done|].
  intros [= -> ->]. cbn [fst snd] in Hform.
  destruct Hform as [[_ ?]|(row & -> & Hrow)]; [done|].
  unfold review in Hrow. injection Hrow as Hno _ Hnr _ _ _.
  apply list_elem_of_fmap. exists (pk_, row). split; [done|].
  apply pending_queue_elem. cbn [db DB.articles DB.set_articles].
  rewrite lookup_insert_eq. by rewrite Hno, Hnr, Happ.
Qed.

Lemma edit_article_requeues_witness :
  1%positive
  ∈ (views.PendingArticlesView_get_queryset
       (db (serve (views.edit_article (newsroom.edit 3) 1)
                  fixture.w_rejected).2)).*1.
Proof.
  apply (edit_article_requeues fixture.w_rejected
           (serve (views.edit_article (newsroom.edit 3) 1)
                  fixture.w_rejected).2
           (newsroom.edit 3) 1 3 fixture.jo
           (Article.set_updated_at 1001000000
              (Article.set_rejected_reason (Some "Too thin")
                 (Article.set_rejected_date (Some 1000000000%Z)
                    (Article.set_rejected_by (Some 2%positive)
                       (Article.set_is_rejected true fixture.draft))))));
    by vm_compute.
Defined.

Lemma article_detail_elem (d : DB.t) (user : option (pk * CustomUser.t))
    (k : pk) (article : Article.t) :
  DB.articles d !! k = Some article →
  k ∈ (views.ArticleDetailView_get_queryset d user).*1
  ↔ Article.is_approved article = true
    ∨ ∃ u row, user = Some (u, row)
               ∧ (CustomUser.role row = Role.editor
                  ∨ (CustomUser.role row = Role.journalist
                     ∧ Article.author article = u)).
Proof.
  intros Ha. rewrite list_elem_of_fmap.
  assert (Hrow : ∀ P : pk * Article.t → bool,
            (∃ y, k = y.1
                  ∧ y ∈ filter (λ row, P row) (map_to_list (DB.articles d)))
            ↔ P (k, article)).
  { intros P. split.
    - intros ([k' a] & -> & (HP & Hin%elem_of_map_to_list)%list_elem_of_filter).
      cbn [fst] in *. by replace article with a by congruence.
    - intros HP. exists (k, article). split; [done|].
      apply list_elem_of_filter. by rewrite elem_of_map_to_list. }
  unfold views.ArticleDetailView_get_queryset.
  destruct user as [[u row]|].
  - destruct (decide (CustomUser.role row = Role.editor)) as [He|He].
    + split; [intros _; right; eauto 6|].
      intros _. exists (k, article). by rewrite elem_of_map_to_list.
    + destruct (decide (CustomUser.role row = Role.journalist)) as [Hj|Hj].
      * rewrite Hrow. cbn [snd].
        rewrite orb_True, Is_true_true, bool_decide_spec. split.
        -- intros [?|?]; [by left|right; eauto 8].
        -- intros [?|(? & ? & [= <- <-] & [?|[_ ?]])]; auto; done.
      * rewrite Hrow. cbn [snd].
        rewrite Is_true_true. split; [by left|].
        intros [?|(? & ? & [= <- <-] & [?|[? _]])]; done.
  - rewrite Hrow. cbn [snd].
    rewrite Is_true_true. split; [by left|].
    by intros [?|(? & ? & ? & _)].
Qed.

(** X17.  The detail page shows an approved article to everyone.  An
    article that is not approved it shows to editors and to the journalist
    who wrote it; every other request for it, logged in or not, gets 404. *)
Theorem article_detail_visibility (d : DB.t) (request : HttpRequest.t)
    (pk_ : pk) (article : Article.t) :
  DB.articles d !! pk_ = Some article →
  let may_read :=
    Article.is_approved article = true
    ∨ ∃ u user, views.request_user d request = Some (u, user)
                ∧ (CustomUser.role user = Role.editor
                   ∨ (CustomUser.role user = Role.journalist
                      ∧ Article.author article = u)) in
  (may_read →
   views.ArticleDetailView_get d request pk_
   = render "news_app/article_detail.html")
  ∧ (¬ may_read → views.ArticleDetailView_get d request pk_ = Http404).
Proof.
  intros Ha may_read. unfold views.ArticleDetailView_get.
  pose proof (article_detail_elem d (views.request_user d request) pk_
                article Ha) as Hiff.
  fold may_read in Hiff. split; intros Hread.
  - rewrite bool_decide_eq_true_2; [done|]. by apply Hiff.
  - rewrite bool_decide_eq_false_2; [done|]. by rewrite Hiff.
Qed.

Lemma article_detail_visibility_witness :
  views.ArticleDetailView_get fixture.d0 (fixture.request 3 "GET" ∅) 1
  = render "news_app/article_detail.html"
  ∧ views.ArticleDetailView_get fixture.d0 (fixture.request 1 "GET" ∅) 1
    = Http404.
Proof.
  split.
  - apply (article_detail_visibility fixture.d0 (fixture.request 3 "GET" ∅)
             1 fixture.draft eq_refl).
    right. exists 3%positive, fixture.jo. by vm_compute; auto.
  - apply (article_detail_visibility fixture.d0 (fixture.request 1 "GET" ∅)
             1 fixture.draft eq_refl).
    intros [?|(u & user & Hu & Hrole)]; [done|].
    vm_compute in Hu. injection Hu as <- <-.
    by destruct Hrole as [?|[? _]].
Defined.

(** X18.  The two counts on a journalist's page add up to the number of
    articles listed, a rejected article counting among the pending ones;
    the list holds exactly the articles of that author, the latest created
    first. *)
Theorem my_articles_counts (d : DB.t) (u : pk) :
  (views.my_articles_pending_count d u
   + views.my_articles_approved_count d u
   = length (views.my_articles_queryset d u))%nat
  ∧ (∀ k a, (k, a) ∈ views.my_articles_queryset d u
            ↔ DB.articles d !! k = Some a ∧ Article.author a = u)
  ∧ StronglySorted views.latest_first (views.my_articles_queryset d u)
  ∧ (∀ k a, (k, a) ∈ views.my_articles_queryset d u →
            Article.is_approved a = false →
            (0 < views.my_articles_pending_count d u)%nat).
Proof.
  unfold views.my_articles_pending_count, views.my_articles_approved_count.
  split; [|split; [|split]].
  - induction (views.my_articles_queryset d u) as [|[k a] l IH]; [done|].
    rewrite !filter_cons. cbn [snd length].
    destruct (Article.is_approved a);
      repeat case_decide; try done; cbn [length]; lia.
  - intros k a. unfold views.my_articles_queryset.
    by rewrite merge_sort_Permutation, list_elem_of_filter,
      elem_of_map_to_list, (comm and).
  - apply StronglySorted_merge_sort; apply _.
  - intros k a Hin Hno.
    assert (Hcount : (k, a) ∈ filter
              (λ row : pk * Article.t, Article.is_approved row.2 = false)
              (views.my_articles_queryset d u))
      by by apply list_elem_of_filter.
    destruct (filter _ _); [by apply elem_of_nil in Hcount|simpl; lia].
Qed.

(** X19.  The home page lists at most ten articles, all of them approved,
    the first ten of the public list: an approved article that is left out
    was published no later than any article shown. *)
Theorem home_shows_newest (d : DB.t) :
  (length (views.home_articles d) ≤ 10)%nat
  ∧ views.home_articles d = take 10 (views.ArticleListView_get_queryset d)
  ∧ (∀ k a, (k, a) ∈ views.home_articles d →
            DB.articles d !! k = Some a ∧ Article.is_approved a = true)
  ∧ (∀ shown left_out,
       shown ∈ views.home_articles d →
       left_out ∈ drop 10 (views.ArticleListView_get_queryset d) →
       views.newest_first shown left_out).
Proof.
  assert (Hhome : views.home_articles d
                  = take 10 (views.ArticleListView_get_queryset d)) by done.
  rewrite Hhome. split; [|split; [|split]].
  - rewrite length_take. lia.
  - done.
  - intros k a Hin. apply article_list_elem.
    by apply (subseteq_take 10).
  - intros shown left_out Hshown Hleft.
    assert (Hsorted : StronglySorted views.newest_first
                        (take 10 (views.ArticleListView_get_queryset d)
                         ++ drop 10 (views.ArticleListView_get_queryset d))).
    { rewrite take_drop. apply StronglySorted_merge_sort; apply _. }
    clear Hhome. revert Hsorted Hshown.
    induction (take 10 (views.ArticleListView_get_queryset d)) as [|x l IH].
    + by intros _ ?%elem_of_nil.
    + cbn [app]. intros Hsorted [->|Hin]%elem_of_cons.
      * apply StronglySorted_inv in Hsorted as [_ Hall].
        rewrite Forall_forall in Hall. apply Hall.
        apply elem_of_app. by right.
      * apply StronglySorted_inv in Hsorted as [Hrest _]. by apply IH.
Qed.

(** * Users and their groups *)





(** * An approval by a user who is no editor *)

(** [Article.clean] never passes an article whose [approved_by] is not an
    editor of the user table. *)
Lemma Article_clean_approver (self : Article.t) (e : pk) (w : World) :
  Article.approved_by self = Some e →
  (∀ row, DB.users (db w) !! e = Some row →
          CustomUser.role row ≠ Role.editor) →
  ∃ err, models.Article_clean self w = (inl err, w).
Proof.
  intros Hby Hrole. unfold models.Article_clean.
  rewrite bind_run. unfold related at 1. rewrite read_db_run.
  destruct (DB.users (db w) !! Article.author self) as [author|];
    [|by eexists].
  cbn [mret M_ret]. rewrite bind_run.
  destruct (decide (CustomUser.role author ≠ Role.journalist));
    [by eexists|].
  cbn [mret M_ret]. rewrite bind_run, Hby, bind_run.
  unfold related. rewrite read_db_run.
  destruct (DB.users (db w) !! e) as [row|] eqn:He; [|by eexists].
  cbn [mret M_ret]. destruct (decide _) as [|Hno]; [by eexists|].
  destruct (Hno (Hrole row eq_refl)).
Qed.

(** X22.  Once [approved_by] names a user who is not an editor, as it does
    after [approve_article] was called by a reader or a journalist, the
    article cannot be edited through [edit_article] by anyone, editors
    included: the model validation of the form never passes, no request
    reports success and none changes the store. *)
Theorem edit_article_after_unqualified_approval (w : World)
    (request : HttpRequest.t) (pk_ e : pk) (article : Article.t) :
  DB.articles (db w) !! pk_ = Some article →
  Article.approved_by article = Some e →
  (∀ row, DB.users (db w) !! e = Some row →
          CustomUser.role row ≠ Role.editor) →
  (serve (views.edit_article request pk_) w).1
  ≠ redirect "article_detail" [pk_]
  ∧ db (serve (views.edit_article request pk_) w).2 = db w.
Proof.
  intros Ha Hby Hrole.
  assert (Hform : ∀ user,
    (views.edit_article_form request pk_ user article w).1
    ≠ inr (redirect "article_detail" [pk_])
    ∧ db (views.edit_article_form request pk_ user article w).2 = db w).
  { intros user. unfold views.edit_article_form.
    destruct (decide _); [|done].
    rewrite bind_run. unfold forms.ArticleForm_is_valid.
    rewrite read_db_run. cbv beta. rewrite bind_run. unfold passes.
    destruct (Article_clean_approver
                (forms.ArticleForm_construct (db w) request article) e w)
      as (err & ->).
    - unfold forms.ArticleForm_construct.
      by destruct (forms.cleaned_title request),
        (forms.cleaned_content request),
        (forms.cleaned_publisher (db w) request),
        (HttpRequest.FILES_image request), (forms.cleaned_summary request).
    - done.
    - destruct err; [done| |done|done].
      cbn [mret M_ret]. by rewrite andb_false_r. }
  assert (Hview :
    (views.edit_article request pk_ w).1
    ≠ inr (redirect "article_detail" [pk_])
    ∧ db (views.edit_article request pk_ w).2 = db w).
  { unfold views.edit_article, views.login_required.
    rewrite read_db_run. cbv beta.
    destruct (views.request_user (db w) request) as [[u user]|]; [|done].
    rewrite read_db_run. cbv beta. rewrite Ha.
    destruct (decide (CustomUser.role user = Role.journalist)).
    - destruct (decide _); [done|].
      destruct (Article.is_approved article); [done|apply Hform].
    - destruct (decide _); [done|apply Hform]. }
  unfold serve.
  destruct (views.edit_article request pk_ w) as [[err|r] w1];
    cbn [fst snd] in Hview |- *; destruct Hview as [Hr Hdb];
    (split; [congruence|done]).
Qed.

Lemma edit_article_after_unqualified_approval_witness :
  let w := (serve (views.approve_article (fixture.request 1 "POST" ∅) 1)
                  fixture.w0).2 in
  (serve (views.edit_article (newsroom.edit 2) 1) w).1
  = render "news_app/article_form.html"
  ∧ db (serve (views.edit_article (newsroom.edit 2) 1) w).2 = db w.
Proof.
  intros w.
  destruct (edit_article_after_unqualified_approval w (newsroom.edit 2) 1 1
              (approved_row 1 (clock fixture.w0) 0 fixture.draft))
    as [_ Hdb]; [by vm_compute|reflexivity| |].
  - intros row Hrow. vm_compute in Hrow. by injection Hrow as <-.
  - split; [by vm_compute|exact Hdb].
Defined.
